(** * Spreadsheet import of Gestão_Vendas.py

    A shallow embedding of the import pipeline of [SalesApp]
    ([tentar_mapeamento_automatico], [guess_mapping], [_worker_import]),
    of [ImportMappingWindow] and of [DatabaseManager.insert_multiple_sales],
    followed by the properties of the import that hold on that code.  The
    later modules embed the other methods of [DatabaseManager] on [vendas],
    the form and the table of sales of [SalesApp] ([salvar_dados],
    [excluir_venda_selecionada], [atualizar_tabela]), and the input checks
    of [CadernoVirtual] and [CalculadoraPrecoVenda].

    Python values are modelled as follows.
    - [str] is a [string] holding the UTF-8 bytes of the text.
    - [int] is [Z]; [float] is an IEEE binary64 value, [spec_float] with the
      operations of [SpecFloat] at precision 53 and maximal exponent 1024.
    - a [dict] whose iteration order is observed is an association list in
      insertion order; a [dict] that is only looked up is a [gmap].
    - an exception is a value of [exn]; code that may raise returns
      [exn + A]. *)

From Stdlib Require Import ZArith Ascii String List Bool Lia Sorted.
From Stdlib Require Import Floats.SpecFloat Numbers.DecimalString.
From Stdlib Require DecimalZ DecimalPos.
From stdpp Require Import base option list strings gmap.

Local Open Scope string_scope.
Local Open Scope list_scope.
Local Open Scope Z_scope.

(** ** Python primitives *)

Module Py.

(** The exceptions that the modelled code can raise.  [_worker_import]
    catches the first three kinds. *)
Inductive exn :=
| KeyError (key : string)
| ValueError (what : string) (arg : string)
| TypeError (what : string)
| OverflowError (what : string)
| SqliteError (what : string).

Definition result (A : Type) : Type := exn + A.

Definition ret {A} (a : A) : result A := inr a.
Definition raise {A} (e : exn) : result A := inl e.
Definition bind {A B} (x : result A) (k : A -> result B) : result B :=
  match x with
  | inl e => inl e
  | inr a => k a
  end.

(** A cell of a row as the tabular reader hands it over: text, an integer,
    or a float together with the text that [str] prints for it.  Cells of
    other kinds (dates, booleans) are outside the model. *)
Inductive cell :=
| CStr (s : string)
| CInt (n : Z)
| CFloat (f : spec_float) (repr : string).

Definition chars (s : string) : list ascii := list_ascii_of_string s.
Definition text (l : list ascii) : string := string_of_list_ascii l.

Definition code (a : ascii) : nat := nat_of_ascii a.

(** The blanks that [int] and [float] skip around a literal. *)
Definition is_blank (a : ascii) : bool :=
  let n := code a in
  ((9 <=? n)%nat && (n <=? 13)%nat) || (n =? 32)%nat.

Definition is_digit (a : ascii) : bool :=
  let n := code a in (48 <=? n)%nat && (n <=? 57)%nat.

Definition digit_value (a : ascii) : Z := Z.of_nat (code a) - 48.

Fixpoint lstrip {A} (blank : A -> bool) (l : list A) : list A :=
  match l with
  | a :: l' => if blank a then lstrip blank l' else l
  | [] => []
  end.

Definition strip_chars {A} (blank : A -> bool) (l : list A) : list A :=
  rev (lstrip blank (rev (lstrip blank l))).

(** *** Text as Unicode *)

Definition byte (a : ascii) : Z := Z.of_nat (code a).

Definition continuation (a : ascii) : bool := (128 <=? byte a) && (byte a <? 192).

(** A byte that begins no character; a [str] has none. *)
Definition stray (a : ascii) : Z * list ascii := (-1, [a]).

(** The characters of a text: the code point of each with the bytes that
    encode it in UTF-8. *)
Fixpoint utf8 (l : list ascii) : list (Z * list ascii) :=
  match l with
  | [] => []
  | a :: l1 =>
    if byte a <? 128 then (byte a, [a]) :: utf8 l1
    else if byte a <? 192 then stray a :: utf8 l1
    else
      match l1 with
      | [] => [stray a]
      | b :: l2 =>
        if byte a <? 224 then
          if continuation b
          then ((byte a - 192) * 64 + (byte b - 128), [a; b]) :: utf8 l2
          else stray a :: utf8 l1
        else
          match l2 with
          | [] => stray a :: utf8 l1
          | c :: l3 =>
            if byte a <? 240 then
              if continuation b && continuation c
              then ((byte a - 224) * 4096 + (byte b - 128) * 64 + (byte c - 128),
                    [a; b; c]) :: utf8 l3
              else stray a :: utf8 l1
            else
              match l3 with
              | [] => stray a :: utf8 l1
              | d :: l4 =>
                if continuation b && continuation c && continuation d
                then ((byte a - 240) * 262144 + (byte b - 128) * 4096
                      + (byte c - 128) * 64 + (byte d - 128),
                      [a; b; c; d]) :: utf8 l4
                else stray a :: utf8 l1
              end
          end
      end
  end.

(** [str.isspace] of the character with code point [n]. *)
Definition isspace (n : Z) : bool :=
  ((9 <=? n) && (n <=? 13)) || ((28 <=? n) && (n <=? 32))
  || (n =? 133) || (n =? 160) || (n =? 5760)
  || ((8192 <=? n) && (n <=? 8202))
  || (n =? 8232) || (n =? 8233) || (n =? 8239) || (n =? 8287) || (n =? 12288).

(** [s.strip()]: the whitespace of Unicode goes, at both ends. *)
Definition strip (s : string) : string :=
  text (List.concat
          (map snd (strip_chars (fun c => isspace (fst c)) (utf8 (chars s))))).

(** The code points of the digit zero of every script with decimal digits
    (Unicode 14.0, as Python 3.11 has it); the nine that follow each are
    the digits one to nine. *)
Definition decimal_zeros : list Z :=
  [ 48; 1632; 1776; 1984; 2406; 2534; 2662; 2790; 2918; 3046; 3174; 3302; 3430;
    3558; 3664; 3792; 3872; 4160; 4240; 6112; 6160; 6470; 6608; 6784; 6800;
    6992; 7088; 7232; 7248; 42528; 43216; 43264; 43472; 43504; 43600; 44016;
    65296; 66720; 68912; 69734; 69872; 69942; 70096; 70384; 70736; 70864;
    71248; 71360; 71472; 71904; 72016; 72784; 73040; 73120; 92768; 92864;
    93008; 120782; 120792; 120802; 120812; 120822; 123200; 123632; 125264;
    130032 ].

(** The decimal value of the character with code point [n], if it is a
    decimal digit. *)
Definition decimal (n : Z) : option Z :=
  match List.find (fun z => (z <=? n) && (n <? z + 10)) decimal_zeros with
  | Some z => Some (n - z)
  | None => None
  end.

(** What [int] and [float] make of the characters of a text that is not
    all ASCII before they read it: a character below 127 stays, whitespace
    becomes a space and a decimal digit the ASCII digit of its value; at the
    first other character the text ends in a question mark. *)
Fixpoint ascii_digits (cs : list (Z * list ascii)) : list ascii :=
  match cs with
  | [] => []
  | (n, bytes) :: cs' =>
    if (0 <=? n) && (n <? 127) then bytes ++ ascii_digits cs'
    else if isspace n then " "%char :: ascii_digits cs'
    else
      match decimal n with
      | Some d => ascii_of_nat (Z.to_nat (48 + d)) :: ascii_digits cs'
      | None => ["?"%char]
      end
  end.

(** The text of a numeric literal as [int] and [float] read it. *)
Definition literal (l : list ascii) : list ascii :=
  if forallb (fun a => byte a <? 128) l then l else ascii_digits (utf8 l).

(** [s.lower()] on UTF-8 text: the ASCII letters and the two-byte letters
    U+00C0..U+00DE (all but the multiplication sign U+00D7) move to their
    lower-case forms; nothing else lower-cases to a character that occurs in
    a keyword of [guess_mapping]. *)
Fixpoint lower_chars (after_c3 : bool) (l : list ascii) : list ascii :=
  match l with
  | [] => []
  | a :: l' =>
    let n := code a in
    if after_c3 then
      (if (128 <=? n)%nat && (n <=? 158)%nat && negb (n =? 151)%nat
       then ascii_of_nat (n + 32) else a) :: lower_chars false l'
    else if (65 <=? n)%nat && (n <=? 90)%nat
    then ascii_of_nat (n + 32) :: lower_chars false l'
    else a :: lower_chars (n =? 195)%nat l'
  end.

Definition lower (s : string) : string := text (lower_chars false (chars s)).

Fixpoint starts_with (p l : list ascii) : bool :=
  match p, l with
  | [], _ => true
  | _ :: _, [] => false
  | a :: p', b :: l' => Ascii.eqb a b && starts_with p' l'
  end.

Fixpoint contains_chars (p l : list ascii) : bool :=
  starts_with p l ||
  match l with
  | [] => false
  | _ :: l' => contains_chars p l'
  end.

(** [term in s] *)
Definition contains (term s : string) : bool :=
  contains_chars (chars term) (chars s).

(** [any(term in s for term in terms)] *)
Definition any_in (terms : list string) (s : string) : bool :=
  existsb (fun term => contains term s) terms.

(** [s.replace(",", ".")] *)
Definition replace_comma (s : string) : string :=
  text (map (fun a => if Ascii.eqb a ","%char then "."%char else a) (chars s)).

(** [str(n)] for an [int] *)
Definition str_of_int (n : Z) : string := NilZero.string_of_int (Z.to_int n).

(** [str(c)] *)
Definition str (c : cell) : string :=
  match c with
  | CStr s => s
  | CInt n => str_of_int n
  | CFloat _ r => r
  end.

(** *** Numeric literals *)

(** An underscore in a numeric literal must stand between two digits. *)
Fixpoint underscores_ok (prev : option ascii) (l : list ascii) : bool :=
  match l with
  | [] => match prev with
          | Some p => negb (Ascii.eqb p "_"%char)
          | None => true
          end
  | a :: l' =>
    (if Ascii.eqb a "_"%char
     then match prev with Some p => is_digit p | None => false end
     else match prev with
          | Some p => negb (Ascii.eqb p "_"%char) || is_digit a
          | None => true
          end)
    && underscores_ok (Some a) l'
  end.

Definition drop_underscores (l : list ascii) : list ascii :=
  List.filter (fun a => negb (Ascii.eqb a "_"%char)) l.

(** The sign of a literal and what follows it. *)
Definition split_sign (l : list ascii) : bool * list ascii :=
  match l with
  | a :: l' =>
    if Ascii.eqb a "-"%char then (true, l')
    else if Ascii.eqb a "+"%char then (false, l')
    else (false, l)
  | [] => (false, [])
  end.

(** The leading decimal digits of [l], and the rest. *)
Fixpoint span_digits (l : list ascii) : list ascii * list ascii :=
  match l with
  | a :: l' =>
    if is_digit a
    then let '(ds, rest) := span_digits l' in (a :: ds, rest)
    else ([], l)
  | [] => ([], [])
  end.

Definition digits_value (ds : list ascii) : Z :=
  fold_left (fun acc a => 10 * acc + digit_value a) ds 0.

(** [sys.get_int_max_str_digits()], as Python sets it. *)
Definition max_str_digits : nat := 4300.

(** [int(s)] for text: blanks around, a sign, decimal digits, after the
    whitespace and the digits of other scripts have been made ASCII. *)
Definition int_of_str (s : string) : result Z :=
  let l := strip_chars is_blank (literal (chars s)) in
  let '(neg, body) := split_sign l in
  let '(ds, rest) := span_digits (drop_underscores body) in
  match ds, rest with
  | _ :: _, [] =>
    if underscores_ok None body
    then
      if (length ds <=? max_str_digits)%nat
      then ret (if neg then - digits_value ds else digits_value ds)
      else raise (ValueError "Exceeds the limit (4300 digits) for integer string conversion" s)
    else raise (ValueError "invalid literal for int() with base 10" s)
  | _, _ => raise (ValueError "invalid literal for int() with base 10" s)
  end.

Definition prec : Z := 53.
Definition emax : Z := 1024.

Definition float_zero : spec_float := S754_zero false.

(** The binary64 value nearest to the integer [n] (ties to even). *)
Definition float_of_Z (n : Z) : spec_float := binary_normalize prec emax n 0 false.

(** The binary64 value nearest to [m * 10 ^ e], for [m >= 0]. *)
Definition float_of_decimal (neg : bool) (m e : Z) : spec_float :=
  match m with
  | Z0 => S754_zero neg
  | Zpos p =>
    let x :=
      if 0 <=? e
      then binary_normalize prec emax (m * 10 ^ e) 0 false
      else SFdiv prec emax (S754_finite false p 0)
                           (S754_finite false (Z.to_pos (10 ^ (- e))) 0)
    in if neg then SFopp x else x
  | Zneg _ => S754_nan
  end.

Definition lower_ascii (a : ascii) : ascii :=
  let n := code a in
  if (65 <=? n)%nat && (n <=? 90)%nat then ascii_of_nat (n + 32) else a.

Definition is_word (w : string) (l : list ascii) : bool :=
  String.eqb (text (map lower_ascii l)) w.

(** The exponent part of a float literal: empty, or [e], a sign, digits. *)
Definition exponent_of (l : list ascii) : option Z :=
  match l with
  | [] => Some 0
  | a :: l' =>
    if Ascii.eqb (lower_ascii a) "e"%char then
      let '(neg, body) := split_sign l' in
      let '(ds, rest) := span_digits body in
      match ds, rest with
      | _ :: _, [] => Some (if neg then - digits_value ds else digits_value ds)
      | _, _ => None
      end
    else None
  end.

(** [float(s)] for text: blanks around, a sign, then [inf], [infinity],
    [nan], or digits with an optional fraction and exponent.  The result is
    the nearest binary64 value; a literal too large gives an infinity.  As
    for [int], whitespace and digits of other scripts are made ASCII
    first. *)
Definition float_of_str (s : string) : result spec_float :=
  let bad := raise (ValueError "could not convert string to float" s) in
  if negb (underscores_ok None (literal (chars s))) then bad else
  let l := strip_chars is_blank (drop_underscores (literal (chars s))) in
  let '(neg, body) := split_sign l in
  if is_word "inf" body || is_word "infinity" body
  then ret (S754_infinity neg)
  else if is_word "nan" body then ret S754_nan
  else
    let '(ip, rest) := span_digits body in
    let '(fp, rest') :=
      match rest with
      | a :: r => if Ascii.eqb a "."%char then span_digits r else ([], rest)
      | [] => ([], [])
      end in
    match ip ++ fp with
    | [] => bad
    | _ :: _ =>
      match exponent_of rest' with
      | Some e =>
        ret (float_of_decimal neg (digits_value (ip ++ fp))
                              (e - Z.of_nat (length fp)))
      | None => bad
      end
    end.

(** [int(x)] for a float: truncation toward zero. *)
Definition int_of_float (f : spec_float) : result Z :=
  match f with
  | S754_zero _ => ret 0
  | S754_nan => raise (ValueError "cannot convert float NaN to integer" "")
  | S754_infinity _ => raise (OverflowError "cannot convert float infinity to integer")
  | S754_finite neg m e =>
    let a := if 0 <=? e then Z.shiftl (Zpos m) e else Z.shiftr (Zpos m) (- e) in
    ret (if neg then - a else a)
  end.

(** [int(c)] *)
Definition int (c : cell) : result Z :=
  match c with
  | CStr s => int_of_str s
  | CInt n => ret n
  | CFloat f _ => int_of_float f
  end.

(** [n * x] for an [int] and a [float]: the integer is first converted. *)
Definition mul_int_float (n : Z) (x : spec_float) : result spec_float :=
  match float_of_Z n with
  | S754_infinity _ => raise (OverflowError "int too large to convert to float")
  | fn => ret (SFmul prec emax fn x)
  end.

(** [x < 0] for a float *)
Definition float_negative (x : spec_float) : bool := SFltb x float_zero.

End Py.

Notation "'let*' x ':=' c1 'in' c2" := (Py.bind c1 (fun x => c2))
  (at level 10, x name, c1 at level 100, c2 at level 200).

(** ** What the interface shows *)

Module Tk.

(** A message box, or a call that the worker schedules on the event loop
    with [root.after(0, ...)].  The events of a run are kept in the order in
    which they are raised. *)
Inductive event :=
| ShowInfo (title message : string)
| ShowWarning (title message : string)
| ShowError (title message : string)
| ProgressConfig (value : Z)
| DestroyProgressWindow
| AtualizarTabela.

End Tk.

(** ** DatabaseManager *)

Module DatabaseManager.
Import Py.

(** The tuple bound to one INSERT into [vendas]. *)
Record sale := {
  nome_cliente : string;
  nome_produto : string;
  quantidade : Z;
  preco : spec_float;
  tipo_pagamento : string;
  preco_final : spec_float;
  nome_vendedor : string;
  data_hora : string
}.

(** The table [vendas], oldest row first, with the counter that
    AUTOINCREMENT keeps for it. *)
Record store := {
  vendas : list (Z * sale);
  seq : Z
}.

(** The connection: what is committed, and the working copy of an open
    transaction when there is one. *)
Record connection := {
  committed : store;
  pending : option store
}.

Definition visible (c : connection) : store :=
  match pending c with
  | Some s => s
  | None => committed c
  end.

(** Failures of the engine itself (a full disk, a locked file) are not
    decided by the program: [stmt_fails k] says that the [k]-th statement
    of a bulk insert raises [sqlite3.Error], [commit_fails] that the commit
    does. *)
Record faults := {
  stmt_fails : nat -> bool;
  commit_fails : bool
}.

Definition no_faults : faults :=
  {| stmt_fails := fun _ => false; commit_fails := false |}.

Definition max_id (l : list (Z * sale)) : Z :=
  fold_left (fun m r => Z.max m (fst r)) l 0.

Definition next_id (s : store) : Z := Z.max (seq s) (max_id (vendas s)) + 1.

(** An [int] is bound as a 64-bit integer. *)
Definition fits_int64 (n : Z) : bool := (- 2 ^ 63 <=? n) && (n <? 2 ^ 63).

Definition insert_row (s : store) (v : sale) : store :=
  {| vendas := vendas s ++ [(next_id s, v)]; seq := next_id s |}.

(** The statements of [cursor.executemany], from the [k]-th on. *)
Fixpoint execute_each (fl : faults) (k : nat) (s : store) (l : list sale)
  : store * option exn :=
  match l with
  | [] => (s, None)
  | v :: l' =>
    if negb (fits_int64 (quantidade v))
    then (s, Some (OverflowError "Python int too large to convert to SQLite INTEGER"))
    else if stmt_fails fl k || negb (fits_int64 (next_id s))
    then (s, Some (SqliteError "INSERT INTO vendas"))
    else execute_each fl (S k) (insert_row s v) l'
  end.

(** [self.cursor.executemany("INSERT INTO vendas ...", sales_data_list)]:
    a transaction is opened when none is, and stays open. *)
Definition executemany (fl : faults) (c : connection) (l : list sale)
  : connection * option exn :=
  let '(s, e) := execute_each fl 0 (visible c) l in
  ({| committed := committed c; pending := Some s |}, e).

(** [self.conn.commit()] *)
Definition commit (fl : faults) (c : connection) : connection * option exn :=
  if commit_fails fl then (c, Some (SqliteError "commit"))
  else ({| committed := visible c; pending := None |}, None).

(** [self.conn.rollback()] *)
Definition rollback (c : connection) : connection :=
  {| committed := committed c; pending := None |}.

Definition erro_insercao (e : exn) : Tk.event :=
  Tk.ShowError "Erro de Banco de Dados"
    ("Erro ao inserir múltiplas vendas: " ++
     match e with SqliteError m => m | _ => "" end).

(** [insert_multiple_sales]: the connection afterwards, the message boxes
    shown, and the value returned or the exception that is not caught. *)
Definition insert_multiple_sales (fl : faults) (c : connection)
    (sales_data_list : list sale) : connection * list Tk.event * result bool :=
  match executemany fl c sales_data_list with
  | (c1, None) =>
    match commit fl c1 with
    | (c2, None) => (c2, [], ret true)
    | (c2, Some (SqliteError m)) =>
      (rollback c2, [erro_insercao (SqliteError m)], ret false)
    | (c2, Some e) => (c2, [], raise e)
    end
  | (c1, Some (SqliteError m)) =>
    (rollback c1, [erro_insercao (SqliteError m)], ret false)
  | (c1, Some e) => (c1, [], raise e)
  end.

End DatabaseManager.

(** ** SalesApp: the import *)

Module SalesApp.
Import Py DatabaseManager.

(** A [dict] from text to text, in insertion order. *)
Definition dict : Type := list (string * string).

Fixpoint dict_get (k : string) (d : dict) : option string :=
  match d with
  | [] => None
  | (k', v) :: d' => if String.eqb k k' then Some v else dict_get k d'
  end.

Definition dict_mem (k : string) (d : dict) : bool :=
  match dict_get k d with Some _ => true | None => false end.

(** [d[k] = v]: an existing key keeps its place. *)
Fixpoint dict_set (k v : string) (d : dict) : dict :=
  match d with
  | [] => [(k, v)]
  | (k', v') :: d' =>
    if String.eqb k k' then (k, v) :: d' else (k', v') :: dict_set k v d'
  end.

(** A row of the sheet: the cells under their column names. *)
Definition series : Type := list (string * cell).

Record dataframe := {
  columns : list string;
  iterrows : list series
}.

Fixpoint series_lookup (k : string) (row : series) : option cell :=
  match row with
  | [] => None
  | (k', c) :: row' => if String.eqb k k' then Some c else series_lookup k row'
  end.

(** [row[k]] *)
Definition row_getitem (row : series) (k : string) : result cell :=
  match series_lookup k row with
  | Some c => ret c
  | None => raise (KeyError k)
  end.

(** [row.get(k, default)], where [k] is [None] or a column name. *)
Definition row_get (row : series) (k : option string) (default : cell) : cell :=
  match k with
  | Some k' =>
    match series_lookup k' row with
    | Some c => c
    | None => default
    end
  | None => default
  end.

Definition system_fields : list string :=
  [ "Nome do Cliente"; "Nome do Produto"; "Quantidade";
    "Valor por unidade (R$)"; "Tipo de Pagamento"; "Nome do Vendedor" ].

Definition required_fields : gset string :=
  {[ "Nome do Cliente"; "Nome do Produto"; "Quantidade"; "Valor por unidade (R$)" ]}.

Definition guess_mapping (column_name : string) : string :=
  let col := strip (lower column_name) in
  if any_in ["cliente"; "comprador"] col then "Nome do Cliente"
  else if any_in ["produto"; "item"; "descrição"] col then "Nome do Produto"
  else if any_in ["qtd"; "quant"; "quantidade"] col then "Quantidade"
  else if any_in ["valor unit"; "preço unit"; "preco unit"; "valor unid"; "preço unid"] col
  then "Valor por unidade (R$)"
  else if contains "vendedor" col then "Nome do Vendedor"
  else if any_in ["valor"; "preço"; "preco"] col then "Valor por unidade (R$)"
  else if contains "pagamento" col || any_in ["forma"; "tipo"] col
  then "Tipo de Pagamento"
  else if contains "nome" col then "Nome do Cliente"
  else "Ignorar".

(** The inner loop of [tentar_mapeamento_automatico]: the first column
    guessed as [field] that is not yet a key of [mapping]. *)
Fixpoint first_col (field : string) (mapping : dict) (cols : list string)
  : option string :=
  match cols with
  | [] => None
  | col :: cols' =>
    if String.eqb (guess_mapping col) field && negb (dict_mem col mapping)
    then Some col
    else first_col field mapping cols'
  end.

(** One round of its outer loop. *)
Definition map_field (sheet_columns : list string)
    (st : dict * gset string) (field : string) : dict * gset string :=
  let '(mapping, found_fields) := st in
  match first_col field mapping sheet_columns with
  | Some col =>
    (dict_set col field mapping,
     if decide (field ∈ required_fields) then {[ field ]} ∪ found_fields
     else found_fields)
  | None => st
  end.

Definition tentar_mapeamento_automatico (sheet_columns : list string)
  : dict * gset string :=
  let '(mapping, found_fields) :=
    fold_left (map_field sheet_columns) system_fields ([], ∅) in
  (mapping, required_fields ∖ found_fields).

(** [{v: k for k, v in mapping.items()}] *)
Definition system_to_sheet (mapping : dict) : gmap string string :=
  fold_left (fun m kv => <[ snd kv := fst kv ]> m) mapping ∅.

(** [d[k]] on the inverted mapping *)
Definition field_column (s2s : gmap string string) (field : string) : result string :=
  match s2s !! field with
  | Some col => ret col
  | None => raise (KeyError field)
  end.

(** The body of the [try] in [_worker_import] up to the [append]:
    [Some] of the tuple to insert, or [None] when the row is passed over by
    the validity test. *)
Definition convert_row (s2s : gmap string string) (now : string) (row : series)
  : result (option sale) :=
  let* c1 := field_column s2s "Nome do Cliente" in
  let* v1 := row_getitem row c1 in
  let nome_cliente := str v1 in
  let* c2 := field_column s2s "Nome do Produto" in
  let* v2 := row_getitem row c2 in
  let nome_produto := str v2 in
  let* c3 := field_column s2s "Quantidade" in
  let* v3 := row_getitem row c3 in
  let* quantidade := int v3 in
  let* c4 := field_column s2s "Valor por unidade (R$)" in
  let* v4 := row_getitem row c4 in
  let* preco_unitario := float_of_str (replace_comma (str v4)) in
  let tipo_pagamento :=
    str (row_get row (s2s !! "Tipo de Pagamento") (CStr "Não Informado")) in
  let nome_vendedor :=
    str (row_get row (s2s !! "Nome do Vendedor") (CStr "Importado")) in
  if String.eqb nome_cliente "" || String.eqb nome_produto ""
     || (quantidade <=? 0) || float_negative preco_unitario
  then ret None
  else
    let* preco_final := mul_int_float quantidade preco_unitario in
    ret (Some {| nome_cliente := nome_cliente;
                 nome_produto := nome_produto;
                 quantidade := quantidade;
                 preco := preco_unitario;
                 tipo_pagamento := tipo_pagamento;
                 preco_final := preco_final;
                 nome_vendedor := nome_vendedor;
                 data_hora := now |}).

(** [except (KeyError, ValueError, TypeError)] *)
Definition caught (e : exn) : bool :=
  match e with
  | KeyError _ | ValueError _ _ | TypeError _ => true
  | _ => false
  end.

(** What the loop of [_worker_import] has produced so far: the batch, the
    lines printed (the sheet line and the error of each), and the events
    scheduled. *)
Record progress := {
  sales_to_insert : list sale;
  printed : list (Z * exn);
  scheduled : list Tk.event
}.

Definition start : progress :=
  {| sales_to_insert := []; printed := []; scheduled := [] |}.

(** [for index, row in df.iterrows(): ...], from row [index] on.  The index
    of a sheet as [read_csv] and [read_excel] return it is the position of
    the row, from 0; [clock i] is what [datetime.now()] prints while row [i]
    is converted.  The [print] of the [except] clause is taken to succeed.
    The second component is the exception of the conversion that ends the
    loop, if one escapes. *)
Fixpoint import_rows (s2s : gmap string string) (clock : nat -> string)
    (index : nat) (rows : list series) (st : progress) : progress * option exn :=
  match rows with
  | [] => (st, None)
  | row :: rows' =>
    match convert_row s2s (clock index) row with
    | inr (Some v) =>
      import_rows s2s clock (S index) rows'
        {| sales_to_insert := sales_to_insert st ++ [v];
           printed := printed st;
           scheduled := scheduled st ++ [Tk.ProgressConfig (Z.of_nat index + 1)] |}
    | inr None => import_rows s2s clock (S index) rows' st
    | inl e =>
      if caught e
      then import_rows s2s clock (S index) rows'
             {| sales_to_insert := sales_to_insert st;
                printed := printed st ++ [(Z.of_nat index + 2, e)];
                scheduled := scheduled st |}
      else (st, Some e)
    end
  end.

(** The result of a run of the worker. *)
Record outcome := {
  conn : connection;
  batch : list sale;
  stdout : list (Z * exn);
  events : list Tk.event;
  inserted : option bool;
  uncaught : option exn
}.

Definition sucesso (n : nat) : Tk.event :=
  Tk.ShowInfo "Sucesso"
    (str_of_int (Z.of_nat n) ++ " registros importados com sucesso!").

Definition nenhum_registro : Tk.event :=
  Tk.ShowWarning "Aviso" "Nenhum registro válido encontrado para importação.".

Definition _worker_import (fl : faults) (clock : nat -> string)
    (c : connection) (df : dataframe) (mapping : dict) : outcome :=
  let s2s := system_to_sheet mapping in
  match import_rows s2s clock 0 (iterrows df) start with
  | (st, Some e) =>
    {| conn := c; batch := sales_to_insert st; stdout := printed st;
       events := scheduled st; inserted := None; uncaught := Some e |}
  | (st, None) =>
    let finish := [Tk.DestroyProgressWindow; Tk.AtualizarTabela] in
    match sales_to_insert st with
    | _ :: _ =>
      match insert_multiple_sales fl c (sales_to_insert st) with
      | (c', shown, inr success) =>
        {| conn := c'; batch := sales_to_insert st; stdout := printed st;
           events := scheduled st ++ shown
                     ++ (if success then [sucesso (length (sales_to_insert st))] else [])
                     ++ finish;
           inserted := Some success; uncaught := None |}
      | (c', shown, inl e) =>
        {| conn := c'; batch := sales_to_insert st; stdout := printed st;
           events := scheduled st ++ shown; inserted := None; uncaught := Some e |}
      end
    | [] =>
      {| conn := c; batch := []; stdout := printed st;
         events := scheduled st ++ [nenhum_registro] ++ finish;
         inserted := None; uncaught := None |}
    end
  end.

End SalesApp.

(** ** ImportMappingWindow *)

Module ImportMappingWindow.
Import Py SalesApp.

(** The choices of every combobox. *)
Definition combo_values : list string := "Ignorar" :: system_fields.

(** [__init__]: the combobox of each column of the sheet, set from
    [initial_mapping] when it is non-empty and has the column, and from
    [guess_mapping] otherwise. *)
Definition init (df : dataframe) (initial_mapping : dict) : dict :=
  fold_left
    (fun column_mappings col =>
       dict_set col
         (match initial_mapping, dict_get col initial_mapping with
          | _ :: _, Some field => field
          | _, _ => guess_mapping col
          end)
         column_mappings)
    (columns df) [].

(** [confirm]: the mapping passed to the callback, or [None] when the
    window stays open with the error box. *)
Definition confirm (column_mappings : dict) : option dict :=
  let final_mapping :=
    List.filter (fun kv => negb (String.eqb (snd kv) "Ignorar")) column_mappings in
  let mapped_fields : gset string := list_to_set (map snd final_mapping) in
  if decide (required_fields ⊆ mapped_fields) then Some final_mapping else None.

(** What the user does in the window. *)
Inductive action :=
| Select (col value : string)
| Confirmar
| Cancelar.

Fixpoint run (column_mappings : dict) (acts : list action) : option dict :=
  match acts with
  | [] => None
  | Select col value :: acts' =>
    run (if dict_mem col column_mappings
            && existsb (String.eqb value) combo_values
         then dict_set col value column_mappings
         else column_mappings) acts'
  | Confirmar :: acts' =>
    match confirm column_mappings with
    | Some final_mapping => Some final_mapping
    | None => run column_mappings acts'
    end
  | Cancelar :: _ => None
  end.

End ImportMappingWindow.

(** ** The import as a whole *)

Module Importacao.
Import Py DatabaseManager SalesApp.

(** [SalesApp.iniciar_importacao] once the sheet is read: the mapping
    handed to [processar_importacao], if any.  [prosseguir] is the answer to
    the question asked when no required field is missing, [acts] what the
    user does in the mapping window. *)
Definition iniciar_importacao (df : dataframe) (prosseguir : bool)
    (acts : list ImportMappingWindow.action) : option dict :=
  let '(auto_mapping, missing_fields) :=
    tentar_mapeamento_automatico (columns df) in
  if decide (missing_fields = ∅) then
    if prosseguir then Some auto_mapping
    else ImportMappingWindow.run (ImportMappingWindow.init df auto_mapping) acts
  else ImportMappingWindow.run (ImportMappingWindow.init df auto_mapping) acts.

(** [processar_importacao] starts the worker on the sheet and the mapping. *)
Definition processar_importacao (fl : faults) (clock : nat -> string)
    (c : connection) (df : dataframe) (mapping : dict) : outcome :=
  _worker_import fl clock c df mapping.

(** The program keeps no record of a run; these are the counts that a run
    makes observable. *)
Definition rows_total (df : dataframe) : nat := length (iterrows df).

Definition rows_committed (before : connection) (o : outcome) : Z :=
  Z.of_nat (length (vendas (committed (conn o))))
  - Z.of_nat (length (vendas (committed before))).

Definition rows_skipped (df : dataframe) (o : outcome) : nat :=
  (length (iterrows df) - length (batch o))%nat.

Definition skip_reasons (o : outcome) : list (Z * exn) := stdout o.

(** The fate of each row, with its index. *)
Fixpoint verdicts (s2s : gmap string string) (clock : nat -> string)
    (index : nat) (rows : list series) : list (nat * result (option sale)) :=
  match rows with
  | [] => []
  | row :: rows' =>
    (index, convert_row s2s (clock index) row)
      :: verdicts s2s clock (S index) rows'
  end.

Definition escapes (r : result (option sale)) : bool :=
  match r with
  | inl e => negb (caught e)
  | inr _ => false
  end.

Definition accepted_of (ir : nat * result (option sale)) : option sale :=
  match snd ir with
  | inr (Some v) => Some v
  | _ => None
  end.

Definition logged_of (ir : nat * result (option sale)) : option (Z * exn) :=
  match snd ir with
  | inl e => if caught e then Some (Z.of_nat (fst ir) + 2, e) else None
  | inr _ => None
  end.

Definition progress_of (ir : nat * result (option sale)) : option Tk.event :=
  match snd ir with
  | inr (Some _) => Some (Tk.ProgressConfig (Z.of_nat (fst ir) + 1))
  | _ => None
  end.

(** The rows that the loop reaches: all up to the first whose exception
    escapes, and that exception. *)
Fixpoint before_escape (vs : list (nat * result (option sale)))
  : list (nat * result (option sale)) :=
  match vs with
  | [] => []
  | v :: vs' => if escapes (snd v) then [] else v :: before_escape vs'
  end.

Fixpoint first_escape (vs : list (nat * result (option sale))) : option exn :=
  match vs with
  | [] => None
  | v :: vs' =>
    match snd v with
    | inl e => if caught e then first_escape vs' else Some e
    | inr _ => first_escape vs'
    end
  end.

Definition no_escape (vs : list (nat * result (option sale))) : bool :=
  forallb (fun ir => negb (escapes (snd ir))) vs.

Definition passed_over (ir : nat * result (option sale)) : bool :=
  match accepted_of ir with
  | Some _ => false
  | None => true
  end.

(** The transactions that the import leaves or finds open only add rows. *)
Definition append_only (c : connection) : Prop :=
  match pending c with
  | Some s => exists added, vendas s = vendas (committed c) ++ added
  | None => True
  end.




(** The optional field [field] of a converted row: the text of the cell
    under its column when the field is mapped and the row has the column,
    [default] otherwise. *)
Definition optional_field (s2s : gmap string string) (row : series)
    (field default : string) : string :=
  match s2s !! field with
  | Some col =>
    match series_lookup col row with
    | Some c => str c
    | None => default
    end
  | None => default
  end.

(** The first column that [guess_mapping] puts under [field]. *)
Definition first_guess (field : string) (cols : list string) : option string :=
  List.find (fun col => String.eqb (guess_mapping col) field) cols.

(** The entries of the automatic mapping for the fields [fs]: each field
    that some column is guessed as, with the first such column. *)
Definition auto_entry (cols : list string) (field : string)
  : option (string * string) :=
  match first_guess field cols with
  | Some col => Some (col, field)
  | None => None
  end.

Definition auto_entries (cols : list string) (fs : list string) : dict :=
  omap (auto_entry cols) fs.

(** The last column that a mapping puts under [field]. *)
Fixpoint last_col (field : string) (mapping : dict) : option string :=
  match mapping with
  | [] => None
  | (col, f) :: mapping' =>
    match last_col field mapping' with
    | Some col' => Some col'
    | None => if String.eqb f field then Some col else None
    end
  end.

End Importacao.

(** ** Sample data *)

Module Sample.
Import Py DatabaseManager SalesApp Importacao.

Definition header : list string :=
  ["Cliente"; "Produto"; "Qtd"; "Valor"].

Definition mapping : dict :=
  [("Cliente", "Nome do Cliente"); ("Produto", "Nome do Produto");
   ("Qtd", "Quantidade"); ("Valor", "Valor por unidade (R$)")].

Definition linha (cliente produto qtd valor : string) : series :=
  [("Cliente", CStr cliente); ("Produto", CStr produto);
   ("Qtd", CStr qtd); ("Valor", CStr valor)].

Definition sheet (rows : list series) : dataframe :=
  {| columns := header; iterrows := rows |}.

Definition clock (i : nat) : string := "03/11/2026 10:00:00".

Definition empty_store : connection :=
  {| committed := {| vendas := []; seq := 0 |}; pending := None |}.

Definition boa : series := linha "Ana" "Caneta" "3" "10,50".

(** Ten rows; the sheet lines 3 and 7 do not convert. *)
Definition ten_rows : dataframe :=
  sheet [ boa; linha "Bia" "Lápis" "abc" "1.00"; boa; boa; boa;
          linha "Caio" "Borracha" "2" "dez"; boa; boa; boa; boa ].

Definition three_good : dataframe := sheet [ boa; boa; boa ].

Definition qtd_zero : dataframe := sheet [ linha "Ana" "Caneta" "0" "10,50" ].
Definition nome_em_branco : dataframe := sheet [ linha "  " "Caneta" "3" "10,50" ].
Definition vazio : dataframe := sheet [].

Definition header_pagamento : list string :=
  ["Cliente"; "Produto"; "Qtd"; "Valor"; "Pagamento"].

Definition pagamento_vazio : series :=
  [("Cliente", CStr "Ana"); ("Produto", CStr "Caneta"); ("Qtd", CStr "3");
   ("Valor", CStr "10,50"); ("Pagamento", CStr "")].

Definition header_duas_qtd : dataframe :=
  {| columns := ["Cliente"; "Produto"; "Qtd"; "Quantidade"; "Valor"];
     iterrows :=
       [ [("Cliente", CStr "Ana"); ("Produto", CStr "Caneta"); ("Qtd", CStr "3");
          ("Quantidade", CStr "7"); ("Valor", CStr "10,50")] ] |}.

(** The tuple that [boa] converts to. *)
Definition venda_boa : sale :=
  {| nome_cliente := "Ana"; nome_produto := "Caneta"; quantidade := 3;
     preco := S754_finite false 5910974510923776 (-49);
     tipo_pagamento := "Não Informado";
     preco_final := S754_finite false 8866461766385664 (-48);
     nome_vendedor := "Importado";
     data_hora := "03/11/2026 10:00:00" |}.

Definition mapping_pagamento : dict :=
  mapping ++ [("Pagamento", "Tipo de Pagamento")].

(** A store that already holds a sale. *)
Definition one_sale : connection :=
  {| committed :=
       {| vendas :=
            [ (1, {| nome_cliente := "Rui"; nome_produto := "Caderno";
                     quantidade := 1; preco := float_of_Z 12;
                     tipo_pagamento := "Pix"; preco_final := float_of_Z 12;
                     nome_vendedor := "Lia";
                     data_hora := "01/11/2026 09:00:00" |}) ];
          seq := 1 |};
     pending := None |}.

(** The second statement of a bulk insert fails. *)
Definition second_fails : faults :=
  {| stmt_fails := fun k => Nat.eqb k 1; commit_fails := false |}.

End Sample.

(** ** DatabaseManager: the other methods on [vendas] *)

Module Crud.
Import Py DatabaseManager.

(** The connection once a statement has opened a transaction on the
    working copy [s]. *)
Definition begin (c : connection) (s : store) : connection :=
  {| committed := committed c; pending := Some s |}.

Definition erro (what : string) (e : exn) : Tk.event :=
  Tk.ShowError "Erro de Banco de Dados"
    (what ++ match e with SqliteError m => m | _ => "" end).

(** The common end of the writing methods: [self.conn.commit()] after the
    statement, and [except sqlite3.Error: self.conn.rollback()] with the
    error box.  The last component is the exception that is not caught. *)
Definition finish_write (fl : faults) (what : string)
    (r : connection * option exn) : connection * list Tk.event * option exn :=
  match r with
  | (c1, None) =>
    match commit fl c1 with
    | (c2, None) => (c2, [], None)
    | (c2, Some (SqliteError m)) => (rollback c2, [erro what (SqliteError m)], None)
    | (c2, Some e) => (c2, [], Some e)
    end
  | (c1, Some (SqliteError m)) => (rollback c1, [erro what (SqliteError m)], None)
  | (c1, Some e) => (c1, [], Some e)
  end.

(** [insert_sale]: one INSERT, as [executemany] runs it for one tuple. *)
Definition insert_sale (fl : faults) (c : connection) (data : sale)
  : connection * list Tk.event * option exn :=
  finish_write fl "Erro ao inserir venda: " (executemany fl c [data]).

(** [UPDATE vendas SET ... WHERE id=?] *)
Definition execute_update (fl : faults) (c : connection) (sale_id : Z) (data : sale)
  : connection * option exn :=
  if negb (fits_int64 (quantidade data)) || negb (fits_int64 sale_id)
  then (begin c (visible c),
        Some (OverflowError "Python int too large to convert to SQLite INTEGER"))
  else if stmt_fails fl 0
  then (begin c (visible c), Some (SqliteError "UPDATE vendas"))
  else (begin c
          {| vendas :=
               map (fun r => if fst r =? sale_id then (fst r, data) else r)
                   (vendas (visible c));
             seq := seq (visible c) |},
        None).

Definition update_sale (fl : faults) (c : connection) (sale_id : Z) (data : sale)
  : connection * list Tk.event * option exn :=
  finish_write fl "Erro ao atualizar venda: " (execute_update fl c sale_id data).

(** [DELETE FROM vendas WHERE id=?]; the counter of AUTOINCREMENT stays. *)
Definition execute_delete (fl : faults) (c : connection) (sale_id : Z)
  : connection * option exn :=
  if negb (fits_int64 sale_id)
  then (begin c (visible c),
        Some (OverflowError "Python int too large to convert to SQLite INTEGER"))
  else if stmt_fails fl 0
  then (begin c (visible c), Some (SqliteError "DELETE FROM vendas"))
  else (begin c
          {| vendas :=
               List.filter (fun r => negb (fst r =? sale_id)) (vendas (visible c));
             seq := seq (visible c) |},
        None).

Definition delete_sale (fl : faults) (c : connection) (sale_id : Z)
  : connection * list Tk.event * option exn :=
  finish_write fl "Erro ao excluir venda: " (execute_delete fl c sale_id).

(** What a REAL column gives back: a NaN is stored as NULL, and a zero
    comes back as 0.0 whatever its sign was.  The table of the model keeps
    each tuple as it was bound; every query reads the REAL columns through
    this function. *)
Definition real_column (x : spec_float) : option spec_float :=
  match x with
  | S754_nan => None
  | S754_zero _ => Some (S754_zero false)
  | _ => Some x
  end.

(** The value read back from a REAL column that holds [x]. *)
Definition read_back (x : spec_float) : spec_float :=
  match x with
  | S754_zero _ => S754_zero false
  | _ => x
  end.

(** A row of [fetch_all_sales], under the names that [atualizar_tabela]
    gives to its parts. *)
Record venda := {
  venda_id : Z;
  data_h : string;
  nome_c : string;
  nome_p : string;
  qtd : Z;
  preco_u : option spec_float;
  tipo_p : string;
  preco_f : option spec_float;
  nome_v : string
}.

Definition select_venda (r : Z * sale) : venda :=
  {| venda_id := fst r;
     data_h := data_hora (snd r);
     nome_c := nome_cliente (snd r);
     nome_p := nome_produto (snd r);
     qtd := quantidade (snd r);
     preco_u := real_column (preco (snd r));
     tipo_p := tipo_pagamento (snd r);
     preco_f := real_column (preco_final (snd r));
     nome_v := nome_vendedor (snd r) |}.

(** [ORDER BY id DESC] *)
Fixpoint insert_desc (r : Z * sale) (l : list (Z * sale)) : list (Z * sale) :=
  match l with
  | [] => [r]
  | x :: l' => if fst x <=? fst r then r :: l else x :: insert_desc r l'
  end.

Definition order_by_id_desc (l : list (Z * sale)) : list (Z * sale) :=
  fold_right insert_desc [] l.

(** The WHERE clause of the search; [like pattern text] is the LIKE
    operator of the engine. *)
Definition search_matches (like : string -> string -> bool) (search_term : string)
    (r : Z * sale) : bool :=
  let search_pattern := ("%" ++ search_term ++ "%")%string in
  like search_pattern (nome_cliente (snd r))
  || like search_pattern (nome_produto (snd r))
  || like search_pattern (nome_vendedor (snd r)).

(** [fetch_all_sales]: the error box, if the query fails, and the rows. *)
Definition fetch_all_sales (like : string -> string -> bool) (fl : faults)
    (c : connection) (search_term : string) : list Tk.event * list venda :=
  if stmt_fails fl 0
  then ([erro "Erro ao buscar vendas: " (SqliteError "SELECT")], [])
  else
    ([],
     map select_venda
       (order_by_id_desc
          (if String.eqb search_term "" then vendas (visible c)
           else List.filter (search_matches like search_term) (vendas (visible c))))).

(** [fetch_sale_by_id]: the row with that id, if there is one. *)
Definition fetch_sale_by_id (fl : faults) (c : connection) (sale_id : Z)
  : list Tk.event
    * result (option (Z * string * string * Z * option spec_float * string * string)) :=
  if negb (fits_int64 sale_id)
  then ([], raise (OverflowError "Python int too large to convert to SQLite INTEGER"))
  else if stmt_fails fl 0
  then ([erro "Erro ao buscar venda por ID: " (SqliteError "SELECT")], ret None)
  else
    ([],
     ret (match List.find (fun r => fst r =? sale_id) (vendas (visible c)) with
          | Some (i, v) =>
            Some (i, nome_cliente v, nome_produto v, quantidade v,
                  real_column (preco v), tipo_pagamento v, nome_vendedor v)
          | None => None
          end)).

(** The ids of a table are at most the counter that AUTOINCREMENT keeps,
    and no two rows share one. *)
Definition table_ok (s : store) : Prop :=
  NoDup (map fst (vendas s))
  /\ forall i v, (i, v) ∈ vendas s -> i <= seq s.

End Crud.

(** ** More sample data *)

Module Casos.
Import Py DatabaseManager SalesApp Importacao.


(** A sheet with two columns that are guessed as the quantity. *)
Definition duas_qtd : dataframe := Sample.header_duas_qtd.

(** A sheet that lacks a product column. *)
Definition sem_produto : dataframe :=
  {| columns := ["Cliente"; "Qtd"; "Valor"]; iterrows := [] |}.

(** An engine on which every statement fails. *)
Definition engine_down : faults :=
  {| stmt_fails := fun _ => true; commit_fails := false |}.

(** A sheet whose second quantity is one above the largest integer of 64
    bits. *)
Definition qtd_enorme : dataframe :=
  Sample.sheet
    [ Sample.boa; Sample.linha "Bia" "Lápis" "9223372036854775808" "1,00" ].

(** The sale that the second row of [qtd_enorme] converts to. *)
Definition venda_enorme : sale :=
  {| nome_cliente := "Bia"; nome_produto := "Lápis";
     quantidade := 9223372036854775808;
     preco := S754_finite false 4503599627370496 (-52);
     tipo_pagamento := "Não Informado";
     preco_final := S754_finite false 4503599627370496 11;
     nome_vendedor := "Importado";
     data_hora := "03/11/2026 10:00:00" |}.


(** What [datetime.now()] prints during a later run. *)
Definition clock_later (i : nat) : string := "03/11/2026 11:30:00".

End Casos.

(** ** Vocabulary of the further properties *)

Module Garantias.
Import Py DatabaseManager SalesApp Importacao.

(** What the worker needs of a mapping for the sheet [df]. *)
Definition usable_mapping (df : dataframe) (mapping : dict) : Prop :=
  (forall col f, (col, f) ∈ mapping -> col ∈ columns df /\ f ∈ system_fields)
  /\ (forall f, f ∈ required_fields ->
                exists col, system_to_sheet mapping !! f = Some col
                            /\ col ∈ columns df).

(** The rows [l] with the ids [first], [first + 1], ... *)
Fixpoint numbered (first : Z) (l : list sale) : list (Z * sale) :=
  match l with
  | [] => []
  | v :: l' => (first, v) :: numbered (first + 1) l'
  end.


(** The sale [v] with the time [now]. *)
Definition at_time (now : string) (v : sale) : sale :=
  {| nome_cliente := nome_cliente v; nome_produto := nome_produto v;
     quantidade := quantidade v; preco := preco v;
     tipo_pagamento := tipo_pagamento v; preco_final := preco_final v;
     nome_vendedor := nome_vendedor v; data_hora := now |}.

(** [w] is the sale [v] but for its time. *)
Definition same_but_time (v w : sale) : Prop := w = at_time (data_hora w) v.

(** What the validity test of [_worker_import] lets through. *)
Definition well_formed_sale (v : sale) : Prop :=
  nome_cliente v <> "" /\ nome_produto v <> ""
  /\ 0 < quantidade v
  /\ float_negative (preco v) = false
  /\ mul_int_float (quantidade v) (preco v) = inr (preco_final v).

End Garantias.

(** ** SalesApp: the form and the table of sales *)

Module Formulario.
Import Py DatabaseManager Crud.

Definition TOTAL_ROW_ID : string := "total_row_id".

(** The text of the six widgets of [self.campos]. *)
Record campos := {
  campo_nome_cliente : string;
  campo_nome_produto : string;
  campo_quantidade : string;
  campo_preco : string;
  campo_tipo_pagamento : string;
  campo_nome_vendedor : string
}.

Definition campos_vazios : campos :=
  {| campo_nome_cliente := ""; campo_nome_produto := ""; campo_quantidade := "";
     campo_preco := ""; campo_tipo_pagamento := ""; campo_nome_vendedor := "" |}.

(** An item of the Treeview. *)
Record item := {
  iid : string;
  values : list string
}.

(** The part of [SalesApp] that the form and the table use. *)
Record sales_app := {
  db_manager : connection;
  form : campos;
  id_venda_em_edicao : option Z;
  search_entry : string;
  tree : list item
}.

Definition with_db (a : sales_app) (c : connection) : sales_app :=
  {| db_manager := c; form := form a; id_venda_em_edicao := id_venda_em_edicao a;
     search_entry := search_entry a; tree := tree a |}.

Definition with_tree (a : sales_app) (t : list item) : sales_app :=
  {| db_manager := db_manager a; form := form a;
     id_venda_em_edicao := id_venda_em_edicao a;
     search_entry := search_entry a; tree := t |}.

(** What these methods can raise: an exception of Python, or the error of
    the Tk interpreter. *)
Inductive excecao :=
| Python (e : exn)
| TclError (what : string).

(** [num / den] rounded to the nearest integer, ties to even, for
    [den > 0]. *)
Definition round_half_even (num den : Z) : Z :=
  let q := num / den in
  match 2 * (num mod den) ?= den with
  | Lt => q
  | Gt => q + 1
  | Eq => if Z.even q then q else q + 1
  end.

Definition digit (n : Z) : ascii := ascii_of_nat (Z.to_nat (48 + n)).

(** [f"{x:.2f}"]: the decimal with two places nearest to the exact value
    of [x]. *)
Definition format_2f (x : spec_float) : string :=
  match x with
  | S754_nan => "nan"
  | S754_infinity s => if s then "-inf" else "inf"
  | S754_zero s => if s then "-0.00" else "0.00"
  | S754_finite s m e =>
    let cents :=
      if 0 <=? e then Zpos m * 2 ^ e * 100
      else round_half_even (Zpos m * 100) (2 ^ (- e)) in
    ((if s then "-" else "") ++ str_of_int (cents / 100) ++ "."
     ++ String (digit (cents mod 100 / 10)) (String (digit (cents mod 10)) ""))%string
  end.

(** [s.replace(".", ",")] *)
Definition replace_dot (s : string) : string :=
  text (map (fun a => if Ascii.eqb a "."%char then ","%char else a) (chars s)).

(** [f"{x:.2f}".replace(".", ",")] for a REAL column, which may hold NULL. *)
Definition format_price (x : option spec_float) : result string :=
  match x with
  | Some f => ret (replace_dot (format_2f f))
  | None => raise (TypeError "unsupported format string passed to NoneType.__format__")
  end.

(** The item that [atualizar_tabela] makes of a row. *)
Definition linha (v : venda) : result item :=
  let* pu := format_price (preco_u v) in
  let* pf := format_price (preco_f v) in
  ret {| iid := str_of_int (venda_id v);
         values := [data_h v; nome_c v; nome_p v; str_of_int (qtd v); pu;
                    tipo_p v; pf; nome_v v] |}.

(** [self.tree.insert('', tk.END, iid=..., values=...)] *)
Definition tree_insert (t : list item) (it : item) : excecao + list item :=
  if existsb (fun x => String.eqb (iid x) (iid it)) t
  then inl (TclError ("Item " ++ iid it ++ " already exists"))
  else inr (t ++ [it]).

(** The loop of [atualizar_tabela]: the tree and [total_geral] after the
    rows, or the tree as the exception leaves it. *)
Fixpoint inserir_vendas (vendas : list venda) (t : list item)
    (total_geral : spec_float) : list item * (excecao + spec_float) :=
  match vendas with
  | [] => (t, inr total_geral)
  | v :: rest =>
    match linha v with
    | inl e => (t, inl (Python e))
    | inr it =>
      match tree_insert t it with
      | inl e => (t, inl e)
      | inr t' =>
        match preco_f v with
        | Some f => inserir_vendas rest t' (SFadd prec emax total_geral f)
        | None =>
          (t', inl (Python (TypeError
                  "unsupported operand type(s) for +=: 'float' and 'NoneType'")))
        end
      end
    end
  end.

Definition total_row (total_geral : spec_float) : item :=
  {| iid := TOTAL_ROW_ID;
     values := [""; ""; ""; ""; ""; "";
                replace_dot ("TOTAL: " ++ format_2f total_geral); ""] |}.

(** [atualizar_tabela]: the application afterwards, the boxes shown, and the
    exception that leaves the method, if one does.  [fl] are the faults of
    the engine during the query. *)
Definition atualizar_tabela (like : string -> string -> bool) (fl : faults)
    (a : sales_app) : sales_app * list Tk.event * option excecao :=
  let search_term := strip (search_entry a) in
  let '(shown, vendas) := fetch_all_sales like fl (db_manager a) search_term in
  match inserir_vendas vendas [] float_zero with
  | (t, inl e) => (with_tree a t, shown, Some e)
  | (t, inr total_geral) =>
    match tree_insert t (total_row total_geral) with
    | inl e => (with_tree a t, shown, Some e)
    | inr t' => (with_tree a t', shown, None)
    end
  end.

Definition limpar_campos_e_resetar_edicao (a : sales_app) : sales_app :=
  {| db_manager := db_manager a; form := campos_vazios;
     id_venda_em_edicao := None;
     search_entry := search_entry a; tree := tree a |}.

(** The stripped texts of the form, in the order of [dados]. *)
Definition dados_values (f : campos) : list string :=
  [strip (campo_nome_cliente f); strip (campo_nome_produto f);
   strip (campo_quantidade f); strip (campo_preco f);
   strip (campo_tipo_pagamento f); strip (campo_nome_vendedor f)].

(** [dados] after [dados.update(...)] in [salvar_dados]; [now] is the text
    of [datetime.now()]. *)
Definition dados_da_venda (now : string) (f : campos) : result sale :=
  let* quantidade := int_of_str (strip (campo_quantidade f)) in
  let* preco_unitario := float_of_str (replace_comma (strip (campo_preco f))) in
  if (quantidade <=? 0) || float_negative preco_unitario
  then raise (ValueError "Valores devem ser positivos." "")
  else
    let* preco_final := mul_int_float quantidade preco_unitario in
    ret {| nome_cliente := strip (campo_nome_cliente f);
           nome_produto := strip (campo_nome_produto f);
           quantidade := quantidade;
           preco := preco_unitario;
           tipo_pagamento := strip (campo_tipo_pagamento f);
           preco_final := preco_final;
           nome_vendedor := strip (campo_nome_vendedor f);
           data_hora := now |}.

(** The two [except] clauses of [salvar_dados]. *)
Definition tratar (e : excecao) : Tk.event :=
  match e with
  | Python (ValueError _ _) =>
    Tk.ShowError "Erro de Validação"
      "Quantidade ou Preço inválidos. Verifique os valores inseridos."
  | Python (KeyError k) =>
    Tk.ShowError "Erro Inesperado" ("Ocorreu um erro: '" ++ k ++ "'")
  | Python (TypeError m) | Python (OverflowError m) | Python (SqliteError m)
  | TclError m =>
    Tk.ShowError "Erro Inesperado" ("Ocorreu um erro: " ++ m)
  end.

Definition campos_obrigatorios : Tk.event :=
  Tk.ShowWarning "Atenção" "Todos os campos são obrigatórios.".

(** [salvar_dados]: [fw] are the faults of the engine during the write,
    [fr] those during the query of [atualizar_tabela]. *)
Definition salvar_dados (like : string -> string -> bool) (fw fr : faults)
    (now : string) (a : sales_app) : sales_app * list Tk.event :=
  if existsb (String.eqb "") (dados_values (form a))
  then (a, [campos_obrigatorios])
  else
    match dados_da_venda now (form a) with
    | inl e => (a, [tratar (Python e)])
    | inr dados =>
      let '(c, shown, uncaught, sucesso) :=
        match id_venda_em_edicao a with
        | Some sale_id =>
          (update_sale fw (db_manager a) sale_id dados,
           Tk.ShowInfo "Sucesso" "Venda atualizada!")
        | None =>
          (insert_sale fw (db_manager a) dados,
           Tk.ShowInfo "Sucesso" "Venda registrada!")
        end in
      match uncaught with
      | Some e => (with_db a c, shown ++ [tratar (Python e)])
      | None =>
        let '(a', shown', uncaught') :=
          atualizar_tabela like fr
            (limpar_campos_e_resetar_edicao (with_db a c)) in
        (a', shown ++ [sucesso] ++ shown'
             ++ match uncaught' with
                | Some e => [tratar e]
                | None => []
                end)
      end
    end.

(** The loop of [excluir_venda_selecionada]; [fls k] are the faults of the
    engine during the [k]-th call of [delete_sale]. *)
Fixpoint excluir_cada (fls : nat -> faults) (k : nat) (c : connection)
    (selecionados : list string) : connection * list Tk.event * option exn :=
  match selecionados with
  | [] => (c, [], None)
  | item_id :: rest =>
    match int_of_str item_id with
    | inl e => (c, [], Some e)
    | inr n =>
      match delete_sale (fls k) c n with
      | (c1, shown, Some e) => (c1, shown, Some e)
      | (c1, shown, None) =>
        let '(c2, shown', uncaught) := excluir_cada fls (S k) c1 rest in
        (c2, shown ++ shown', uncaught)
      end
    end
  end.

(** [excluir_venda_selecionada]: [selection] is [self.tree.selection()],
    [askyesno] the answer to the question, should it be asked. *)
Definition excluir_venda_selecionada (like : string -> string -> bool)
    (fls : nat -> faults) (fr : faults) (selection : list string)
    (askyesno : bool) (a : sales_app) : sales_app * list Tk.event * option excecao :=
  let selecionados :=
    List.filter (fun item => negb (String.eqb item TOTAL_ROW_ID)) selection in
  match selecionados with
  | [] =>
    (a, [Tk.ShowWarning "Atenção" "Selecione uma ou mais vendas para excluir."],
     None)
  | _ :: _ =>
    if askyesno then
      match excluir_cada fls 0 (db_manager a) selecionados with
      | (c, shown, Some e) => (with_db a c, shown, Some (Python e))
      | (c, shown, None) =>
        let sucesso :=
          Tk.ShowInfo "Sucesso"
            (str_of_int (Z.of_nat (length selecionados)) ++ " venda(s) excluída(s).") in
        match atualizar_tabela like fr (with_db a c) with
        | (a', shown', Some e) => (a', shown ++ [sucesso] ++ shown', Some e)
        | (a', shown', None) =>
          (limpar_campos_e_resetar_edicao a', shown ++ [sucesso] ++ shown', None)
        end
      end
    else (a, [], None)
  end.

End Formulario.

(** ** CadernoVirtual: the form of an order *)

Module CadernoVirtual.
Import Py.

(** The text of the five widgets of [self.entries]. *)
Record entries := {
  entry_nome : string;
  entry_produto : string;
  entry_quantidade : string;
  entry_valor_unitario : string;
  entry_data_entrega : string
}.

(** The dictionary that [_validate_inputs] returns. *)
Record encomenda := {
  nome_cliente : string;
  produto : string;
  quantidade : Z;
  valor_unitario : spec_float;
  data_entrega : string
}.

Definition atencao (message : string) : Tk.event := Tk.ShowWarning "Atenção" message.

(** [_validate_inputs]: the warning shown, if any, and the value returned. *)
Definition _validate_inputs (e : entries)
  : list Tk.event * result (option encomenda) :=
  let nome := strip (entry_nome e) in
  let produto := strip (entry_produto e) in
  let quantidade_str := strip (entry_quantidade e) in
  let valor_unitario_str := strip (entry_valor_unitario e) in
  let data_entrega := strip (entry_data_entrega e) in
  if existsb (String.eqb "")
       [nome; produto; quantidade_str; valor_unitario_str; data_entrega]
  then ([atencao "Todos os campos são obrigatórios."], ret None)
  else
    match (let* quantidade := int_of_str quantidade_str in
           if quantidade <=? 0 then raise (ValueError "" "") else ret quantidade) with
    | inl (ValueError _ _) =>
      ([atencao "Quantidade deve ser um número inteiro positivo."], ret None)
    | inl e => ([], raise e)
    | inr quantidade =>
      match (let* valor_unitario := float_of_str (replace_comma valor_unitario_str) in
             if float_negative valor_unitario then raise (ValueError "" "")
             else ret valor_unitario) with
      | inl (ValueError _ _) => ([atencao "Valor por unidade inválido."], ret None)
      | inl e => ([], raise e)
      | inr valor_unitario =>
        ([],
         ret (Some {| nome_cliente := nome; produto := produto;
                 quantidade := quantidade; valor_unitario := valor_unitario;
                 data_entrega := data_entrega |}))
      end
    end.

End CadernoVirtual.

(** ** CalculadoraPrecoVenda: what the entries accept *)

Module CalculadoraPrecoVenda.
Import Py.

(** [P.count(c)] for a character [c] *)
Definition count (c : ascii) (P : string) : nat :=
  length (List.filter (Ascii.eqb c) (chars P)).

(** [validate_input]: the test of each edit of an entry, on the text [P]
    that the edit would give. *)
Definition validate_input (P : string) : bool :=
  if String.eqb P "" then true
  else if forallb (fun c => contains (String c "") "0123456789.,") (chars P)
          && (count "."%char P <=? 1)%nat && (count ","%char P <=? 1)%nat
  then true
  else false.

(** [parse_float] *)
Definition parse_float (value_str : string) : result spec_float :=
  if String.eqb value_str "" then ret float_zero
  else float_of_str (replace_comma value_str).

End CalculadoraPrecoVenda.

(** ** Vocabulary of the properties of the form *)

Module Regras.
Import Py DatabaseManager Crud Formulario.

(** The form holds a sale of [q] items at the unit price [p]: no field is
    blank, the quantity reads as the integer [q] above zero and the price as
    the float [p], which is not below zero. *)
Definition form_ok (f : campos) (q : Z) (p : spec_float) : Prop :=
  Forall (fun s => s <> "") (dados_values f)
  /\ int_of_str (strip (campo_quantidade f)) = inr q
  /\ 0 < q
  /\ float_of_str (replace_comma (strip (campo_preco f))) = inr p
  /\ float_negative p = false.

(** The sale that the form [f] describes at the time [now]. *)
Definition venda_do_form (now : string) (f : campos) (q : Z) (p pf : spec_float)
  : sale :=
  {| nome_cliente := strip (campo_nome_cliente f);
     nome_produto := strip (campo_nome_produto f);
     quantidade := q;
     preco := p;
     tipo_pagamento := strip (campo_tipo_pagamento f);
     preco_final := pf;
     nome_vendedor := strip (campo_nome_vendedor f);
     data_hora := now |}.

Definition erro_de_validacao : Tk.event :=
  Tk.ShowError "Erro de Validação"
    "Quantidade ou Preço inválidos. Verifique os valores inseridos.".

(** The box with which [salvar_dados] reports that the sale is saved. *)
Definition sucesso (a : sales_app) : Tk.event :=
  Tk.ShowInfo "Sucesso"
    match id_venda_em_edicao a with
    | Some _ => "Venda atualizada!"
    | None => "Venda registrada!"
    end.

Definition erro_inesperado (ev : Tk.event) : Prop :=
  exists m, ev = Tk.ShowError "Erro Inesperado" m.

Definition erro_de_banco (ev : Tk.event) : Prop :=
  exists m, ev = Tk.ShowError "Erro de Banco de Dados" m.

(** The engine raises nothing during a write. *)
Definition write_ok (fl : faults) : Prop :=
  stmt_fails fl 0 = false /\ commit_fails fl = false.

(** The ids of [ids] as the tree hands them over. *)
Definition selected (selecionados : list string) (ids : list Z) : Prop :=
  Forall2 (fun s i => int_of_str s = inr i /\ fits_int64 i = true) selecionados ids.

(** The entries of an order hold [q] items at the unit price [p]. *)
Definition entries_ok (e : CadernoVirtual.entries) (q : Z) (p : spec_float) : Prop :=
  Forall (fun s => s <> "")
    [strip (CadernoVirtual.entry_nome e); strip (CadernoVirtual.entry_produto e);
     strip (CadernoVirtual.entry_quantidade e);
     strip (CadernoVirtual.entry_valor_unitario e);
     strip (CadernoVirtual.entry_data_entrega e)]
  /\ int_of_str (strip (CadernoVirtual.entry_quantidade e)) = inr q
  /\ 0 < q
  /\ float_of_str (replace_comma (strip (CadernoVirtual.entry_valor_unitario e))) = inr p
  /\ float_negative p = false.

(** The order that the entries [e] describe. *)
Definition encomenda_de (e : CadernoVirtual.entries) (q : Z) (p : spec_float)
  : CadernoVirtual.encomenda :=
  {| CadernoVirtual.nome_cliente := strip (CadernoVirtual.entry_nome e);
     CadernoVirtual.produto := strip (CadernoVirtual.entry_produto e);
     CadernoVirtual.quantidade := q;
     CadernoVirtual.valor_unitario := p;
     CadernoVirtual.data_entrega := strip (CadernoVirtual.entry_data_entrega e) |}.

(** A decimal digit or the point. *)
Definition plain (a : ascii) : bool := is_digit a || Ascii.eqb a "."%char.

End Regras.

(** ** Sample states of the form *)

Module Exemplos.
Import Py DatabaseManager Crud Formulario.

Definition balcao : campos :=
  {| campo_nome_cliente := " Ana "; campo_nome_produto := "Caneta";
     campo_quantidade := " 3"; campo_preco := "10,50";
     campo_tipo_pagamento := "Pix"; campo_nome_vendedor := "Lia" |}.

Definition com_form (f : campos) (edicao : option Z) : sales_app :=
  {| db_manager := Sample.one_sale; form := f; id_venda_em_edicao := edicao;
     search_entry := ""; tree := [] |}.

Definition loja : sales_app := com_form balcao None.

Definition loja_em_edicao : sales_app := com_form balcao (Some 1).

Definition quantidade_zero : campos :=
  {| campo_nome_cliente := "Ana"; campo_nome_produto := "Caneta";
     campo_quantidade := "0"; campo_preco := "10,50";
     campo_tipo_pagamento := "Pix"; campo_nome_vendedor := "Lia" |}.


Definition like_any : string -> string -> bool := fun _ _ => true.

Definition now : string := "03/11/2026 10:00:00".

(** A store whose only sale has a NaN price. *)
Definition loja_nan : sales_app :=
  {| db_manager :=
       {| committed :=
            {| vendas :=
                 [ (1, {| nome_cliente := "Rui"; nome_produto := "Caderno";
                          quantidade := 1; preco := S754_nan;
                          tipo_pagamento := "Pix"; preco_final := S754_nan;
                          nome_vendedor := "Lia";
                          data_hora := "01/11/2026 09:00:00" |}) ];
               seq := 1 |};
          pending := None |};
     form := campos_vazios; id_venda_em_edicao := None;
     search_entry := " "; tree := [] |}.

(** The no-break space, U+00A0. *)
Definition nbsp : string := text [ascii_of_nat 194; ascii_of_nat 160].

(** A form whose client name is a no-break space. *)
Definition nome_nbsp : campos :=
  {| campo_nome_cliente := nbsp; campo_nome_produto := "Caneta";
     campo_quantidade := "3"; campo_preco := "10,50";
     campo_tipo_pagamento := "Pix"; campo_nome_vendedor := "Lia" |}.

(** A form whose quantity is a full-width digit followed by a no-break
    space, and whose price is a zero with a minus sign. *)
Definition tres_largo : campos :=
  {| campo_nome_cliente := "Ana"; campo_nome_produto := "Caneta";
     campo_quantidade := "３" ++ nbsp; campo_preco := "-0";
     campo_tipo_pagamento := "Pix"; campo_nome_vendedor := "Lia" |}.

Definition pedido : CadernoVirtual.entries :=
  {| CadernoVirtual.entry_nome := "Ana"; CadernoVirtual.entry_produto := " Bolo ";
     CadernoVirtual.entry_quantidade := "2"; CadernoVirtual.entry_valor_unitario := "12,5";
     CadernoVirtual.entry_data_entrega := "10/11/2026" |}.

End Exemplos.

(** * Properties *)

Import Py DatabaseManager SalesApp Importacao.

(** Opens [convert_row] down to its lookups and conversions. *)
Ltac unfold_convert :=
  unfold convert_row;
  cbv beta iota delta [bind ret raise field_column row_getitem].

(** ** The loop of the worker *)

Lemma import_rows_spec s2s clock rows : forall index st,
  import_rows s2s clock index rows st =
  ({| sales_to_insert :=
        sales_to_insert st
        ++ omap accepted_of (before_escape (verdicts s2s clock index rows));
      printed :=
        printed st
        ++ omap logged_of (before_escape (verdicts s2s clock index rows));
      scheduled :=
        scheduled st
        ++ omap progress_of (before_escape (verdicts s2s clock index rows)) |},
   first_escape (verdicts s2s clock index rows)).
Proof.
  induction rows as [|row rows IH]; intros index st; cbn [import_rows verdicts].
  - cbn. rewrite !app_nil_r. destruct st; reflexivity.
  - cbn [before_escape first_escape snd].
    destruct (convert_row s2s (clock index) row) as [e | [v|]] eqn:E.
    + cbn [escapes]. destruct (caught e) eqn:C; cbn [negb].
      * rewrite IH. cbn [sales_to_insert printed scheduled omap list_omap].
        unfold accepted_of at 2, logged_of at 2, progress_of at 2.
        cbn [fst snd]. rewrite C. cbn. rewrite <- !app_assoc. reflexivity.
      * cbn. rewrite !app_nil_r. destruct st; reflexivity.
    + cbn [escapes]. rewrite IH.
      cbn [sales_to_insert printed scheduled omap list_omap].
      unfold accepted_of at 2, logged_of at 2, progress_of at 2.
      cbn. rewrite <- !app_assoc. reflexivity.
    + cbn [escapes]. rewrite IH.
      cbn [omap list_omap].
      unfold accepted_of at 2, logged_of at 2, progress_of at 2.
      cbn. reflexivity.
Qed.

Lemma no_escape_before vs : no_escape vs = true -> before_escape vs = vs.
Proof.
  unfold no_escape.
  induction vs as [|v vs IH]; cbn; [reflexivity|].
  intros H. apply andb_prop in H as [H1 H2].
  destruct (escapes (snd v)); [discriminate|]. now rewrite IH.
Qed.

Lemma no_escape_first vs : no_escape vs = true -> first_escape vs = None.
Proof.
  unfold no_escape.
  induction vs as [|[i r] vs IH]; cbn; [reflexivity|].
  intros H. apply andb_prop in H as [H1 H2].
  destruct r as [e|o]; cbn in *; [|auto].
  destruct (caught e); [auto|discriminate].
Qed.

Lemma first_escape_none vs : first_escape vs = None -> no_escape vs = true.
Proof.
  unfold no_escape.
  induction vs as [|[i r] vs IH]; cbn; [reflexivity|].
  destruct r as [e|o]; cbn; [|auto].
  destruct (caught e); cbn; [auto|discriminate].
Qed.

Lemma verdicts_length s2s clock rows : forall index,
  length (verdicts s2s clock index rows) = length rows.
Proof. induction rows; intros; cbn; [reflexivity|]. now rewrite IHrows. Qed.

Lemma logged_of_line i r x : logged_of (i, r) = Some x -> fst x = Z.of_nat i + 2.
Proof.
  unfold logged_of; cbn. destruct r as [e|o]; [|discriminate].
  destruct (caught e); [|discriminate]. intros [= <-]. reflexivity.
Qed.

Lemma logged_rows_increase s2s clock rows : forall index,
  StronglySorted Z.lt (map fst (omap logged_of (verdicts s2s clock index rows)))
  /\ Forall (fun n => Z.of_nat index + 2 <= n)
            (map fst (omap logged_of (verdicts s2s clock index rows))).
Proof.
  induction rows as [|row rows IH]; intros index; cbn [verdicts omap list_omap].
  - split; constructor.
  - destruct (IH (S index)) as [Hs Hb].
    assert (Hb' : Forall (fun n => Z.of_nat index + 2 < n)
              (map fst (omap logged_of (verdicts s2s clock (S index) rows)))).
    { eapply Forall_impl; [exact Hb|]. cbn beta. intros. lia. }
    assert (Hb'' : Forall (fun n => Z.of_nat index + 2 <= n)
              (map fst (omap logged_of (verdicts s2s clock (S index) rows)))).
    { eapply Forall_impl; [exact Hb|]. cbn beta. intros. lia. }
    destruct (logged_of (index, convert_row s2s (clock index) row)) as [x|] eqn:L.
    + apply logged_of_line in L. cbn [map]. rewrite L.
      split; constructor; try assumption. lia.
    + split; assumption.
Qed.

Lemma progress_follows_accepted vs :
  omap accepted_of vs = [] -> omap progress_of vs = [].
Proof.
  induction vs as [|[i r] vs IH]; cbn; [reflexivity|].
  unfold accepted_of, progress_of at 1; cbn.
  destruct r as [e|[v|]]; cbn; try discriminate; auto.
Qed.

Lemma accepted_count vs :
  length vs
  = (length (omap accepted_of vs) + length (List.filter passed_over vs))%nat.
Proof.
  induction vs as [|ir vs IH]; [reflexivity|].
  change (omap accepted_of (ir :: vs))
    with (match accepted_of ir with
          | Some v => v :: omap accepted_of vs
          | None => omap accepted_of vs
          end).
  change (List.filter passed_over (ir :: vs))
    with (if passed_over ir then ir :: List.filter passed_over vs
          else List.filter passed_over vs).
  unfold passed_over at 1.
  destruct (accepted_of ir); cbn [length]; rewrite IH; lia.
Qed.

(** ** The worker *)

Lemma worker_batch fl clock c df mapping :
  batch (_worker_import fl clock c df mapping)
  = omap accepted_of
      (before_escape (verdicts (system_to_sheet mapping) clock 0 (iterrows df))).
Proof.
  unfold _worker_import. rewrite import_rows_spec. cbn [sales_to_insert start app].
  destruct (first_escape _); [reflexivity|].
  destruct (omap accepted_of _) eqn:E; [reflexivity|].
  destruct (insert_multiple_sales _ _ _) as [[c' shown] [e|b]]; reflexivity.
Qed.

Lemma worker_stdout fl clock c df mapping :
  stdout (_worker_import fl clock c df mapping)
  = omap logged_of
      (before_escape (verdicts (system_to_sheet mapping) clock 0 (iterrows df))).
Proof.
  unfold _worker_import. rewrite import_rows_spec.
  cbn [sales_to_insert printed start app].
  destruct (first_escape _); [reflexivity|].
  destruct (omap accepted_of _) eqn:E; [reflexivity|].
  destruct (insert_multiple_sales _ _ _) as [[c' shown] [e|b]]; reflexivity.
Qed.

Lemma worker_uncaught_loop fl clock c df mapping :
  uncaught (_worker_import fl clock c df mapping) = None ->
  no_escape (verdicts (system_to_sheet mapping) clock 0 (iterrows df)) = true.
Proof.
  unfold _worker_import. rewrite import_rows_spec. intros H.
  apply first_escape_none.
  destruct (first_escape _); [discriminate H|reflexivity].
Qed.

(** C1 (as amended).  A row that does not convert never ends the loop of
    [_worker_import]: as long as no exception other than [KeyError],
    [ValueError] and [TypeError] is raised, every row of the sheet gets its
    verdict, the batch holds the accepted rows in sheet order, and the lines
    printed are exactly those of the rows whose conversion raised, each with
    the sheet line [index + 2] and the error, in increasing line order.  A row
    passed over by the validity test (empty name as read, quantity [<= 0],
    negative price) leaves no line.  On the ten-row sheet whose lines 3 and 7
    do not convert, ten rows are read, eight are committed, two are skipped
    and the lines printed are those of 3 and 7, in that order. *)
Theorem C1_skipped_rows_do_not_end_the_batch :
  (forall fl clock c df mapping,
     no_escape (verdicts (system_to_sheet mapping) clock 0 (iterrows df)) = true ->
     length (verdicts (system_to_sheet mapping) clock 0 (iterrows df))
       = rows_total df
     /\ batch (_worker_import fl clock c df mapping)
        = omap accepted_of (verdicts (system_to_sheet mapping) clock 0 (iterrows df))
     /\ skip_reasons (_worker_import fl clock c df mapping)
        = omap logged_of (verdicts (system_to_sheet mapping) clock 0 (iterrows df))
     /\ StronglySorted Z.lt
          (map fst (skip_reasons (_worker_import fl clock c df mapping)))
     /\ rows_skipped df (_worker_import fl clock c df mapping)
        = length (List.filter passed_over
                    (verdicts (system_to_sheet mapping) clock 0 (iterrows df))))
  /\ (rows_total Sample.ten_rows = 10%nat
      /\ rows_committed Sample.empty_store
           (_worker_import no_faults Sample.clock Sample.empty_store
              Sample.ten_rows Sample.mapping) = 8
      /\ rows_skipped Sample.ten_rows
           (_worker_import no_faults Sample.clock Sample.empty_store
              Sample.ten_rows Sample.mapping) = 2%nat
      /\ skip_reasons
           (_worker_import no_faults Sample.clock Sample.empty_store
              Sample.ten_rows Sample.mapping)
         = [ (3, ValueError "invalid literal for int() with base 10" "abc");
             (7, ValueError "could not convert string to float" "dez") ]).
Proof.
  split.
  - intros fl clock c df mapping Hne.
    unfold skip_reasons, rows_skipped, rows_total.
    rewrite worker_batch, worker_stdout, (no_escape_before _ Hne).
    rewrite verdicts_length.
    repeat split; try reflexivity.
    + apply logged_rows_increase.
    + pose proof (accepted_count
        (verdicts (system_to_sheet mapping) clock 0 (iterrows df))) as H.
      rewrite verdicts_length in H. lia.
  - vm_compute. repeat split; reflexivity.
Qed.

Lemma C1_skipped_rows_witness :
  no_escape (verdicts (system_to_sheet Sample.mapping) Sample.clock 0
               (iterrows Sample.ten_rows)) = true
  /\ batch (_worker_import no_faults Sample.clock Sample.empty_store
              Sample.ten_rows Sample.mapping)
     = omap accepted_of
         (verdicts (system_to_sheet Sample.mapping) Sample.clock 0
            (iterrows Sample.ten_rows)).
Proof.
  split; [vm_compute; reflexivity|].
  apply (proj1 C1_skipped_rows_do_not_end_the_batch no_faults Sample.clock
           Sample.empty_store Sample.ten_rows Sample.mapping).
  vm_compute; reflexivity.
Defined.

(** C1, as stated, fails: the row with quantity ["0"] is skipped and nothing
    is recorded for it, and the row whose client name is blank is not skipped
    at all. *)
Lemma C1_counterexample_silent_skip :
  rows_skipped Sample.qtd_zero
    (_worker_import no_faults Sample.clock Sample.empty_store
       Sample.qtd_zero Sample.mapping) = 1%nat
  /\ skip_reasons
       (_worker_import no_faults Sample.clock Sample.empty_store
          Sample.qtd_zero Sample.mapping) = []
  /\ rows_skipped Sample.nome_em_branco
       (_worker_import no_faults Sample.clock Sample.empty_store
          Sample.nome_em_branco Sample.mapping) = 0%nat
  /\ map nome_cliente
       (batch (_worker_import no_faults Sample.clock Sample.empty_store
                 Sample.nome_em_branco Sample.mapping)) = ["  "].
Proof. vm_compute. repeat split; reflexivity. Qed.

(** C2: the code at the failing input.  The only row of the sheet has
    quantity ["0"]; it is processed and passed over, and no progress is
    scheduled for it: the events are the warning and the two closing calls. *)
Theorem C2_no_progress_for_a_skipped_row :
  rows_total Sample.qtd_zero = 1%nat
  /\ events (_worker_import no_faults Sample.clock Sample.empty_store
               Sample.qtd_zero Sample.mapping)
     = [ nenhum_registro; Tk.DestroyProgressWindow; Tk.AtualizarTabela ].
Proof. vm_compute. split; reflexivity. Qed.

(** Progress is scheduled for the accepted rows only, each with its
    position in the sheet, so the values scheduled increase. *)
Lemma progress_values_increase s2s clock rows : forall index,
  exists ps,
    omap progress_of (verdicts s2s clock index rows) = map Tk.ProgressConfig ps
    /\ StronglySorted Z.lt ps
    /\ Forall (fun p => Z.of_nat index + 1 <= p) ps.
Proof.
  induction rows as [|row rows IH]; intros index; cbn [verdicts].
  - exists []. repeat split; constructor.
  - destruct (IH (S index)) as (ps & E & Hs & Hb).
    change (omap progress_of
              ((index, convert_row s2s (clock index) row)
                 :: verdicts s2s clock (S index) rows))
      with (match progress_of (index, convert_row s2s (clock index) row) with
            | Some p => p :: omap progress_of (verdicts s2s clock (S index) rows)
            | None => omap progress_of (verdicts s2s clock (S index) rows)
            end).
    rewrite E. unfold progress_of. cbn [fst snd].
    destruct (convert_row s2s (clock index) row) as [e|[v|]].
    + exists ps. repeat split; try assumption.
      eapply Forall_impl; [exact Hb|]. cbn beta. intros. lia.
    + exists (Z.of_nat index + 1 :: ps). repeat split.
      * constructor; [assumption|].
        eapply Forall_impl; [exact Hb|]. cbn beta. intros. lia.
      * constructor; [lia|].
        eapply Forall_impl; [exact Hb|]. cbn beta. intros. lia.
    + exists ps. repeat split; try assumption.
      eapply Forall_impl; [exact Hb|]. cbn beta. intros. lia.
Qed.

(** C8 (as amended).  When the batch is empty and no exception escaped, the
    worker does not touch the store and schedules exactly the warning
    "Nenhum registro válido encontrado para importação." followed by the two
    closing calls; no error box is shown and nothing is committed.  The
    events are the same for every such run. *)
Theorem C8_empty_batch_gives_the_warning fl clock c df mapping :
  batch (_worker_import fl clock c df mapping) = [] ->
  uncaught (_worker_import fl clock c df mapping) = None ->
  events (_worker_import fl clock c df mapping)
    = [ nenhum_registro; Tk.DestroyProgressWindow; Tk.AtualizarTabela ]
  /\ conn (_worker_import fl clock c df mapping) = c
  /\ inserted (_worker_import fl clock c df mapping) = None
  /\ rows_committed c (_worker_import fl clock c df mapping) = 0.
Proof.
  intros Hb Hu. pose proof Hb as Hb'. rewrite worker_batch in Hb'.
  apply progress_follows_accepted in Hb'.
  revert Hb Hu. unfold rows_committed, _worker_import.
  rewrite import_rows_spec. cbn [sales_to_insert printed scheduled start app].
  rewrite Hb'.
  destruct (first_escape _); [discriminate 2|].
  destruct (omap accepted_of _) eqn:E.
  - intros _ _. cbn. repeat split; try reflexivity. lia.
  - destruct (insert_multiple_sales _ _ _) as [[c' shown] [e|b]];
      cbn; intros; discriminate.
Qed.

Lemma C8_empty_batch_witness :
  batch (_worker_import no_faults Sample.clock Sample.empty_store
           Sample.qtd_zero Sample.mapping) = []
  /\ events (_worker_import no_faults Sample.clock Sample.empty_store
               Sample.qtd_zero Sample.mapping)
     = [ nenhum_registro; Tk.DestroyProgressWindow; Tk.AtualizarTabela ].
Proof.
  split; [vm_compute; reflexivity|].
  apply (C8_empty_batch_gives_the_warning no_faults Sample.clock
           Sample.empty_store Sample.qtd_zero Sample.mapping);
    vm_compute; reflexivity.
Defined.

(** C8, as stated, fails: the run on the sheet without rows and the run on
    the sheet whose only row is skipped end in the same outcome. *)
Lemma C8_counterexample_same_outcome :
  rows_total Sample.vazio = 0%nat
  /\ rows_total Sample.qtd_zero = 1%nat
  /\ _worker_import no_faults Sample.clock Sample.empty_store
       Sample.vazio Sample.mapping
     = _worker_import no_faults Sample.clock Sample.empty_store
         Sample.qtd_zero Sample.mapping.
Proof. vm_compute. repeat split; reflexivity. Qed.

(** ** The store *)

Lemma execute_each_appends fl l : forall k s s' e,
  execute_each fl k s l = (s', e) ->
  exists added, vendas s' = vendas s ++ added /\ (e = None -> map snd added = l).
Proof.
  induction l as [|v l IH]; intros k s s' e; cbn [execute_each].
  - intros [= <- <-]. exists []. now rewrite app_nil_r.
  - destruct (negb (fits_int64 (quantidade v))).
    { intros [= <- <-]. exists []. rewrite app_nil_r. split; [reflexivity|discriminate]. }
    destruct (stmt_fails fl k || negb (fits_int64 (next_id s))).
    { intros [= <- <-]. exists []. rewrite app_nil_r. split; [reflexivity|discriminate]. }
    intros H. apply IH in H as (added & Hv & He).
    exists ((next_id s, v) :: added). split.
    + rewrite Hv. cbn [insert_row vendas]. now rewrite <- app_assoc.
    + intros E. cbn [map snd]. now rewrite (He E).
Qed.

(** The three ways in which [insert_multiple_sales] ends. *)
Lemma insert_multiple_sales_cases fl c l c' shown r :
  insert_multiple_sales fl c l = (c', shown, r) ->
  match r with
  | inr true =>
    shown = [] /\ pending c' = None
    /\ exists added,
         vendas (committed c') = vendas (visible c) ++ added
         /\ map snd added = l
  | inr false =>
    committed c' = committed c /\ pending c' = None
    /\ exists m, shown = [erro_insercao (SqliteError m)]
  | inl e =>
    shown = [] /\ committed c' = committed c
    /\ exists s added,
         pending c' = Some s /\ vendas s = vendas (visible c) ++ added
  end.
Proof.
  unfold insert_multiple_sales, executemany, commit.
  destruct (execute_each fl 0 (visible c) l) as [s e] eqn:E.
  apply execute_each_appends in E as (added & Hv & He).
  destruct e as [e|].
  - destruct e; intros [= <- <- <-]; cbn;
      try (split; [reflexivity|split; [reflexivity|eauto]]).
  - destruct (commit_fails fl).
    + intros [= <- <- <-]. cbn. repeat split; eauto.
    + intros [= <- <- <-]. cbn. repeat split. exists added. auto.
Qed.

Lemma worker_cases fl clock c df mapping :
  let o := _worker_import fl clock c df mapping in
  (conn o = c /\ inserted o = None)
  \/ (exists shown r,
        insert_multiple_sales fl c (batch o) = (conn o, shown, r)
        /\ batch o <> []
        /\ no_escape (verdicts (system_to_sheet mapping) clock 0 (iterrows df)) = true
        /\ match r with
           | inr b =>
             inserted o = Some b /\ uncaught o = None
             /\ events o
                = omap progress_of
                    (verdicts (system_to_sheet mapping) clock 0 (iterrows df))
                  ++ shown
                  ++ (if b then [sucesso (length (batch o))] else [])
                  ++ [Tk.DestroyProgressWindow; Tk.AtualizarTabela]
           | inl e => inserted o = None /\ uncaught o = Some e
           end).
Proof.
  cbv zeta. unfold _worker_import. rewrite import_rows_spec.
  cbn [sales_to_insert printed scheduled start app].
  destruct (first_escape _) eqn:F; [left; split; reflexivity|].
  apply first_escape_none in F. rewrite (no_escape_before _ F).
  destruct (omap accepted_of _) as [|v l] eqn:E; [left; split; reflexivity|].
  right.
  destruct (insert_multiple_sales fl c (v :: l)) as [[c' shown] [e|b]] eqn:I;
    exists shown; [exists (inl e)|exists (inr b)]; cbn;
    (split; [exact I|split; [discriminate|split; [assumption|]]]);
    repeat split; reflexivity.
Qed.

Lemma visible_extends c :
  append_only c ->
  exists added, vendas (visible c) = vendas (committed c) ++ added.
Proof.
  unfold append_only, visible. destruct (pending c); [auto|].
  intros _. exists []. now rewrite app_nil_r.
Qed.

(** When the bulk insert reports failure - [sqlite3.Error] was raised and
    caught - nothing of the batch is committed: the committed table is the
    one from before the import, the transaction is rolled back, and the
    worker goes on to its closing calls after the error box without trying
    the rows again. *)
Lemma failed_insert_is_rolled_back fl clock c df mapping :
  inserted (_worker_import fl clock c df mapping) = Some false ->
  committed (conn (_worker_import fl clock c df mapping)) = committed c
  /\ pending (conn (_worker_import fl clock c df mapping)) = None
  /\ rows_committed c (_worker_import fl clock c df mapping) = 0
  /\ uncaught (_worker_import fl clock c df mapping) = None
  /\ (pending c = None -> conn (_worker_import fl clock c df mapping) = c)
  /\ exists m,
       events (_worker_import fl clock c df mapping)
       = omap progress_of
           (verdicts (system_to_sheet mapping) clock 0 (iterrows df))
         ++ [ erro_insercao (SqliteError m);
              Tk.DestroyProgressWindow; Tk.AtualizarTabela ].
Proof.
  intros Hi.
  destruct (worker_cases fl clock c df mapping) as [[_ Hn]|(shown & r & I & _ & _ & Hr)].
  { rewrite Hn in Hi. discriminate. }
  apply insert_multiple_sales_cases in I.
  destruct r as [e|b].
  { destruct Hr as [Hn _]. rewrite Hn in Hi. discriminate. }
  destruct Hr as (Hb & Hu & He). rewrite Hb in Hi. injection Hi as ->.
  destruct I as (Hc & Hp & m & ->).
  unfold rows_committed. rewrite Hc.
  repeat split; try assumption; try lia.
  - intros Hpc.
    destruct (conn (_worker_import fl clock c df mapping)) as [cm pd], c as [cm0 pd0].
    cbn in *. congruence.
  - exists m. rewrite He. reflexivity.
Qed.

(** C3.  The bulk insert is not all-or-nothing when it fails with an
    exception that is no [sqlite3.Error].  On an empty table, a sheet of two
    rows that both pass the validity test, the second with the quantity
    2^63: the insert raises [OverflowError] at the second row, which
    [insert_multiple_sales] does not catch, so there is no rollback, no box
    and no closing call.  Nothing is committed at that point, but the first
    row of the batch stays in the open transaction, is seen through the
    connection, and is stored by the next commit. *)
Theorem C3_overflow_leaves_part_of_the_batch :
  let o := _worker_import no_faults Sample.clock Sample.empty_store
             Casos.qtd_enorme Sample.mapping in
  batch o = [Sample.venda_boa; Casos.venda_enorme]
  /\ stdout o = []
  /\ uncaught o
     = Some (OverflowError "Python int too large to convert to SQLite INTEGER")
  /\ inserted o = None
  /\ events o = [Tk.ProgressConfig 1; Tk.ProgressConfig 2]
  /\ committed (conn o) = committed Sample.empty_store
  /\ pending (conn o) = Some {| vendas := [(1, Sample.venda_boa)]; seq := 1 |}
  /\ vendas (visible (conn o)) = [(1, Sample.venda_boa)]
  /\ commit no_faults (conn o)
     = ({| committed := {| vendas := [(1, Sample.venda_boa)]; seq := 1 |};
           pending := None |}, None).
Proof. vm_compute. repeat split; reflexivity. Qed.

(** C10.  Whatever the mapping, the rows and the failures of the engine, the
    import only adds to the table of sales: the records committed before it
    are, unchanged and in place, the beginning of the committed table and of
    the table seen through the connection afterwards; and unless the bulk
    insert returned [True], the committed table is the one from before. *)
Theorem C10_import_only_appends fl clock c df mapping :
  append_only c ->
  (exists added,
      vendas (committed (conn (_worker_import fl clock c df mapping)))
      = vendas (committed c) ++ added)
  /\ (exists added,
        vendas (visible (conn (_worker_import fl clock c df mapping)))
        = vendas (committed c) ++ added)
  /\ append_only (conn (_worker_import fl clock c df mapping))
  /\ (inserted (_worker_import fl clock c df mapping) = Some true
      \/ committed (conn (_worker_import fl clock c df mapping)) = committed c).
Proof.
  intros Ha. destruct (visible_extends c Ha) as [a0 Hv].
  destruct (worker_cases fl clock c df mapping) as [[-> _]|(shown & r & I & _ & _ & Hr)].
  { repeat split; eauto. exists []. now rewrite app_nil_r. }
  apply insert_multiple_sales_cases in I.
  destruct r as [e|[|]].
  - destruct I as (_ & Hc & s & added & Hp & Hs).
    unfold append_only, visible. rewrite Hp, Hc, Hs, Hv, <- app_assoc.
    repeat split; eauto. exists []. now rewrite app_nil_r.
  - destruct I as (_ & Hp & added & Hc & _). destruct Hr as (Hi & _).
    unfold append_only, visible. rewrite Hp, Hc, Hv, <- app_assoc.
    repeat split; eauto.
  - destruct I as (Hc & Hp & _).
    unfold append_only, visible. rewrite Hp, Hc.
    repeat split; eauto; exists []; now rewrite app_nil_r.
Qed.

Lemma C10_import_only_appends_witness :
  append_only Sample.one_sale
  /\ exists added,
       vendas (committed (conn (_worker_import no_faults Sample.clock
                                  Sample.one_sale Sample.ten_rows Sample.mapping)))
       = vendas (committed Sample.one_sale) ++ added.
Proof.
  split; [exact I|].
  exact (proj1 (C10_import_only_appends no_faults Sample.clock Sample.one_sale
                  Sample.ten_rows Sample.mapping I)).
Defined.

(** ** The conversion of a row *)

(** What an accepted row was made from. *)
Lemma convert_row_accepted s2s now row v :
  convert_row s2s now row = inr (Some v) ->
  exists c1 v1 c2 v2 c3 v3 c4 v4,
    (s2s !! "Nome do Cliente" = Some c1 /\ series_lookup c1 row = Some v1)
    /\ (s2s !! "Nome do Produto" = Some c2 /\ series_lookup c2 row = Some v2)
    /\ (s2s !! "Quantidade" = Some c3 /\ series_lookup c3 row = Some v3)
    /\ (s2s !! "Valor por unidade (R$)" = Some c4 /\ series_lookup c4 row = Some v4)
    /\ int v3 = inr (quantidade v)
    /\ float_of_str (replace_comma (str v4)) = inr (preco v)
    /\ mul_int_float (quantidade v) (preco v) = inr (preco_final v)
    /\ (String.eqb (str v1) "" = false /\ String.eqb (str v2) "" = false
        /\ (quantidade v <=? 0) = false /\ float_negative (preco v) = false)
    /\ v = {| nome_cliente := str v1;
              nome_produto := str v2;
              quantidade := quantidade v;
              preco := preco v;
              tipo_pagamento :=
                str (row_get row (s2s !! "Tipo de Pagamento") (CStr "Não Informado"));
              preco_final := preco_final v;
              nome_vendedor :=
                str (row_get row (s2s !! "Nome do Vendedor") (CStr "Importado"));
              data_hora := now |}.
Proof.
  unfold_convert.
  destruct (s2s !! "Nome do Cliente") as [c1|] eqn:E1; [|discriminate].
  destruct (series_lookup c1 row) as [v1|] eqn:L1; [|discriminate].
  destruct (s2s !! "Nome do Produto") as [c2|] eqn:E2; [|discriminate].
  destruct (series_lookup c2 row) as [v2|] eqn:L2; [|discriminate].
  destruct (s2s !! "Quantidade") as [c3|] eqn:E3; [|discriminate].
  destruct (series_lookup c3 row) as [v3|] eqn:L3; [|discriminate].
  destruct (int v3) as [e|q] eqn:Q; [discriminate|].
  destruct (s2s !! "Valor por unidade (R$)") as [c4|] eqn:E4; [|discriminate].
  destruct (series_lookup c4 row) as [v4|] eqn:L4; [|discriminate].
  destruct (float_of_str (replace_comma (str v4))) as [e|p] eqn:P; [discriminate|].
  destruct (String.eqb (str v1) "") eqn:N1; [discriminate|].
  destruct (String.eqb (str v2) "") eqn:N2; [discriminate|].
  destruct (q <=? 0) eqn:Q0; [discriminate|].
  destruct (float_negative p) eqn:P0; [discriminate|].
  cbn [orb].
  destruct (mul_int_float q p) as [e|pf] eqn:M; [discriminate|].
  intros [= <-]. cbn [quantidade preco preco_final].
  exists c1, v1, c2, v2, c3, v3, c4, v4. repeat split; assumption || reflexivity.
Qed.








(** C7 (as amended).  In every accepted row the payment type is the text of
    the cell under the column mapped to "Tipo de Pagamento", and "Não
    Informado" when no column is mapped to it or the row lacks the column;
    likewise the seller name, with "Importado".  A mapped cell that is empty
    gives the empty text, not the default. *)
Theorem C7_defaults_for_unmapped_fields s2s now row v :
  convert_row s2s now row = inr (Some v) ->
  tipo_pagamento v = optional_field s2s row "Tipo de Pagamento" "Não Informado"
  /\ nome_vendedor v = optional_field s2s row "Nome do Vendedor" "Importado"
  /\ (s2s !! "Tipo de Pagamento" = None -> tipo_pagamento v = "Não Informado")
  /\ (s2s !! "Nome do Vendedor" = None -> nome_vendedor v = "Importado")
  /\ (forall col, s2s !! "Tipo de Pagamento" = Some col ->
                  series_lookup col row = Some (CStr "") -> tipo_pagamento v = "")
  /\ (forall col, s2s !! "Nome do Vendedor" = Some col ->
                  series_lookup col row = Some (CStr "") -> nome_vendedor v = "").
Proof.
  intros H.
  apply convert_row_accepted in H
    as (c1 & v1 & c2 & v2 & c3 & v3 & c4 & v4 & _ & _ & _ & _ & _ & _ & _ & _ & ->).
  cbn [tipo_pagamento nome_vendedor]. unfold optional_field, row_get.
  repeat split.
  - destruct (s2s !! "Tipo de Pagamento"); [|reflexivity].
    destruct (series_lookup _ row); reflexivity.
  - destruct (s2s !! "Nome do Vendedor"); [|reflexivity].
    destruct (series_lookup _ row); reflexivity.
  - intros ->. reflexivity.
  - intros ->. reflexivity.
  - intros col -> ->. reflexivity.
  - intros col -> ->. reflexivity.
Qed.

Lemma C7_defaults_witness :
  convert_row (system_to_sheet Sample.mapping) (Sample.clock 0) Sample.boa
  = inr (Some Sample.venda_boa)
  /\ tipo_pagamento Sample.venda_boa = "Não Informado"
  /\ nome_vendedor Sample.venda_boa = "Importado".
Proof.
  assert (H : convert_row (system_to_sheet Sample.mapping) (Sample.clock 0)
                Sample.boa = inr (Some Sample.venda_boa))
    by (vm_compute; reflexivity).
  split; [exact H|].
  destruct (C7_defaults_for_unmapped_fields
              (system_to_sheet Sample.mapping) (Sample.clock 0) Sample.boa
              Sample.venda_boa H) as (_ & _ & Hp & Hv & _).
  split; [apply Hp|apply Hv]; vm_compute; reflexivity.
Defined.

(** C7, as stated, fails: the payment column is mapped and its cell is
    empty, and the row is accepted with the empty text as payment type. *)
Lemma C7_counterexample_empty_cell :
  map tipo_pagamento
    (batch (_worker_import no_faults Sample.clock Sample.empty_store
              {| columns := Sample.header_pagamento;
                 iterrows := [Sample.pagamento_vazio] |}
              Sample.mapping_pagamento)) = [""].
Proof. vm_compute. reflexivity. Qed.

(** ** The mapping *)

Lemma dict_get_elem k v (d : dict) : dict_get k d = Some v -> (k, v) ∈ d.
Proof.
  induction d as [|[k' v'] d IH]; cbn; [discriminate|].
  destruct (String.eqb_spec k k') as [->|_].
  - intros [= ->]. left.
  - intros H. right. auto.
Qed.

Lemma dict_set_fresh k v (d : dict) :
  dict_get k d = None -> dict_set k v d = d ++ [(k, v)].
Proof.
  induction d as [|[k' v'] d IH]; cbn; [reflexivity|].
  destruct (String.eqb k k'); [discriminate|].
  intros H. now rewrite IH.
Qed.

Lemma first_guess_some field cols col :
  first_guess field cols = Some col -> guess_mapping col = field /\ col ∈ cols.
Proof.
  unfold first_guess. intros H. apply find_some in H as [Hin Heq].
  apply String.eqb_eq in Heq. split; [assumption|]. now apply list_elem_of_In.
Qed.

Lemma first_guess_none field cols col :
  first_guess field cols = None -> col ∈ cols -> guess_mapping col <> field.
Proof.
  unfold first_guess. intros H Hin.
  apply list_elem_of_In in Hin.
  apply (find_none _ _ H) in Hin. now apply String.eqb_neq in Hin.
Qed.

Lemma auto_entries_elem cols fs k v :
  (k, v) ∈ auto_entries cols fs ->
  v ∈ fs /\ first_guess v cols = Some k.
Proof.
  unfold auto_entries. intros H.
  apply list_elem_of_omap in H as (f & Hf & He).
  unfold auto_entry in He. destruct (first_guess f cols) eqn:G; [|discriminate].
  injection He as -> ->. auto.
Qed.

Lemma first_col_fresh field (mapping : dict) cols :
  (forall k v, dict_get k mapping = Some v -> guess_mapping k <> field) ->
  first_col field mapping cols = first_guess field cols.
Proof.
  intros Hk. unfold first_guess.
  induction cols as [|col cols IH]; cbn; [reflexivity|].
  destruct (String.eqb_spec (guess_mapping col) field) as [E|_]; cbn [andb]; [|exact IH].
  unfold dict_mem. destruct (dict_get col mapping) as [v|] eqn:G; [|reflexivity].
  exfalso. exact (Hk col v G E).
Qed.

Lemma system_fields_NoDup : NoDup system_fields.
Proof. apply (bool_decide_unpack _). vm_compute. exact I. Qed.

Lemma required_in_system f : f ∈ required_fields -> f ∈ system_fields.
Proof.
  unfold required_fields. rewrite !elem_of_union, !elem_of_singleton.
  intros H. apply list_elem_of_In. unfold system_fields. cbn [In].
  intuition (subst; auto).
Qed.

(** The outer loop of [tentar_mapeamento_automatico], from the state reached
    after the fields [fs1]. *)
Lemma fold_map_field cols fs2 : forall fs1 found,
  NoDup (fs1 ++ fs2) ->
  exists found',
    fold_left (map_field cols) fs2 (auto_entries cols fs1, found)
    = (auto_entries cols (fs1 ++ fs2), found')
    /\ forall f,
         f ∈ found'
         <-> f ∈ found
             \/ (f ∈ fs2 /\ f ∈ required_fields /\ is_Some (first_guess f cols)).
Proof.
  induction fs2 as [|f fs2 IH]; intros fs1 found Hnd; cbn [fold_left].
  - exists found. rewrite app_nil_r. split; [reflexivity|].
    intros g. split; [intros H; left; exact H|].
    intros [H|[H _]]; [exact H|]. now apply elem_of_nil in H.
  - assert (Hf : f ∉ fs1).
    { apply NoDup_app in Hnd as (_ & Hd & _). intros Hin.
      apply (Hd f Hin). left. }
    assert (Hnd' : NoDup ((fs1 ++ [f]) ++ fs2)) by now rewrite <- app_assoc.
    assert (Hfresh : forall k v,
               dict_get k (auto_entries cols fs1) = Some v -> guess_mapping k <> f).
    { intros k v G E. apply dict_get_elem, auto_entries_elem in G as [Hv Hg].
      apply first_guess_some in Hg as [Hg _]. congruence. }
    unfold map_field at 2. rewrite (first_col_fresh f _ cols Hfresh).
    destruct (first_guess f cols) as [col|] eqn:G.
    + assert (Hnone : dict_get col (auto_entries cols fs1) = None).
      { destruct (dict_get col (auto_entries cols fs1)) as [v|] eqn:D; [|reflexivity].
        exfalso. apply (Hfresh col v D). now apply first_guess_some in G. }
      rewrite (dict_set_fresh _ _ _ Hnone).
      replace (auto_entries cols fs1 ++ [(col, f)])
        with (auto_entries cols (fs1 ++ [f])).
      2:{ unfold auto_entries. rewrite omap_app. cbn. unfold auto_entry at 2.
          now rewrite G. }
      destruct (IH (fs1 ++ [f])
                  (if decide (f ∈ required_fields) then {[f]} ∪ found else found)
                  Hnd') as (found' & -> & Hfound).
      exists found'. rewrite <- app_assoc. split; [reflexivity|].
      intros g. rewrite Hfound, elem_of_cons.
      assert (Hsome : is_Some (first_guess f cols)) by (rewrite G; eauto).
      destruct (decide (f ∈ required_fields)) as [Hr|Hr].
      * rewrite elem_of_union, elem_of_singleton. split.
        -- intros [[->|H]|H]; [right; auto|left; exact H|right; tauto].
        -- intros [H|[[->|H] H']];
             [left; right; exact H|left; left; reflexivity|right; tauto].
      * split.
        -- intros [H|H]; [left; exact H|right; tauto].
        -- intros [H|[[->|H] [H1 H2]]]; [left; exact H|contradiction|right; tauto].
    + replace (auto_entries cols fs1) with (auto_entries cols (fs1 ++ [f])).
      2:{ unfold auto_entries. rewrite omap_app. cbn. unfold auto_entry at 2.
          rewrite G. now rewrite app_nil_r. }
      destruct (IH (fs1 ++ [f]) found Hnd') as (found' & -> & Hfound).
      exists found'. rewrite <- app_assoc. split; [reflexivity|].
      intros g. rewrite Hfound, elem_of_cons.
      assert (Hnone : ~ is_Some (first_guess f cols)).
      { rewrite G. intros [x Hx]. discriminate. }
      split.
      * intros [H|H]; [left; exact H|right; tauto].
      * intros [H|[[->|H] [H1 H2]]]; [left; exact H|contradiction|right; tauto].
Qed.

(** The automatic mapping: every field with the first column guessed as it,
    and the required fields that no column is guessed as. *)
Lemma tentar_mapeamento_automatico_spec cols :
  fst (tentar_mapeamento_automatico cols) = auto_entries cols system_fields
  /\ forall f,
       f ∈ snd (tentar_mapeamento_automatico cols)
       <-> f ∈ required_fields /\ first_guess f cols = None.
Proof.
  unfold tentar_mapeamento_automatico.
  destruct (fold_map_field cols system_fields [] ∅) as (found' & E & Hfound).
  { cbn [app]. exact system_fields_NoDup. }
  change (auto_entries cols []) with (@nil (string * string)) in E.
  change ([] ++ system_fields) with system_fields in E.
  destruct (fold_left (map_field cols) system_fields _) as [m fd] eqn:F.
  injection E as -> ->. clear F.
  cbn [fst snd]. split; [reflexivity|].
  intros f. rewrite elem_of_difference, Hfound. split.
  - intros [Hr Hn]. split; [assumption|].
    destruct (first_guess f cols) eqn:G; [|reflexivity].
    exfalso. apply Hn. right. split; [now apply required_in_system|].
    split; [assumption|]. eauto.
  - intros [Hr G]. split; [assumption|].
    intros [Hin|(_ & _ & [x Hx])]; [set_solver|congruence].
Qed.

Lemma dict_get_absent k (d : dict) :
  (forall v, (k, v) ∉ d) -> dict_get k d = None.
Proof.
  intros H. destruct (dict_get k d) as [v|] eqn:G; [|reflexivity].
  exfalso. exact (H v (dict_get_elem _ _ _ G)).
Qed.

Lemma auto_entries_fields cols fs f :
  f ∈ map snd (auto_entries cols fs) -> f ∈ fs.
Proof.
  intros H. apply list_elem_of_In, in_map_iff in H as ([k v] & <- & Hin).
  apply list_elem_of_In, auto_entries_elem in Hin. tauto.
Qed.

Lemma auto_entries_NoDup cols fs :
  NoDup fs -> NoDup (map snd (auto_entries cols fs)).
Proof.
  induction 1 as [|f fs Hf Hnd IH]; cbn; [constructor|].
  unfold auto_entry at 1. destruct (first_guess f cols); [|exact IH].
  cbn [map snd]. constructor; [|exact IH].
  intros Hin. apply Hf. eapply auto_entries_fields, Hin.
Qed.

Lemma last_col_auto cols fs f :
  NoDup fs ->
  last_col f (auto_entries cols fs)
  = if decide (f ∈ fs) then first_guess f cols else None.
Proof.
  induction 1 as [|g fs Hg Hnd IH]; [reflexivity|].
  change (auto_entries cols (g :: fs))
    with (match auto_entry cols g with
          | Some e => e :: auto_entries cols fs
          | None => auto_entries cols fs
          end).
  unfold auto_entry at 1.
  destruct (decide (f = g)) as [->|Hne].
  - rewrite decide_True by left.
    assert (Hl : last_col g (auto_entries cols fs) = None)
      by (rewrite IH; now rewrite decide_False).
    destruct (first_guess g cols) as [col|]; [|exact Hl].
    cbn [last_col]. rewrite Hl. now rewrite String.eqb_refl.
  - assert (Hd : (if decide (f ∈ g :: fs) then first_guess f cols else None)
                 = (if decide (f ∈ fs) then first_guess f cols else None)).
    { destruct (decide (f ∈ fs)); [rewrite decide_True by now right|rewrite decide_False];
        [reflexivity|reflexivity|]. intros Hin. apply elem_of_cons in Hin. tauto. }
    rewrite Hd, <- IH.
    destruct (first_guess g cols) as [col|]; [|reflexivity].
    cbn [last_col]. destruct (last_col f (auto_entries cols fs)); [reflexivity|].
    destruct (String.eqb_spec g f); [congruence|reflexivity].
Qed.

Lemma fold_insert_last (m : dict) : forall (acc : gmap string string) f,
  fold_left (fun m kv => <[ snd kv := fst kv ]> m) m acc !! f
  = match last_col f m with
    | Some col => Some col
    | None => acc !! f
    end.
Proof.
  induction m as [|[col g] m IH]; intros acc f; [reflexivity|].
  cbn [fold_left last_col fst snd]. rewrite IH.
  destruct (last_col f m); [reflexivity|].
  destruct (String.eqb_spec g f) as [->|Hne].
  - apply lookup_insert_eq.
  - now apply lookup_insert_ne.
Qed.

(** C4 (as amended).  The automatic mapping has at most one column for each
    field, the first column of the header that is guessed as that field, and
    under it the worker reads each field from that column.  A mapping that
    comes out of the mapping window is only required to cover the required
    fields: it may give the same field to several columns, and the worker
    then reads the field from the last of them in the order of the mapping. *)
Theorem C4_one_column_per_field_when_guessed :
  (forall cols,
     NoDup (map snd (fst (tentar_mapeamento_automatico cols)))
     /\ (forall col f,
           (col, f) ∈ fst (tentar_mapeamento_automatico cols) ->
           first_guess f cols = Some col)
     /\ (forall f,
           system_to_sheet (fst (tentar_mapeamento_automatico cols)) !! f
           = if decide (f ∈ system_fields) then first_guess f cols else None))
  /\ (forall mapping f, system_to_sheet mapping !! f = last_col f mapping)
  /\ (forall column_mappings final_mapping,
        ImportMappingWindow.confirm column_mappings = Some final_mapping
        <-> final_mapping
            = List.filter (fun kv => negb (String.eqb (snd kv) "Ignorar"))
                column_mappings
            /\ required_fields ⊆ list_to_set (map snd final_mapping)).
Proof.
  split; [|split].
  - intros cols.
    destruct (tentar_mapeamento_automatico_spec cols) as [-> _].
    split; [|split].
    + apply auto_entries_NoDup, system_fields_NoDup.
    + intros col f H. now apply auto_entries_elem in H.
    + intros f. unfold system_to_sheet. rewrite fold_insert_last.
      rewrite (last_col_auto cols system_fields f system_fields_NoDup).
      destruct (decide (f ∈ system_fields)); [|apply lookup_empty].
      destruct (first_guess f cols); [reflexivity|apply lookup_empty].
  - intros mapping f. unfold system_to_sheet. rewrite fold_insert_last.
    destruct (last_col f mapping); [reflexivity|apply lookup_empty].
  - intros cm final. unfold ImportMappingWindow.confirm. cbv zeta.
    destruct (decide (required_fields ⊆ _)) as [Hs|Hs]; split.
    + intros [= <-]. split; [reflexivity|exact Hs].
    + intros [-> _]. reflexivity.
    + discriminate.
    + intros [-> H]. contradiction.
Qed.

(** C4, as stated, fails: on a header with the columns "Qtd" and
    "Quantidade" the mapping window, confirmed as it opens, hands over a
    mapping with both columns under "Quantidade", and the worker reads the
    quantity from the second one. *)
Lemma C4_counterexample_two_columns_one_field :
  iniciar_importacao Sample.header_duas_qtd false [ImportMappingWindow.Confirmar]
  = Some [ ("Cliente", "Nome do Cliente"); ("Produto", "Nome do Produto");
           ("Qtd", "Quantidade"); ("Quantidade", "Quantidade");
           ("Valor", "Valor por unidade (R$)") ]
  /\ system_to_sheet
       [ ("Cliente", "Nome do Cliente"); ("Produto", "Nome do Produto");
         ("Qtd", "Quantidade"); ("Quantidade", "Quantidade");
         ("Valor", "Valor por unidade (R$)") ] !! "Quantidade"
     = Some "Quantidade"
  /\ map quantidade
       (batch (_worker_import no_faults Sample.clock Sample.empty_store
                 Sample.header_duas_qtd
                 [ ("Cliente", "Nome do Cliente"); ("Produto", "Nome do Produto");
                   ("Qtd", "Quantidade"); ("Quantidade", "Quantidade");
                   ("Valor", "Valor por unidade (R$)") ])) = [7].
Proof. vm_compute. repeat split; reflexivity. Qed.

(** C9 (as amended).  [guess_mapping] puts a column named "Cliente" under
    "Nome do Cliente" and under no other field.  On a header that has such a
    column the automatic mapping gives "Nome do Cliente" to the first column
    of the header guessed as it, so that the field is not missing; the
    column "Cliente" is the one mapped exactly when it is that first column,
    and is left out of the mapping otherwise.  Every column of the automatic
    mapping is under the field that [guess_mapping] gives it. *)
Theorem C9_cliente_is_client_name :
  guess_mapping "Cliente" = "Nome do Cliente"
  /\ (forall cols,
        "Cliente" ∈ cols ->
        exists col,
          first_guess "Nome do Cliente" cols = Some col
          /\ dict_get col (fst (tentar_mapeamento_automatico cols))
             = Some "Nome do Cliente"
          /\ ("Nome do Cliente" ∉ snd (tentar_mapeamento_automatico cols))
          /\ dict_get "Cliente" (fst (tentar_mapeamento_automatico cols))
             = if String.eqb col "Cliente" then Some "Nome do Cliente" else None)
  /\ (forall cols col f,
        dict_get col (fst (tentar_mapeamento_automatico cols)) = Some f ->
        guess_mapping col = f).
Proof.
  assert (Hg : guess_mapping "Cliente" = "Nome do Cliente")
    by (vm_compute; reflexivity).
  split; [exact Hg|split].
  - intros cols Hin.
    destruct (tentar_mapeamento_automatico_spec cols) as [-> Hmiss].
    destruct (first_guess "Nome do Cliente" cols) as [col|] eqn:G.
    2:{ exfalso. exact (first_guess_none _ _ _ G Hin Hg). }
    exists col. split; [reflexivity|split; [|split]].
    + unfold auto_entries, system_fields. cbn [omap list_omap].
      unfold auto_entry at 1. rewrite G. cbn [dict_get].
      now rewrite String.eqb_refl.
    + rewrite Hmiss. intros [_ Hn]. congruence.
    + destruct (String.eqb_spec col "Cliente") as [->|Hne].
      * unfold auto_entries, system_fields. cbn [omap list_omap].
        unfold auto_entry at 1. rewrite G. reflexivity.
      * apply dict_get_absent. intros v Hv.
        apply auto_entries_elem in Hv as [_ Hv].
        pose proof (first_guess_some _ _ _ Hv) as [Hv' _].
        rewrite Hg in Hv'. subst v. congruence.
  - intros cols col f H.
    destruct (tentar_mapeamento_automatico_spec cols) as [E _]. rewrite E in H.
    apply dict_get_elem, auto_entries_elem in H as [_ H].
    now apply first_guess_some in H.
Qed.

Lemma C9_cliente_witness :
  ("Cliente" : string) ∈ Sample.header
  /\ exists col,
       first_guess "Nome do Cliente" Sample.header = Some col
       /\ dict_get col (fst (tentar_mapeamento_automatico Sample.header))
          = Some "Nome do Cliente"
       /\ ("Nome do Cliente" ∉ snd (tentar_mapeamento_automatico Sample.header))
       /\ dict_get "Cliente" (fst (tentar_mapeamento_automatico Sample.header))
          = if String.eqb col "Cliente" then Some "Nome do Cliente" else None.
Proof.
  assert (H : ("Cliente" : string) ∈ Sample.header) by left.
  split; [exact H|].
  exact (proj1 (proj2 C9_cliente_is_client_name) Sample.header H).
Defined.

(** C9, as stated, fails: on the header "Comprador", "Cliente" the first
    column is the one mapped to "Nome do Cliente", and the column "Cliente"
    is left out of the automatic mapping. *)
Lemma C9_counterexample_earlier_column :
  fst (tentar_mapeamento_automatico ["Comprador"; "Cliente"])
  = [("Comprador", "Nome do Cliente")]
  /\ dict_get "Cliente" (fst (tentar_mapeamento_automatico ["Comprador"; "Cliente"]))
     = None.
Proof. vm_compute. split; reflexivity. Qed.

Lemma C4_one_column_witness :
  NoDup (map snd (fst (tentar_mapeamento_automatico
                         (columns Sample.header_duas_qtd))))
  /\ system_to_sheet (fst (tentar_mapeamento_automatico
                             (columns Sample.header_duas_qtd))) !! "Quantidade"
     = Some "Qtd".
Proof.
  destruct (proj1 C4_one_column_per_field_when_guessed
              (columns Sample.header_duas_qtd)) as (H1 & _ & H3).
  split; [exact H1|]. rewrite H3. vm_compute. reflexivity.
Defined.

(** * Further properties of the import *)

Import Garantias.

(** ** The automatic mapping and the mapping window *)

Lemma first_guess_none_iff field cols :
  first_guess field cols = None
  <-> forall col, col ∈ cols -> guess_mapping col <> field.
Proof.
  split.
  - intros H col. now apply first_guess_none.
  - intros H. destruct (first_guess field cols) as [col|] eqn:G; [|reflexivity].
    apply first_guess_some in G as [G Hin]. exfalso. exact (H col Hin G).
Qed.

(** X1.  [tentar_mapeamento_automatico] reports a field as missing exactly
    when the field is required and no column of the sheet is guessed as it;
    every column it maps is a column of the sheet. *)
Theorem X1_missing_fields_are_the_unguessed_required cols :
  (forall f,
     f ∈ snd (tentar_mapeamento_automatico cols)
     <-> f ∈ required_fields
         /\ forall col, col ∈ cols -> guess_mapping col <> f)
  /\ (forall col f,
        (col, f) ∈ fst (tentar_mapeamento_automatico cols) ->
        col ∈ cols /\ f ∈ system_fields /\ guess_mapping col = f).
Proof.
  destruct (tentar_mapeamento_automatico_spec cols) as [E Hm]. split.
  - intros f. rewrite Hm, first_guess_none_iff. reflexivity.
  - intros col f H. rewrite E in H. apply auto_entries_elem in H as [Hf G].
    apply first_guess_some in G as [G Hin]. auto.
Qed.

Lemma dict_get_set k k' v (d : dict) :
  dict_get k (dict_set k' v d)
  = if String.eqb k k' then Some v else dict_get k d.
Proof.
  induction d as [|[k0 v0] d IH]; cbn [dict_set dict_get].
  - destruct (String.eqb k k'); reflexivity.
  - destruct (String.eqb_spec k' k0) as [->|Hne]; cbn [dict_get].
    + destruct (String.eqb k k0); reflexivity.
    + rewrite IH. destruct (String.eqb_spec k k0) as [->|_]; [|reflexivity].
      destruct (String.eqb_spec k0 k'); [congruence|reflexivity].
Qed.

Lemma dict_set_elem k v k' v' (d : dict) :
  (k, v) ∈ dict_set k' v' d -> (k, v) = (k', v') \/ (k, v) ∈ d.
Proof.
  induction d as [|[k0 v0] d IH]; cbn [dict_set].
  - intros H. apply list_elem_of_singleton in H. now left.
  - destruct (String.eqb k' k0).
    + intros H. apply elem_of_cons in H as [H|H]; [now left|].
      right. now right.
    + intros H. apply elem_of_cons in H as [H|H]; [right; rewrite H; left|].
      destruct (IH H) as [E|E]; [now left|right; now right].
Qed.

Lemma dict_mem_elem k (d : dict) :
  dict_mem k d = true -> exists v, (k, v) ∈ d.
Proof.
  unfold dict_mem. destruct (dict_get k d) as [v|] eqn:G; [|discriminate].
  intros _. exists v. now apply dict_get_elem.
Qed.

(** The comboboxes after a loop of [column_mappings[col] = ...]. *)
Lemma fold_dict_set (g : string -> string) cols : forall (acc : dict) col,
  dict_get col (fold_left (fun cm c => dict_set c (g c) cm) cols acc)
  = if decide (col ∈ cols) then Some (g col) else dict_get col acc.
Proof.
  induction cols as [|c cols IH]; intros acc col; cbn [fold_left].
  - rewrite decide_False; [reflexivity|]. apply not_elem_of_nil.
  - rewrite IH. destruct (decide (col ∈ cols)) as [Hin|Hnin].
    + rewrite decide_True by now right. reflexivity.
    + rewrite dict_get_set. destruct (String.eqb_spec col c) as [->|Hne].
      * rewrite decide_True by left. reflexivity.
      * rewrite decide_False; [reflexivity|].
        intros H. apply elem_of_cons in H. tauto.
Qed.

Lemma fold_dict_set_elem (g : string -> string) cols : forall (acc : dict) k v,
  (k, v) ∈ fold_left (fun cm c => dict_set c (g c) cm) cols acc ->
  (k ∈ cols /\ v = g k) \/ (k, v) ∈ acc.
Proof.
  induction cols as [|c cols IH]; intros acc k v; cbn [fold_left].
  - now right.
  - intros H. apply IH in H as [[Hin ->]|H].
    + left. split; [now right|reflexivity].
    + apply dict_set_elem in H as [[= -> ->]|H]; [|now right].
      left. split; [left|reflexivity].
Qed.

Lemma guess_mapping_choice s : guess_mapping s ∈ ImportMappingWindow.combo_values.
Proof.
  unfold guess_mapping, ImportMappingWindow.combo_values, system_fields.
  repeat match goal with
         | |- context [if ?b then _ else _] => destruct b
         end;
    apply list_elem_of_In; cbn [In]; tauto.
Qed.

Lemma automatic_mapping_guess cols col f :
  dict_get col (fst (tentar_mapeamento_automatico cols)) = Some f ->
  guess_mapping col = f /\ col ∈ cols /\ f ∈ system_fields.
Proof.
  destruct (tentar_mapeamento_automatico_spec cols) as [E _]. rewrite E.
  intros H. apply dict_get_elem, auto_entries_elem in H as [Hf H].
  apply first_guess_some in H. tauto.
Qed.

(** The value that [ImportMappingWindow.__init__] selects for a column,
    when the initial mapping agrees with [guess_mapping]. *)
Lemma init_choice (initial_mapping : dict) col :
  (forall f, dict_get col initial_mapping = Some f -> guess_mapping col = f) ->
  match initial_mapping, dict_get col initial_mapping with
  | _ :: _, Some field => field
  | _, _ => guess_mapping col
  end = guess_mapping col.
Proof.
  intros H. destruct initial_mapping as [|p l]; [reflexivity|].
  destruct (dict_get col (p :: l)) as [f|]; [|reflexivity].
  symmetry. now apply H.
Qed.

Lemma init_is_a_fold df initial_mapping :
  ImportMappingWindow.init df initial_mapping
  = fold_left
      (fun cm c =>
         dict_set c
           ((fun col =>
               match initial_mapping, dict_get col initial_mapping with
               | _ :: _, Some field => field
               | _, _ => guess_mapping col
               end) c) cm)
      (columns df) [].
Proof. reflexivity. Qed.

Lemma window_entries df col v :
  (col, v) ∈ ImportMappingWindow.init df
               (fst (tentar_mapeamento_automatico (columns df))) ->
  col ∈ columns df /\ v ∈ ImportMappingWindow.combo_values.
Proof.
  rewrite init_is_a_fold. intros H.
  apply fold_dict_set_elem in H as [[Hin ->]|H].
  - split; [assumption|]. cbv beta. rewrite init_choice.
    + apply guess_mapping_choice.
    + intros f G. now apply automatic_mapping_guess in G.
  - now apply elem_of_nil in H.
Qed.

(** X3.  The mapping window that opens on the automatic mapping shows, for
    every column of the sheet, the field that [guess_mapping] gives the
    column: a column that the automatic mapping left out because an earlier
    one had taken its field comes back under that field.  Every value shown
    is one of the choices of the combobox. *)
Theorem X3_window_opens_with_the_guesses df :
  (forall col,
     col ∈ columns df ->
     dict_get col
       (ImportMappingWindow.init df (fst (tentar_mapeamento_automatico (columns df))))
     = Some (guess_mapping col))
  /\ (forall col v,
        (col, v) ∈ ImportMappingWindow.init df
                     (fst (tentar_mapeamento_automatico (columns df))) ->
        col ∈ columns df /\ v ∈ ImportMappingWindow.combo_values).
Proof.
  split; [|apply window_entries].
  rewrite init_is_a_fold.
  intros col Hin. rewrite fold_dict_set, decide_True by assumption.
  cbv beta. rewrite init_choice; [reflexivity|].
  intros f G. now apply automatic_mapping_guess in G.
Qed.

(** ** What the conversion of a row can raise *)

Lemma int_of_str_raises s e :
  int_of_str s = inl e -> exists what, e = ValueError what s.
Proof.
  unfold int_of_str. cbv zeta.
  destruct (split_sign _) as [neg body].
  destruct (span_digits _) as [ds rest].
  destruct ds as [|d ds]; [intros [= <-]; eauto|].
  destruct rest as [|r rest]; [|intros [= <-]; eauto].
  destruct (underscores_ok None body); [|intros [= <-]; eauto].
  destruct (length (d :: ds) <=? max_str_digits)%nat; [discriminate|].
  intros [= <-]; eauto.
Qed.

Lemma float_of_str_raises s e :
  float_of_str s = inl e ->
  e = ValueError "could not convert string to float" s.
Proof.
  unfold float_of_str. cbv zeta.
  destruct (negb (underscores_ok None (literal (chars s)))); [now intros [= <-]|].
  destruct (split_sign _) as [neg body].
  destruct (is_word "inf" body || is_word "infinity" body); [discriminate|].
  destruct (is_word "nan" body); [discriminate|].
  destruct (span_digits body) as [ip rest].
  destruct (match rest with
            | [] => ([], [])
            | a :: r => if Ascii.eqb a "."%char then span_digits r else ([], rest)
            end) as [fp rest'].
  destruct (ip ++ fp); [now intros [= <-]|].
  destruct (exponent_of rest'); [discriminate|now intros [= <-]].
Qed.

Lemma int_raises c e :
  int c = inl e ->
  (exists what arg, e = ValueError what arg) \/ (exists what, e = OverflowError what).
Proof.
  destruct c as [s|n|f r]; cbn [int].
  - intros H. apply int_of_str_raises in H as [w ->]. left. eauto.
  - discriminate.
  - destruct f; cbn; try discriminate; intros [= <-]; [right|left]; eauto.
Qed.

Lemma mul_int_float_raises n x e :
  mul_int_float n x = inl e ->
  e = OverflowError "int too large to convert to float".
Proof.
  unfold mul_int_float. destruct (float_of_Z n); try discriminate.
  now intros [= <-].
Qed.

(** Every exception of [convert_row]: a [KeyError] for a required field
    that no column is mapped to or for a mapped column that the row lacks,
    a [ValueError] of a conversion, or an [OverflowError]. *)
Lemma convert_row_raises s2s now row e :
  convert_row s2s now row = inl e ->
  match e with
  | KeyError k =>
    (k ∈ required_fields /\ s2s !! k = None)
    \/ (exists f, f ∈ required_fields /\ s2s !! f = Some k
                  /\ series_lookup k row = None)
  | ValueError _ _ | OverflowError _ => True
  | _ => False
  end.
Proof.
  assert (R1 : "Nome do Cliente" ∈ required_fields) by (unfold required_fields; set_solver).
  assert (R2 : "Nome do Produto" ∈ required_fields) by (unfold required_fields; set_solver).
  assert (R3 : "Quantidade" ∈ required_fields) by (unfold required_fields; set_solver).
  assert (R4 : "Valor por unidade (R$)" ∈ required_fields)
    by (unfold required_fields; set_solver).
  unfold_convert.
  destruct (s2s !! "Nome do Cliente") as [c1|] eqn:E1; [|intros [= <-]; auto].
  destruct (series_lookup c1 row) as [v1|] eqn:L1; [|intros [= <-]; eauto 6].
  destruct (s2s !! "Nome do Produto") as [c2|] eqn:E2; [|intros [= <-]; auto].
  destruct (series_lookup c2 row) as [v2|] eqn:L2; [|intros [= <-]; eauto 6].
  destruct (s2s !! "Quantidade") as [c3|] eqn:E3; [|intros [= <-]; auto].
  destruct (series_lookup c3 row) as [v3|] eqn:L3; [|intros [= <-]; eauto 6].
  destruct (int v3) as [e3|q] eqn:Q.
  { intros [= <-]. apply int_raises in Q as [(w & a & ->)|(w & ->)]; exact I. }
  destruct (s2s !! "Valor por unidade (R$)") as [c4|] eqn:E4; [|intros [= <-]; auto].
  destruct (series_lookup c4 row) as [v4|] eqn:L4; [|intros [= <-]; eauto 6].
  destruct (float_of_str (replace_comma (str v4))) as [e4|p] eqn:P.
  { intros [= <-]. apply float_of_str_raises in P as ->. exact I. }
  destruct (_ || _); [discriminate|].
  destruct (mul_int_float q p) as [e5|pf] eqn:M; [|discriminate].
  intros [= <-]. apply mul_int_float_raises in M as ->. exact I.
Qed.

(** ** The mapping under which the worker runs *)

Lemma last_col_elem f (m : dict) col :
  last_col f m = Some col -> (col, f) ∈ m.
Proof.
  induction m as [|[c g] m IH]; cbn [last_col]; [discriminate|].
  destruct (last_col f m) as [c'|].
  - intros [= <-]. right. now apply IH.
  - destruct (String.eqb_spec g f) as [->|_]; [|discriminate].
    intros [= <-]. left.
Qed.

Lemma last_col_exists f (m : dict) col :
  (col, f) ∈ m -> exists col', last_col f m = Some col'.
Proof.
  induction m as [|[c g] m IH]; intros H.
  - now apply elem_of_nil in H.
  - cbn [last_col]. destruct (last_col f m) as [c'|] eqn:L; [eauto|].
    apply elem_of_cons in H as [[= -> ->]|H].
    + rewrite String.eqb_refl. eauto.
    + destruct (IH H) as [c' Hc']. discriminate.
Qed.

Lemma covering_is_usable df (mapping : dict) :
  (forall col f, (col, f) ∈ mapping -> col ∈ columns df /\ f ∈ system_fields) ->
  (forall f, f ∈ required_fields -> exists col, (col, f) ∈ mapping) ->
  usable_mapping df mapping.
Proof.
  intros Hk Hr. split; [exact Hk|].
  intros f Hf. destruct (Hr f Hf) as [col Hcol].
  destruct (last_col_exists f mapping col Hcol) as [col' L].
  exists col'. unfold system_to_sheet. rewrite fold_insert_last, L.
  split; [reflexivity|]. apply last_col_elem in L. now apply Hk in L.
Qed.

Lemma confirm_usable df (cm final : dict) :
  (forall col v, (col, v) ∈ cm ->
                 col ∈ columns df /\ v ∈ ImportMappingWindow.combo_values) ->
  ImportMappingWindow.confirm cm = Some final ->
  usable_mapping df final.
Proof.
  intros Hcm. unfold ImportMappingWindow.confirm. cbv zeta.
  destruct (decide (required_fields ⊆ _)) as [Hs|]; [|discriminate].
  intros [= <-]. apply covering_is_usable.
  - intros col f H. apply list_elem_of_In, filter_In in H as [H Hne].
    apply list_elem_of_In, Hcm in H as [Hc Hv]. split; [assumption|].
    cbn [snd] in Hne. unfold ImportMappingWindow.combo_values in Hv.
    apply elem_of_cons in Hv as [->|Hv]; [discriminate|assumption].
  - intros f Hf. apply Hs, elem_of_list_to_set in Hf.
    apply list_elem_of_In, in_map_iff in Hf as ([col g] & <- & Hin).
    exists col. now apply list_elem_of_In.
Qed.

Lemma run_usable df acts : forall (cm final : dict),
  (forall col v, (col, v) ∈ cm ->
                 col ∈ columns df /\ v ∈ ImportMappingWindow.combo_values) ->
  ImportMappingWindow.run cm acts = Some final ->
  usable_mapping df final.
Proof.
  induction acts as [|[col value| |] acts IH]; intros cm final Hcm;
    cbn [ImportMappingWindow.run]; [discriminate| | |discriminate].
  - apply IH.
    destruct (dict_mem col cm) eqn:M; cbn [andb]; [|exact Hcm].
    destruct (existsb (String.eqb value) ImportMappingWindow.combo_values) eqn:V;
      [|exact Hcm].
    intros k v H. apply dict_set_elem in H as [[= -> ->]|H]; [|now apply Hcm].
    split.
    + apply dict_mem_elem in M as [v' Hv']. now apply Hcm in Hv'.
    + apply existsb_exists in V as (x & Hx & E). apply String.eqb_eq in E.
      subst x. now apply list_elem_of_In.
  - destruct (ImportMappingWindow.confirm cm) as [m|] eqn:C.
    + intros [= <-]. now apply (confirm_usable df cm).
    + now apply IH.
Qed.

(** X2.  Every mapping that [iniciar_importacao] hands to the worker,
    whether it is the automatic one or comes out of the mapping window, maps
    only columns of the sheet, only to fields of the system, and gives the
    worker a column of the sheet for each of the four required fields.  So
    on a row that has a cell under every column of the sheet the conversion
    never raises a [KeyError]. *)
Theorem X2_handed_mappings_cover_the_required_fields df prosseguir acts mapping :
  iniciar_importacao df prosseguir acts = Some mapping ->
  usable_mapping df mapping
  /\ forall now row k,
       (forall col, col ∈ columns df -> is_Some (series_lookup col row)) ->
       convert_row (system_to_sheet mapping) now row <> inl (KeyError k).
Proof.
  intros H.
  assert (U : usable_mapping df mapping).
  { revert H. unfold iniciar_importacao.
    destruct (tentar_mapeamento_automatico (columns df)) as [auto missing] eqn:T.
    assert (Hw : forall col v,
               (col, v) ∈ ImportMappingWindow.init df auto ->
               col ∈ columns df /\ v ∈ ImportMappingWindow.combo_values).
    { intros col v. pose proof (window_entries df col v) as Hx.
      rewrite T in Hx. exact Hx. }
    destruct (decide (missing = ∅)) as [->|_]; [|apply (run_usable df); exact Hw].
    destruct prosseguir; [|apply (run_usable df); exact Hw].
    intros [= <-].
    pose proof (tentar_mapeamento_automatico_spec (columns df)) as [E Hm].
    rewrite T in E, Hm. cbn [fst snd] in E, Hm. subst auto.
    apply covering_is_usable.
    - intros col f Hin. apply auto_entries_elem in Hin as [Hf G].
      apply first_guess_some in G. tauto.
    - intros f Hf.
      destruct (first_guess f (columns df)) as [col|] eqn:G.
      + exists col. unfold auto_entries. apply list_elem_of_omap.
        exists f. split; [now apply required_in_system|].
        unfold auto_entry. now rewrite G.
      + exfalso. assert (Hin : f ∈ (∅ : gset string)) by (apply Hm; auto).
        now apply not_elem_of_empty in Hin. }
  split; [exact U|].
  intros now row k Hrow Hc. apply convert_row_raises in Hc.
  destruct U as [Hk Hr]. destruct Hc as [[Hf Hn]|(f & Hf & Hs & Hl)].
  - destruct (Hr k Hf) as (col & Hcol & _). congruence.
  - destruct (Hr f Hf) as (col & Hcol & Hin).
    rewrite Hs in Hcol. injection Hcol as ->.
    destruct (Hrow col Hin) as [c Hc']. congruence.
Qed.

Lemma X2_handed_mappings_witness :
  iniciar_importacao Casos.duas_qtd false [ImportMappingWindow.Confirmar]
  = Some [ ("Cliente", "Nome do Cliente"); ("Produto", "Nome do Produto");
           ("Qtd", "Quantidade"); ("Quantidade", "Quantidade");
           ("Valor", "Valor por unidade (R$)") ]
  /\ usable_mapping Casos.duas_qtd
       [ ("Cliente", "Nome do Cliente"); ("Produto", "Nome do Produto");
         ("Qtd", "Quantidade"); ("Quantidade", "Quantidade");
         ("Valor", "Valor por unidade (R$)") ].
Proof.
  assert (H : iniciar_importacao Casos.duas_qtd false [ImportMappingWindow.Confirmar]
              = Some [ ("Cliente", "Nome do Cliente"); ("Produto", "Nome do Produto");
                       ("Qtd", "Quantidade"); ("Quantidade", "Quantidade");
                       ("Valor", "Valor por unidade (R$)") ])
    by (vm_compute; reflexivity).
  split; [exact H|].
  exact (proj1 (X2_handed_mappings_cover_the_required_fields _ _ _ _ H)).
Defined.

(** ** What a run of the worker adds to the store *)

Lemma max_id_from (l : list (Z * sale)) : forall m,
  m <= fold_left (fun m r => Z.max m (fst r)) l m
  /\ forall i v, (i, v) ∈ l -> i <= fold_left (fun m r => Z.max m (fst r)) l m.
Proof.
  induction l as [|[j w] l IH]; intros m; cbn [fold_left fst].
  - split; [lia|]. intros i v H. now apply elem_of_nil in H.
  - destruct (IH (Z.max m j)) as [H1 H2]. split; [lia|].
    intros i v H. apply elem_of_cons in H as [[= -> ->]|H]; [lia|eauto].
Qed.

Lemma next_id_fresh (s : store) i v : (i, v) ∈ vendas s -> i < next_id s.
Proof.
  intros H. unfold next_id, max_id.
  pose proof (proj2 (max_id_from (vendas s) 0) i v H). lia.
Qed.

Lemma next_id_insert_row s v : next_id (insert_row s v) = next_id s + 1.
Proof.
  unfold next_id at 1, max_id. cbn [insert_row vendas seq].
  rewrite fold_left_app. cbn [fold_left fst].
  assert (H : fold_left (fun m r => Z.max m (fst r)) (vendas s) 0 < next_id s).
  { unfold next_id, max_id. lia. }
  lia.
Qed.

Lemma execute_each_done fl l : forall k s s',
  execute_each fl k s l = (s', None) ->
  vendas s' = vendas s ++ numbered (next_id s) l
  /\ next_id s' = next_id s + Z.of_nat (length l).
Proof.
  induction l as [|v l IH]; intros k s s'; cbn [execute_each numbered length].
  - intros [= <-]. rewrite app_nil_r. split; [reflexivity|lia].
  - destruct (negb (fits_int64 (quantidade v))); [discriminate|].
    destruct (stmt_fails fl k || negb (fits_int64 (next_id s))); [discriminate|].
    intros H. apply IH in H as [Hv Hn].
    rewrite next_id_insert_row in Hv, Hn. cbn [insert_row vendas] in Hv.
    rewrite Hv, <- app_assoc. split; [reflexivity|lia].
Qed.

Lemma execute_each_error fl l : forall k s s' e,
  execute_each fl k s l = (s', Some e) ->
  e = OverflowError "Python int too large to convert to SQLite INTEGER"
  \/ e = SqliteError "INSERT INTO vendas".
Proof.
  induction l as [|v l IH]; intros k s s' e; cbn [execute_each]; [discriminate|].
  destruct (negb (fits_int64 (quantidade v))); [intros [= <- <-]; now left|].
  destruct (stmt_fails fl k || negb (fits_int64 (next_id s)));
    [intros [= <- <-]; now right|].
  apply IH.
Qed.

Lemma insert_multiple_sales_true fl c l c' shown :
  insert_multiple_sales fl c l = (c', shown, inr true) ->
  shown = [] /\ pending c' = None
  /\ vendas (committed c') = vendas (visible c) ++ numbered (next_id (visible c)) l
  /\ next_id (committed c') = next_id (visible c) + Z.of_nat (length l).
Proof.
  unfold insert_multiple_sales, executemany, commit.
  destruct (execute_each fl 0 (visible c) l) as [s [e|]] eqn:E.
  { destruct e; intros [= <- <- ]. }
  apply execute_each_done in E as [Hv Hn].
  destruct (commit_fails fl); [intros [= <- <-]|].
  intros [= <- <-]. cbn. auto.
Qed.

Lemma insert_multiple_sales_raises fl c l c' shown e :
  insert_multiple_sales fl c l = (c', shown, inl e) ->
  e = OverflowError "Python int too large to convert to SQLite INTEGER".
Proof.
  unfold insert_multiple_sales, executemany, commit.
  destruct (execute_each fl 0 (visible c) l) as [s [e'|]] eqn:E.
  - apply execute_each_error in E as [->| ->]; [now intros [= <-]|discriminate].
  - destruct (commit_fails fl); discriminate.
Qed.

Lemma successful_run fl clock c df mapping :
  inserted (_worker_import fl clock c df mapping) = Some true ->
  vendas (committed (conn (_worker_import fl clock c df mapping)))
  = vendas (visible c)
    ++ numbered (next_id (visible c)) (batch (_worker_import fl clock c df mapping))
  /\ pending (conn (_worker_import fl clock c df mapping)) = None
  /\ next_id (committed (conn (_worker_import fl clock c df mapping)))
     = next_id (visible c)
       + Z.of_nat (length (batch (_worker_import fl clock c df mapping))).
Proof.
  intros Hi.
  destruct (worker_cases fl clock c df mapping)
    as [[_ Hn]|(shown & r & I & _ & _ & Hr)].
  { rewrite Hn in Hi. discriminate. }
  destruct r as [e|b].
  { destruct Hr as [Hn _]. rewrite Hn in Hi. discriminate. }
  destruct Hr as (Hb & _ & He). rewrite Hb in Hi. injection Hi as ->.
  apply insert_multiple_sales_true in I as (-> & Hp & Hv & Hn). auto.
Qed.

(** X5.  When the bulk insert returns [True], the committed table is the
    table seen through the connection before the run followed by exactly
    the batch, in sheet order, under consecutive ids that are above every id
    of the table; the transaction is closed, and the number in the message
    "... registros importados com sucesso!" is the number of rows added. *)
Theorem X5_success_appends_the_batch fl clock c df mapping :
  inserted (_worker_import fl clock c df mapping) = Some true ->
  vendas (committed (conn (_worker_import fl clock c df mapping)))
  = vendas (visible c)
    ++ numbered (next_id (visible c)) (batch (_worker_import fl clock c df mapping))
  /\ pending (conn (_worker_import fl clock c df mapping)) = None
  /\ (forall i v, (i, v) ∈ vendas (visible c) -> i < next_id (visible c))
  /\ events (_worker_import fl clock c df mapping)
     = omap progress_of (verdicts (system_to_sheet mapping) clock 0 (iterrows df))
       ++ [ sucesso (length (batch (_worker_import fl clock c df mapping)));
            Tk.DestroyProgressWindow; Tk.AtualizarTabela ]
  /\ (pending c = None ->
      rows_committed c (_worker_import fl clock c df mapping)
      = Z.of_nat (length (batch (_worker_import fl clock c df mapping)))).
Proof.
  intros Hi.
  destruct (worker_cases fl clock c df mapping)
    as [[_ Hn]|(shown & r & I & _ & _ & Hr)].
  { rewrite Hn in Hi. discriminate. }
  destruct r as [e|b].
  { destruct Hr as [Hn _]. rewrite Hn in Hi. discriminate. }
  destruct Hr as (Hb & _ & He). rewrite Hb in Hi. injection Hi as ->.
  apply insert_multiple_sales_true in I as (-> & Hp & Hv & _).
  split; [exact Hv|]. split; [exact Hp|].
  split; [intros i v; apply next_id_fresh|].
  split; [rewrite He; reflexivity|].
  intros Hpc. unfold rows_committed. rewrite Hv.
  unfold visible. rewrite Hpc, length_app.
  assert (L : forall l n, length (numbered n l) = length l).
  { induction l as [|x l IHl]; intros n; cbn; [reflexivity|now rewrite IHl]. }
  rewrite L. lia.
Qed.

Lemma X5_success_witness :
  inserted (_worker_import no_faults Sample.clock Sample.one_sale
              Sample.three_good Sample.mapping) = Some true
  /\ vendas (committed (conn (_worker_import no_faults Sample.clock Sample.one_sale
                                Sample.three_good Sample.mapping)))
     = vendas (visible Sample.one_sale)
       ++ numbered (next_id (visible Sample.one_sale))
            (batch (_worker_import no_faults Sample.clock Sample.one_sale
                      Sample.three_good Sample.mapping)).
Proof.
  assert (H : inserted (_worker_import no_faults Sample.clock Sample.one_sale
                          Sample.three_good Sample.mapping) = Some true)
    by (vm_compute; reflexivity).
  split; [exact H|].
  exact (proj1 (X5_success_appends_the_batch _ _ _ _ _ H)).
Defined.

(** The time of the conversion enters the tuple and nothing else. *)
Lemma convert_row_clock s2s now now' row :
  convert_row s2s now' row
  = match convert_row s2s now row with
    | inr (Some v) => inr (Some (at_time now' v))
    | r => r
    end.
Proof.
  unfold_convert.
  destruct (s2s !! "Nome do Cliente") as [c1|]; [|reflexivity].
  destruct (series_lookup c1 row) as [v1|]; [|reflexivity].
  destruct (s2s !! "Nome do Produto") as [c2|]; [|reflexivity].
  destruct (series_lookup c2 row) as [v2|]; [|reflexivity].
  destruct (s2s !! "Quantidade") as [c3|]; [|reflexivity].
  destruct (series_lookup c3 row) as [v3|]; [|reflexivity].
  destruct (int v3) as [e|q]; [reflexivity|].
  destruct (s2s !! "Valor por unidade (R$)") as [c4|]; [|reflexivity].
  destruct (series_lookup c4 row) as [v4|]; [|reflexivity].
  destruct (float_of_str (replace_comma (str v4))) as [e|p]; [reflexivity|].
  destruct (_ || _); [reflexivity|].
  destruct (mul_int_float q p); reflexivity.
Qed.

(** Under another clock the loop accepts the same rows, and makes of each
    the same tuple but for the time. *)
Lemma batch_under_another_clock s2s clock1 clock2 rows : forall k,
  Forall2 same_but_time
    (omap accepted_of (before_escape (verdicts s2s clock1 k rows)))
    (omap accepted_of (before_escape (verdicts s2s clock2 k rows))).
Proof.
  induction rows as [|row rows IH]; intros k; cbn [verdicts before_escape snd].
  - constructor.
  - rewrite (convert_row_clock s2s (clock1 k) (clock2 k) row).
    destruct (convert_row s2s (clock1 k) row) as [e|[v|]]; cbn [escapes].
    + destruct (caught e); cbn [negb]; [|constructor].
      change (omap accepted_of ((k, inl e) :: ?l)) with (omap accepted_of l).
      apply IH.
    + change (omap accepted_of ((k, inr (Some v)) :: ?l))
        with (v :: omap accepted_of l).
      change (omap accepted_of ((k, inr (Some (at_time (clock2 k) v))) :: ?l))
        with (at_time (clock2 k) v :: omap accepted_of l).
      constructor; [reflexivity|apply IH].
    + change (omap accepted_of ((k, inr None) :: ?l)) with (omap accepted_of l).
      apply IH.
Qed.

(** X6.  Importing the same sheet under the same mapping a second time, at
    a later time, adds the same records again: after two runs that both end
    in a successful insert the committed table holds the batch of the first
    run followed by the batch of the second, under fresh ids each time, and
    the second batch is the first but for the time that each tuple
    carries. *)
Theorem X6_second_import_duplicates fl1 fl2 clock1 clock2 c df mapping :
  inserted (_worker_import fl1 clock1 c df mapping) = Some true ->
  inserted (_worker_import fl2 clock2
              (conn (_worker_import fl1 clock1 c df mapping)) df mapping)
  = Some true ->
  vendas (committed
            (conn (_worker_import fl2 clock2
                     (conn (_worker_import fl1 clock1 c df mapping)) df mapping)))
  = vendas (visible c)
    ++ numbered (next_id (visible c))
         (batch (_worker_import fl1 clock1 c df mapping))
    ++ numbered (next_id (visible c)
                 + Z.of_nat (length (batch (_worker_import fl1 clock1 c df mapping))))
         (batch (_worker_import fl2 clock2
                   (conn (_worker_import fl1 clock1 c df mapping)) df mapping))
  /\ Forall2 same_but_time
       (batch (_worker_import fl1 clock1 c df mapping))
       (batch (_worker_import fl2 clock2
                 (conn (_worker_import fl1 clock1 c df mapping)) df mapping)).
Proof.
  intros H1 H2.
  pose proof (successful_run fl1 clock1 c df mapping H1) as (Hv1 & Hp1 & Hn1).
  pose proof (successful_run fl2 clock2 _ df mapping H2) as (Hv2 & _ & _).
  split.
  - rewrite Hv2. unfold visible at 1 2. rewrite Hp1, Hv1, Hn1.
    now rewrite <- app_assoc.
  - rewrite !worker_batch. apply batch_under_another_clock.
Qed.

Lemma X6_second_import_witness :
  map fst
    (vendas (committed
               (conn (_worker_import no_faults Casos.clock_later
                        (conn (_worker_import no_faults Sample.clock
                                 Sample.empty_store Sample.three_good Sample.mapping))
                        Sample.three_good Sample.mapping))))
  = [1; 2; 3; 4; 5; 6]
  /\ Forall2 same_but_time
       (batch (_worker_import no_faults Sample.clock Sample.empty_store
                 Sample.three_good Sample.mapping))
       (batch (_worker_import no_faults Casos.clock_later
                 (conn (_worker_import no_faults Sample.clock
                          Sample.empty_store Sample.three_good Sample.mapping))
                 Sample.three_good Sample.mapping)).
Proof.
  split; [vm_compute; reflexivity|].
  refine (proj2 (X6_second_import_duplicates no_faults no_faults Sample.clock
                   Casos.clock_later Sample.empty_store Sample.three_good
                   Sample.mapping _ _));
    vm_compute; reflexivity.
Defined.

(** ** Rows and verdicts *)

Lemma verdicts_elem s2s clock rows : forall k i r,
  (i, r) ∈ verdicts s2s clock k rows ->
  (k <= i < k + length rows)%nat
  /\ exists row, rows !! (i - k)%nat = Some row
                 /\ r = convert_row s2s (clock i) row.
Proof.
  induction rows as [|row rows IH]; intros k i r; cbn [verdicts length].
  - intros H. now apply elem_of_nil in H.
  - intros H. apply elem_of_cons in H as [[= -> ->]|H].
    + split; [lia|]. exists row. rewrite Nat.sub_diag. split; reflexivity.
    + apply IH in H as [Hi (row' & Hl & Hr)]. split; [lia|].
      exists row'. split; [|exact Hr].
      replace (i - k)%nat with (S (i - S k)) by lia. exact Hl.
Qed.

Lemma before_escape_elem vs x : x ∈ before_escape vs -> x ∈ vs.
Proof.
  induction vs as [|v vs IH]; cbn [before_escape]; [auto|].
  destruct (escapes (snd v)); [intros H; now apply elem_of_nil in H|].
  intros H. apply elem_of_cons in H as [->|H]; [left|right; auto].
Qed.

Lemma first_escape_elem vs e :
  first_escape vs = Some e ->
  exists i, (i, inl e) ∈ vs /\ caught e = false.
Proof.
  induction vs as [|[i r] vs IH]; cbn [first_escape snd]; [discriminate|].
  destruct r as [e'|o].
  - destruct (caught e') eqn:C.
    + intros H. destruct (IH H) as (j & Hj & Hc). exists j. split; [now right|exact Hc].
    + intros [= <-]. exists i. split; [left|exact C].
  - intros H. destruct (IH H) as (j & Hj & Hc). exists j. split; [now right|exact Hc].
Qed.




(** X8.  Every tuple of the batch, and so every record that the import
    commits, has a client and a product name that are not empty, a quantity
    above zero, a price that is not below zero and a final price equal to
    quantity times price, and carries the time at which its row was
    converted. *)
Theorem X8_batch_is_well_formed fl clock c df mapping v :
  v ∈ batch (_worker_import fl clock c df mapping) ->
  well_formed_sale v
  /\ exists i row,
       iterrows df !! i = Some row
       /\ convert_row (system_to_sheet mapping) (clock i) row = inr (Some v)
       /\ data_hora v = clock i.
Proof.
  rewrite worker_batch. intros H.
  apply list_elem_of_omap in H as ([i r] & Hin & Ha).
  apply before_escape_elem, verdicts_elem in Hin as (_ & row & Hl & ->).
  unfold accepted_of in Ha. cbn [snd] in Ha.
  destruct (convert_row _ (clock i) row) as [e|[v'|]] eqn:C; try discriminate.
  injection Ha as ->.
  pose proof (convert_row_accepted _ _ _ _ C)
    as (c1 & v1 & c2 & v2 & c3 & v3 & c4 & v4 & _ & _ & _ & _ & _ & _ & Hm
        & (N1 & N2 & Q0 & P0) & Hv).
  pose proof (f_equal nome_cliente Hv) as Hn1.
  pose proof (f_equal nome_produto Hv) as Hn2.
  pose proof (f_equal data_hora Hv) as Hd.
  cbn [nome_cliente nome_produto data_hora] in Hn1, Hn2, Hd.
  split.
  - unfold well_formed_sale. rewrite Hn1, Hn2.
    apply String.eqb_neq in N1, N2. apply Z.leb_gt in Q0. auto.
  - exists i, row. rewrite Nat.sub_0_r in Hl. split; [exact Hl|].
    split; [exact C|exact Hd].
Qed.

Lemma X8_batch_witness :
  Sample.venda_boa ∈ batch (_worker_import no_faults Sample.clock Sample.empty_store
                              Sample.ten_rows Sample.mapping)
  /\ well_formed_sale Sample.venda_boa.
Proof.
  assert (H : Sample.venda_boa
              ∈ batch (_worker_import no_faults Sample.clock Sample.empty_store
                         Sample.ten_rows Sample.mapping))
    by (vm_compute; left).
  split; [exact H|].
  exact (proj1 (X8_batch_is_well_formed _ _ _ _ _ _ H)).
Defined.

(** * The other methods of DatabaseManager on [vendas] *)

Import Crud.

(** The three ways in which a writing method ends. *)
Lemma finish_write_cases fl what c1 r c' shown unc :
  finish_write fl what (c1, r) = (c', shown, unc) ->
  (r = None /\ commit_fails fl = false /\ shown = [] /\ unc = None
   /\ c' = {| committed := visible c1; pending := None |})
  \/ (exists m, shown = [erro what (SqliteError m)] /\ unc = None /\ c' = rollback c1)
  \/ (exists e, r = Some e /\ shown = [] /\ unc = Some e /\ c' = c1).
Proof.
  unfold finish_write, commit. destruct r as [e|].
  - destruct e; intros [= <- <- <-]; eauto 10.
  - destruct (commit_fails fl); intros [= <- <- <-]; eauto 10.
Qed.

Lemma find_id_app (l : list (Z * sale)) n d j :
  (forall i v, (i, v) ∈ l -> i <> n) ->
  List.find (fun r => fst r =? j) (l ++ [(n, d)])
  = if j =? n then Some (n, d) else List.find (fun r => fst r =? j) l.
Proof.
  intros Hl. induction l as [|[i v] l IH]; cbn [app List.find fst].
  - rewrite (Z.eqb_sym n j). destruct (j =? n); reflexivity.
  - destruct (Z.eqb_spec i j) as [->|Hne].
    + assert (Hn : j <> n) by (apply (Hl j v); left).
      apply Z.eqb_neq in Hn. now rewrite Hn.
    + apply IH. intros i' v' H. apply (Hl i' v'). now right.
Qed.

(** X9.  When [insert_sale] returns without an error box, the sale is
    committed as the last row of the table, under an id above every id of
    the table; [fetch_sale_by_id] with that id gives back the fields of the
    sale, and gives for every other id what it gave before. *)
Theorem X9_insert_sale_then_fetch fl fl' c data c' :
  insert_sale fl c data = (c', [], None) ->
  stmt_fails fl' 0 = false ->
  pending c' = None
  /\ vendas (committed c') = vendas (visible c) ++ [(next_id (visible c), data)]
  /\ (forall i v, (i, v) ∈ vendas (visible c) -> i < next_id (visible c))
  /\ fetch_sale_by_id fl' c' (next_id (visible c))
     = ([], inr (Some (next_id (visible c), nome_cliente data, nome_produto data,
                       quantidade data, real_column (preco data),
                       tipo_pagamento data, nome_vendedor data)))
  /\ (forall j, j <> next_id (visible c) ->
                fetch_sale_by_id fl' c' j = fetch_sale_by_id fl' c j).
Proof.
  unfold insert_sale. intros H Hf.
  destruct (executemany fl c [data]) as [c1 r] eqn:E.
  apply finish_write_cases in H
    as [(-> & _ & _ & _ & ->)|[(m & [=] & _)|(e & _ & _ & [=] & _)]].
  unfold executemany in E. cbn [execute_each] in E.
  destruct (negb (fits_int64 (quantidade data))); [discriminate|].
  destruct (stmt_fails fl 0 || negb (fits_int64 (next_id (visible c)))) eqn:F;
    [discriminate|].
  apply orb_false_elim in F as [_ F]. apply negb_false_iff in F.
  injection E as <-. cbn [visible pending committed insert_row vendas].
  assert (Hfresh : forall i v, (i, v) ∈ vendas (visible c) -> i <> next_id (visible c)).
  { intros i v Hin. apply next_id_fresh in Hin. lia. }
  split; [reflexivity|]. split; [reflexivity|].
  split; [intros i v; apply next_id_fresh|].
  split.
  - unfold fetch_sale_by_id. rewrite F, Hf.
    cbn [negb visible pending committed insert_row vendas].
    rewrite find_id_app by exact Hfresh. now rewrite Z.eqb_refl.
  - intros j Hj. unfold fetch_sale_by_id.
    destruct (negb (fits_int64 j)); [reflexivity|]. rewrite Hf.
    change (vendas (visible {| committed := insert_row (visible c) data;
                               pending := None |}))
      with (vendas (visible c) ++ [(next_id (visible c), data)]).
    rewrite find_id_app by exact Hfresh.
    apply Z.eqb_neq in Hj. now rewrite Hj.
Qed.

Lemma X9_insert_sale_witness :
  insert_sale no_faults Sample.one_sale Sample.venda_boa
  = (fst (fst (insert_sale no_faults Sample.one_sale Sample.venda_boa)), [], None)
  /\ fetch_sale_by_id no_faults
       (fst (fst (insert_sale no_faults Sample.one_sale Sample.venda_boa)))
       (next_id (visible Sample.one_sale))
     = ([], inr (Some (next_id (visible Sample.one_sale),
                       nome_cliente Sample.venda_boa, nome_produto Sample.venda_boa,
                       quantidade Sample.venda_boa,
                       real_column (preco Sample.venda_boa),
                       tipo_pagamento Sample.venda_boa,
                       nome_vendedor Sample.venda_boa))).
Proof.
  assert (H : insert_sale no_faults Sample.one_sale Sample.venda_boa
              = (fst (fst (insert_sale no_faults Sample.one_sale Sample.venda_boa)),
                 [], None))
    by (vm_compute; reflexivity).
  split; [exact H|].
  exact (proj1 (proj2 (proj2 (proj2
           (X9_insert_sale_then_fetch no_faults no_faults _ _ _ H eq_refl))))).
Defined.

Lemma find_id_filter (l : list (Z * sale)) n j :
  List.find (fun r => fst r =? j) (List.filter (fun r => negb (fst r =? n)) l)
  = if j =? n then None else List.find (fun r => fst r =? j) l.
Proof.
  induction l as [|[i v] l IH]; cbn [List.filter List.find fst].
  - destruct (j =? n); reflexivity.
  - destruct (Z.eqb_spec i n) as [->|Hin]; cbn [negb List.find fst].
    + rewrite IH. destruct (Z.eqb_spec j n) as [E|E]; [reflexivity|].
      destruct (Z.eqb_spec n j); [congruence|reflexivity].
    + rewrite IH. destruct (Z.eqb_spec i j) as [->|Hij]; [|reflexivity].
      apply Z.eqb_neq in Hin. now rewrite Hin.
Qed.

Lemma filter_elem (l : list (Z * sale)) n i v :
  (i, v) ∈ List.filter (fun r => negb (fst r =? n)) l <-> (i, v) ∈ l /\ i <> n.
Proof.
  rewrite !list_elem_of_In, filter_In. cbn [fst].
  rewrite negb_true_iff, Z.eqb_neq. reflexivity.
Qed.

(** X10.  When [delete_sale] returns without an error box, the table has
    lost the rows with that id and nothing else, in the same order:
    [fetch_sale_by_id] finds nothing under the id and, under every other id,
    what it found before.  The id is not given out again: on a table whose
    ids are at most the counter of AUTOINCREMENT, the next id is above every
    id that the table had, the deleted one included. *)
Theorem X10_delete_sale_removes_one_id fl fl' c sale_id c' :
  delete_sale fl c sale_id = (c', [], None) ->
  stmt_fails fl' 0 = false ->
  pending c' = None
  /\ vendas (committed c')
     = List.filter (fun r => negb (fst r =? sale_id)) (vendas (visible c))
  /\ (forall i v, (i, v) ∈ vendas (committed c')
                  <-> (i, v) ∈ vendas (visible c) /\ i <> sale_id)
  /\ fetch_sale_by_id fl' c' sale_id = ([], inr None)
  /\ (forall j, j <> sale_id -> fetch_sale_by_id fl' c' j = fetch_sale_by_id fl' c j)
  /\ (table_ok (visible c) ->
      table_ok (committed c')
      /\ forall i v, (i, v) ∈ vendas (visible c) -> i < next_id (committed c')).
Proof.
  unfold delete_sale. intros H Hf.
  destruct (execute_delete fl c sale_id) as [c1 r] eqn:E.
  apply finish_write_cases in H
    as [(-> & _ & _ & _ & ->)|[(m & [=] & _)|(e & _ & _ & [=] & _)]].
  unfold execute_delete in E.
  destruct (negb (fits_int64 sale_id)) eqn:F; [discriminate|].
  destruct (stmt_fails fl 0); [discriminate|].
  injection E as <-. cbn [visible pending committed begin vendas].
  split; [reflexivity|]. split; [reflexivity|].
  split; [intros i v; apply filter_elem|].
  split; [|split].
  - unfold fetch_sale_by_id. rewrite F, Hf.
    cbn [visible pending committed vendas].
    rewrite find_id_filter, Z.eqb_refl. reflexivity.
  - intros j Hj. unfold fetch_sale_by_id.
    destruct (negb (fits_int64 j)); [reflexivity|]. rewrite Hf.
    change (vendas (visible {| committed :=
                                 {| vendas := List.filter
                                                (fun r => negb (fst r =? sale_id))
                                                (vendas (visible c));
                                    seq := seq (visible c) |};
                               pending := None |}))
      with (List.filter (fun r => negb (fst r =? sale_id)) (vendas (visible c))).
    rewrite find_id_filter. apply Z.eqb_neq in Hj. now rewrite Hj.
  - intros [Hnd Hseq]. split; [split|].
    + cbn [vendas]. clear -Hnd.
      induction (vendas (visible c)) as [|[i v] l IH]; [constructor|].
      cbn [map fst] in Hnd. apply NoDup_cons in Hnd as [Hi Hnd].
      cbn [List.filter fst]. destruct (negb (i =? sale_id)); [|auto].
      cbn [map fst]. apply NoDup_cons. split; [|auto].
      intros Hin. apply Hi.
      apply list_elem_of_In, in_map_iff in Hin as ([i' v'] & <- & Hin).
      apply list_elem_of_In, filter_elem in Hin as [Hin _].
      apply list_elem_of_In, in_map_iff. exists (i', v').
      split; [reflexivity|now apply list_elem_of_In].
    + cbn [vendas seq]. intros i v Hin. apply filter_elem in Hin as [Hin _]. eauto.
    + intros i v Hin. apply Hseq in Hin. unfold next_id. cbn [seq]. lia.
Qed.

Lemma X10_delete_sale_witness :
  delete_sale no_faults Sample.one_sale 1
  = (fst (fst (delete_sale no_faults Sample.one_sale 1)), [], None)
  /\ fetch_sale_by_id no_faults (fst (fst (delete_sale no_faults Sample.one_sale 1))) 1
     = ([], inr None)
  /\ next_id (committed (fst (fst (delete_sale no_faults Sample.one_sale 1)))) = 2.
Proof.
  assert (H : delete_sale no_faults Sample.one_sale 1
              = (fst (fst (delete_sale no_faults Sample.one_sale 1)), [], None))
    by (vm_compute; reflexivity).
  split; [exact H|]. split; [|vm_compute; reflexivity].
  exact (proj1 (proj2 (proj2 (proj2
           (X10_delete_sale_removes_one_id no_faults no_faults _ _ _ H eq_refl))))).
Defined.

Lemma find_id_update (l : list (Z * sale)) n d j :
  List.find (fun r => fst r =? j)
    (map (fun r => if fst r =? n then (fst r, d) else r) l)
  = match List.find (fun r => fst r =? j) l with
    | Some r => Some (if j =? n then (j, d) else r)
    | None => None
    end.
Proof.
  induction l as [|[i v] l IH]; cbn [map List.find fst]; [reflexivity|].
  destruct (Z.eqb_spec i n) as [E|E]; cbn [fst];
    destruct (Z.eqb_spec i j) as [E'|E']; try exact IH.
  - subst. now rewrite Z.eqb_refl.
  - subst. apply Z.eqb_neq in E. now rewrite E.
Qed.

Lemma update_absent (l : list (Z * sale)) n d :
  (forall i v, (i, v) ∈ l -> i <> n) ->
  map (fun r => if fst r =? n then (fst r, d) else r) l = l.
Proof.
  induction l as [|[i v] l IH]; intros H; cbn [map fst]; [reflexivity|].
  assert (Hi : i <> n) by (apply (H i v); left).
  apply Z.eqb_neq in Hi. rewrite Hi, IH; [reflexivity|].
  intros i' v' Hin. apply (H i' v'). now right.
Qed.

(** X11.  When [update_sale] returns without an error box, the table has
    the same ids in the same order; the row with the given id carries the
    new data, every other row is as it was, and when no row has the id the
    table is unchanged. *)
Theorem X11_update_sale_changes_one_row fl fl' c sale_id data c' :
  update_sale fl c sale_id data = (c', [], None) ->
  stmt_fails fl' 0 = false ->
  pending c' = None
  /\ map fst (vendas (committed c')) = map fst (vendas (visible c))
  /\ seq (committed c') = seq (visible c)
  /\ (forall i v, (i, v) ∈ vendas (visible c) -> i <> sale_id ->
                  (i, v) ∈ vendas (committed c'))
  /\ (forall v, (sale_id, v) ∈ vendas (committed c') -> v = data)
  /\ (forall j, j <> sale_id -> fetch_sale_by_id fl' c' j = fetch_sale_by_id fl' c j)
  /\ ((forall i v, (i, v) ∈ vendas (visible c) -> i <> sale_id) ->
      committed c' = visible c).
Proof.
  unfold update_sale. intros H Hf.
  destruct (execute_update fl c sale_id data) as [c1 r] eqn:E.
  apply finish_write_cases in H
    as [(-> & _ & _ & _ & ->)|[(m & [=] & _)|(e & _ & _ & [=] & _)]].
  unfold execute_update in E.
  destruct (negb (fits_int64 (quantidade data)) || negb (fits_int64 sale_id));
    [discriminate|].
  destruct (stmt_fails fl 0); [discriminate|].
  injection E as <-. cbn [visible pending committed begin vendas seq].
  split; [reflexivity|]. split; [|split; [reflexivity|]].
  { rewrite map_map. apply map_ext. intros [i v]. cbn [fst].
    destruct (i =? sale_id); reflexivity. }
  split; [|split; [|split]].
  - intros i v Hin Hne. apply list_elem_of_In, in_map_iff.
    exists (i, v). cbn [fst]. apply Z.eqb_neq in Hne. rewrite Hne.
    split; [reflexivity|now apply list_elem_of_In].
  - intros v Hin. apply list_elem_of_In, in_map_iff in Hin as ([i w] & Hq & _).
    cbn [fst] in Hq. destruct (Z.eqb_spec i sale_id); congruence.
  - intros j Hj. unfold fetch_sale_by_id.
    destruct (negb (fits_int64 j)); [reflexivity|]. rewrite Hf.
    change (vendas (visible {| committed :=
                                 {| vendas :=
                                      map (fun r => if fst r =? sale_id
                                                    then (fst r, data) else r)
                                          (vendas (visible c));
                                    seq := seq (visible c) |};
                               pending := None |}))
      with (map (fun r => if fst r =? sale_id then (fst r, data) else r)
                (vendas (visible c))).
    rewrite find_id_update. apply Z.eqb_neq in Hj. rewrite Hj.
    destruct (List.find _ (vendas (visible c))); reflexivity.
  - intros Ha. rewrite (update_absent _ _ _ Ha). now destruct (visible c).
Qed.

Lemma X11_update_sale_witness :
  update_sale no_faults Sample.one_sale 1 Sample.venda_boa
  = (fst (fst (update_sale no_faults Sample.one_sale 1 Sample.venda_boa)), [], None)
  /\ map fst (vendas (committed
                        (fst (fst (update_sale no_faults Sample.one_sale 1
                                     Sample.venda_boa)))))
     = map fst (vendas (visible Sample.one_sale))
  /\ vendas (committed (fst (fst (update_sale no_faults Sample.one_sale 1
                                    Sample.venda_boa))))
     = [(1, Sample.venda_boa)].
Proof.
  assert (H : update_sale no_faults Sample.one_sale 1 Sample.venda_boa
              = (fst (fst (update_sale no_faults Sample.one_sale 1 Sample.venda_boa)),
                 [], None))
    by (vm_compute; reflexivity).
  split; [exact H|]. split; [|vm_compute; reflexivity].
  exact (proj1 (proj2
           (X11_update_sale_changes_one_row no_faults no_faults _ _ _ _ H eq_refl))).
Defined.

Lemma executemany_committed fl c l : committed (fst (executemany fl c l)) = committed c.
Proof. unfold executemany. now destruct (execute_each fl 0 (visible c) l). Qed.

Lemma execute_update_committed fl c n d :
  committed (fst (execute_update fl c n d)) = committed c.
Proof.
  unfold execute_update.
  destruct (_ || _); [reflexivity|]. now destruct (stmt_fails fl 0).
Qed.

Lemma execute_delete_committed fl c n :
  committed (fst (execute_delete fl c n)) = committed c.
Proof.
  unfold execute_delete.
  destruct (negb _); [reflexivity|]. now destruct (stmt_fails fl 0).
Qed.

Lemma finish_write_failed fl what c1 r c' ev shown unc :
  finish_write fl what (c1, r) = (c', ev :: shown, unc) ->
  committed c' = committed c1 /\ pending c' = None /\ shown = [] /\ unc = None.
Proof.
  intros H. apply finish_write_cases in H
    as [(_ & _ & [=] & _)|[(m & [= _ <-] & -> & ->)|(e & _ & [=] & _)]].
  auto.
Qed.

(** X12.  Whenever [insert_sale], [update_sale] or [delete_sale] shows its
    error box, the statement or the commit has raised [sqlite3.Error] and
    the transaction has been rolled back: what is committed is what was
    committed before the call, no transaction stays open, the box is the
    only one and no exception leaves the method. *)
Theorem X12_failed_writes_are_rolled_back fl c sale_id data c' ev shown unc :
  insert_sale fl c data = (c', ev :: shown, unc)
  \/ update_sale fl c sale_id data = (c', ev :: shown, unc)
  \/ delete_sale fl c sale_id = (c', ev :: shown, unc) ->
  committed c' = committed c /\ pending c' = None /\ shown = [] /\ unc = None.
Proof.
  unfold insert_sale, update_sale, delete_sale. intros [H|[H|H]].
  - rewrite (surjective_pairing (executemany fl c [data])) in H.
    apply finish_write_failed in H. now rewrite executemany_committed in H.
  - rewrite (surjective_pairing (execute_update fl c sale_id data)) in H.
    apply finish_write_failed in H. now rewrite execute_update_committed in H.
  - rewrite (surjective_pairing (execute_delete fl c sale_id)) in H.
    apply finish_write_failed in H. now rewrite execute_delete_committed in H.
Qed.

Lemma X12_failed_writes_witness :
  delete_sale Casos.engine_down Sample.one_sale 1
  = (fst (fst (delete_sale Casos.engine_down Sample.one_sale 1)),
     [erro "Erro ao excluir venda: " (SqliteError "DELETE FROM vendas")], None)
  /\ committed (fst (fst (delete_sale Casos.engine_down Sample.one_sale 1)))
     = committed Sample.one_sale.
Proof.
  assert (H : delete_sale Casos.engine_down Sample.one_sale 1
              = (fst (fst (delete_sale Casos.engine_down Sample.one_sale 1)),
                 [erro "Erro ao excluir venda: " (SqliteError "DELETE FROM vendas")],
                 None))
    by (vm_compute; reflexivity).
  split; [exact H|].
  exact (proj1 (X12_failed_writes_are_rolled_back Casos.engine_down Sample.one_sale
                  1 Sample.venda_boa _ _ _ _ (or_intror (or_intror H)))).
Defined.

(** ** The listing *)

Lemma insert_desc_perm r l : insert_desc r l ≡ₚ r :: l.
Proof.
  induction l as [|x l IH]; cbn [insert_desc]; [reflexivity|].
  destruct (fst x <=? fst r); [reflexivity|].
  rewrite IH. apply Permutation_swap.
Qed.

Lemma order_by_id_desc_perm l : order_by_id_desc l ≡ₚ l.
Proof.
  induction l as [|r l IH]; [reflexivity|].
  cbn [order_by_id_desc fold_right]. fold (order_by_id_desc l).
  now rewrite insert_desc_perm, IH.
Qed.

Lemma insert_desc_sorted r l :
  StronglySorted (fun a b : Z * sale => fst b <= fst a) l ->
  StronglySorted (fun a b : Z * sale => fst b <= fst a) (insert_desc r l).
Proof.
  induction 1 as [|x l Hs IH Hx]; cbn [insert_desc].
  - repeat constructor.
  - destruct (Z.leb_spec (fst x) (fst r)) as [Hle|Hlt].
    + constructor; [constructor; assumption|].
      constructor; [assumption|].
      eapply Forall_impl; [exact Hx|]. cbn beta. intros. lia.
    + constructor; [assumption|].
      rewrite insert_desc_perm. constructor; [lia|assumption].
Qed.

Lemma order_by_id_desc_sorted l :
  StronglySorted (fun a b : Z * sale => fst b <= fst a) (order_by_id_desc l).
Proof.
  induction l as [|r l IH]; [constructor|].
  cbn [order_by_id_desc fold_right]. now apply insert_desc_sorted.
Qed.

Lemma select_venda_sorted l :
  StronglySorted (fun a b : Z * sale => fst b <= fst a) l ->
  StronglySorted (fun a b => venda_id b <= venda_id a) (map select_venda l).
Proof.
  induction 1 as [|x l Hs IH Hx]; cbn [map]; constructor; [assumption|].
  apply Forall_map. exact Hx.
Qed.

(** X13.  [fetch_all_sales] lists the sales by falling id, the most recent
    first.  Without a search term it lists every sale seen through the
    connection exactly once; with one it lists exactly those whose client,
    product or seller name the search pattern matches.  When the query
    fails it shows the error box and lists nothing. *)
Theorem X13_fetch_all_sales_most_recent_first like fl c search_term :
  StronglySorted (fun a b => venda_id b <= venda_id a)
    (snd (fetch_all_sales like fl c search_term))
  /\ (stmt_fails fl 0 = false ->
      fst (fetch_all_sales like fl c search_term) = []
      /\ snd (fetch_all_sales like fl c "")
         ≡ₚ map select_venda (vendas (visible c))
      /\ (search_term <> "" ->
          snd (fetch_all_sales like fl c search_term)
          ≡ₚ map select_venda
               (List.filter (search_matches like search_term) (vendas (visible c)))))
  /\ (stmt_fails fl 0 = true ->
      fetch_all_sales like fl c search_term
      = ([erro "Erro ao buscar vendas: " (SqliteError "SELECT")], [])).
Proof.
  unfold fetch_all_sales. destruct (stmt_fails fl 0).
  - split; [constructor|]. split; [discriminate|reflexivity].
  - cbn [fst snd]. split; [|split; [|discriminate]].
    + apply select_venda_sorted, order_by_id_desc_sorted.
    + intros _. split; [reflexivity|]. split.
      * cbn [String.eqb]. now rewrite order_by_id_desc_perm.
      * intros Hne. apply String.eqb_neq in Hne. rewrite Hne.
        now rewrite order_by_id_desc_perm.
Qed.

(** * The form and the table of sales *)

Import Formulario Regras.

Lemma insert_sale_done fl c data :
  write_ok fl -> fits_int64 (quantidade data) = true ->
  fits_int64 (next_id (visible c)) = true ->
  insert_sale fl c data
  = ({| committed := insert_row (visible c) data; pending := None |}, [], None).
Proof.
  intros [Hs Hc] Hq Hn. unfold insert_sale, executemany. cbn [execute_each].
  rewrite Hq, Hs, Hn. cbn [negb orb finish_write]. unfold commit. now rewrite Hc.
Qed.

Lemma update_sale_done fl c sale_id data :
  write_ok fl -> fits_int64 (quantidade data) = true -> fits_int64 sale_id = true ->
  update_sale fl c sale_id data
  = ({| committed :=
          {| vendas := map (fun r => if fst r =? sale_id then (fst r, data) else r)
                           (vendas (visible c));
             seq := seq (visible c) |};
        pending := None |}, [], None).
Proof.
  intros [Hs Hc] Hq Hn. unfold update_sale, execute_update.
  rewrite Hq, Hs, Hn. cbn [negb orb finish_write]. unfold commit. now rewrite Hc.
Qed.

Lemma delete_sale_done fl c sale_id :
  write_ok fl -> fits_int64 sale_id = true ->
  delete_sale fl c sale_id
  = ({| committed :=
          {| vendas := List.filter (fun r => negb (fst r =? sale_id))
                                   (vendas (visible c));
             seq := seq (visible c) |};
        pending := None |}, [], None).
Proof.
  intros [Hs Hc] Hn. unfold delete_sale, execute_delete.
  rewrite Hs, Hn. cbn [negb finish_write]. unfold commit. now rewrite Hc.
Qed.

(** [atualizar_tabela] rebuilds the tree and touches nothing else. *)
Lemma atualizar_tabela_frame like fl a :
  exists t, fst (fst (atualizar_tabela like fl a)) = with_tree a t.
Proof.
  unfold atualizar_tabela.
  destruct (fetch_all_sales _ _ _ _) as [shown vs].
  destruct (inserir_vendas vs [] float_zero) as [t [e|total]]; [now exists t|].
  destruct (tree_insert t (total_row total)) as [e|t']; eauto.
Qed.

Lemma blank_field (l : list string) :
  existsb (String.eqb "") l = false <-> Forall (fun s => s <> "") l.
Proof.
  induction l as [|s l IH]; cbn [existsb].
  - split; [constructor|reflexivity].
  - rewrite orb_false_iff, IH, Forall_cons, String.eqb_neq.
    split; intros [H1 H2]; (split; [congruence|assumption]).
Qed.

(** What [dados_da_venda] gives for a form that holds a sale. *)
Lemma dados_da_venda_ok now f q p pf :
  form_ok f q p -> mul_int_float q p = inr pf ->
  dados_da_venda now f = inr (venda_do_form now f q p pf).
Proof.
  intros (_ & Hq & Hpos & Hp & Hneg) Hm. unfold dados_da_venda.
  rewrite Hq. cbn [bind]. rewrite Hp. cbn [bind]. rewrite Hneg.
  destruct (Z.leb_spec q 0); [lia|]. cbn [orb]. now rewrite Hm.
Qed.

(** [dados_da_venda] raises [ValueError] exactly for a form that holds no
    sale. *)
Lemma dados_da_venda_rejects now f :
  Forall (fun s => s <> "") (dados_values f) ->
  (forall q p, ~ form_ok f q p) ->
  exists what arg, dados_da_venda now f = inl (ValueError what arg).
Proof.
  intros Hb Hno. unfold dados_da_venda.
  destruct (int_of_str _) as [e|q] eqn:Hq; cbn [bind].
  { apply int_of_str_raises in Hq as [w ->]. eauto. }
  destruct (float_of_str _) as [e|p] eqn:Hp; cbn [bind].
  { apply float_of_str_raises in Hp as ->. eauto. }
  destruct (Z.leb_spec q 0) as [Hle|Hlt]; cbn [orb]; [unfold raise; eauto|].
  destruct (float_negative p) eqn:Hneg; [unfold raise; eauto|].
  exfalso. apply (Hno q p). repeat split; assumption.
Qed.

(** X14.  [salvar_dados] writes nothing unless the form holds a sale.  When
    a field is blank, the quantity is no integer above zero or the price no
    float that is not below zero, it shows one box - the warning that every
    field is required, or the validation error - and leaves the table, the
    fields, the edit mode and the tree as they were. *)
Theorem X14_salvar_dados_rejects_without_effect like fw fr now a :
  (forall q p, ~ form_ok (form a) q p) ->
  exists box,
    salvar_dados like fw fr now a = (a, [box])
    /\ (box = campos_obrigatorios \/ box = erro_de_validacao).
Proof.
  intros Hno. unfold salvar_dados.
  destruct (existsb _ _) eqn:Hb; [eauto|].
  apply blank_field in Hb.
  destruct (dados_da_venda_rejects now (form a) Hb Hno) as (w & arg & ->).
  eexists. split; [reflexivity|]. now right.
Qed.

Lemma X14_salvar_dados_witness :
  exists box,
    salvar_dados Exemplos.like_any no_faults no_faults Exemplos.now
      (Exemplos.com_form Exemplos.quantidade_zero None)
    = (Exemplos.com_form Exemplos.quantidade_zero None, [box])
    /\ (box = campos_obrigatorios \/ box = erro_de_validacao).
Proof.
  refine (X14_salvar_dados_rejects_without_effect _ _ _ _ _ _).
  intros q p (_ & Hq & Hpos & _). vm_compute in Hq. injection Hq as <-. lia.
Defined.

(** How [salvar_dados] goes on once the write has returned. *)
Lemma salvar_dados_after_write like fw fr now a dados c shown :
  existsb (String.eqb "") (dados_values (form a)) = false ->
  dados_da_venda now (form a) = inr dados ->
  match id_venda_em_edicao a with
  | Some sale_id => update_sale fw (db_manager a) sale_id dados
  | None => insert_sale fw (db_manager a) dados
  end = (c, shown, None) ->
  salvar_dados like fw fr now a
  = let '(a', shown', uncaught') :=
      atualizar_tabela like fr (limpar_campos_e_resetar_edicao (with_db a c)) in
    (a', shown ++ [sucesso a] ++ shown'
         ++ match uncaught' with
            | Some e => [tratar e]
            | None => []
            end).
Proof.
  intros Hb Hd Hw. unfold salvar_dados. rewrite Hb, Hd.
  assert (E : match id_venda_em_edicao a with
              | Some sale_id =>
                (update_sale fw (db_manager a) sale_id dados,
                 Tk.ShowInfo "Sucesso" "Venda atualizada!")
              | None =>
                (insert_sale fw (db_manager a) dados,
                 Tk.ShowInfo "Sucesso" "Venda registrada!")
              end = (c, shown, None, sucesso a)).
  { unfold sucesso. destruct (id_venda_em_edicao a); now rewrite Hw. }
  now rewrite E.
Qed.

Lemma salvar_dados_written like fw fr now a dados c shown :
  existsb (String.eqb "") (dados_values (form a)) = false ->
  dados_da_venda now (form a) = inr dados ->
  match id_venda_em_edicao a with
  | Some sale_id => update_sale fw (db_manager a) sale_id dados
  | None => insert_sale fw (db_manager a) dados
  end = (c, shown, None) ->
  exists t rest,
    salvar_dados like fw fr now a
    = ({| db_manager := c; form := campos_vazios; id_venda_em_edicao := None;
          search_entry := search_entry a; tree := t |},
       shown ++ sucesso a :: rest).
Proof.
  intros Hb Hd Hw.
  rewrite (salvar_dados_after_write like fw fr now a dados c shown Hb Hd Hw).
  destruct (atualizar_tabela_frame like fr
              (limpar_campos_e_resetar_edicao (with_db a c))) as [t Ht].
  destruct (atualizar_tabela _ _ _) as [[a' shown'] unc']. cbn [fst] in Ht.
  subst a'. exists t. eexists. reflexivity.
Qed.

(** X15.  With a form that holds a sale, outside the edit mode and with an
    engine that raises nothing, [salvar_dados] commits one more row at the
    end of the table, under an id above every id of the table: the stripped
    texts of the form, the quantity, the price, their product and the time
    of the call.  It then shows "Venda registrada!", empties the six fields
    and stays outside the edit mode.  The sale stored passes the validity
    test of the import as well. *)
Theorem X15_salvar_dados_registers_the_sale like fw fr now a q p pf :
  form_ok (form a) q p ->
  mul_int_float q p = inr pf ->
  id_venda_em_edicao a = None ->
  write_ok fw ->
  fits_int64 q = true ->
  fits_int64 (next_id (visible (db_manager a))) = true ->
  let r := salvar_dados like fw fr now a in
  let v := venda_do_form now (form a) q p pf in
  pending (db_manager (fst r)) = None
  /\ vendas (committed (db_manager (fst r)))
     = vendas (visible (db_manager a)) ++ [(next_id (visible (db_manager a)), v)]
  /\ (forall i w, (i, w) ∈ vendas (visible (db_manager a)) ->
                  i < next_id (visible (db_manager a)))
  /\ form (fst r) = campos_vazios
  /\ id_venda_em_edicao (fst r) = None
  /\ (exists rest, snd r = Tk.ShowInfo "Sucesso" "Venda registrada!" :: rest)
  /\ well_formed_sale v.
Proof.
  intros Hok Hm Hid Hw Hq Hn r v.
  pose proof (dados_da_venda_ok now _ _ _ _ Hok Hm) as Hd. fold v in Hd.
  destruct Hok as (Hb & Hq' & Hpos & Hp & Hneg).
  pose proof (proj2 (blank_field _) Hb) as Hb'.
  destruct (salvar_dados_written like fw fr now a v
              {| committed := insert_row (visible (db_manager a)) v; pending := None |}
              [] Hb' Hd) as (t & rest & E).
  { rewrite Hid. now apply insert_sale_done. }
  subst r. rewrite E. cbn [fst snd db_manager pending committed insert_row vendas
                           form id_venda_em_edicao app].
  unfold sucesso. rewrite Hid.
  repeat split; eauto using next_id_fresh.
  - cbn [dados_values] in Hb. apply Forall_cons in Hb as [H _]. exact H.
  - cbn [dados_values] in Hb. apply Forall_cons in Hb as [_ Hb].
    apply Forall_cons in Hb as [H _]. exact H.
Qed.

Lemma X15_salvar_dados_witness :
  vendas (committed (db_manager
    (fst (salvar_dados Exemplos.like_any no_faults no_faults Exemplos.now
            Exemplos.loja))))
  = vendas (visible (db_manager Exemplos.loja))
    ++ [(2, venda_do_form Exemplos.now Exemplos.balcao 3
              (S754_finite false 5910974510923776 (-49))
              (S754_finite false 8866461766385664 (-48)))].
Proof.
  refine (proj1 (proj2
    (X15_salvar_dados_registers_the_sale Exemplos.like_any no_faults no_faults
       Exemplos.now Exemplos.loja 3
       (S754_finite false 5910974510923776 (-49))
       (S754_finite false 8866461766385664 (-48)) _ _ _ _ _ _))).
  - unfold form_ok. repeat split; try (vm_compute; reflexivity).
    repeat constructor; vm_compute; discriminate.
  - vm_compute; reflexivity.
  - reflexivity.
  - split; reflexivity.
  - reflexivity.
  - vm_compute; reflexivity.
Defined.

(** X16.  In the edit mode [salvar_dados] replaces the sale under edit and
    adds none: with a form that holds a sale and an engine that raises
    nothing, the table keeps its ids in their order, the rows with the
    edited id carry the data of the form and every other row is as it was.
    It shows "Venda atualizada!" and leaves the edit mode - also when no
    row has the edited id any more, in which case the table is unchanged. *)
Theorem X16_salvar_dados_updates_the_edited_sale like fw fr now a q p pf sale_id :
  form_ok (form a) q p ->
  mul_int_float q p = inr pf ->
  id_venda_em_edicao a = Some sale_id ->
  write_ok fw ->
  fits_int64 q = true ->
  fits_int64 sale_id = true ->
  let r := salvar_dados like fw fr now a in
  let v := venda_do_form now (form a) q p pf in
  pending (db_manager (fst r)) = None
  /\ vendas (committed (db_manager (fst r)))
     = map (fun x => if fst x =? sale_id then (sale_id, v) else x)
           (vendas (visible (db_manager a)))
  /\ ((forall i w, (i, w) ∈ vendas (visible (db_manager a)) -> i <> sale_id) ->
      committed (db_manager (fst r)) = visible (db_manager a))
  /\ form (fst r) = campos_vazios
  /\ id_venda_em_edicao (fst r) = None
  /\ (exists rest, snd r = Tk.ShowInfo "Sucesso" "Venda atualizada!" :: rest).
Proof.
  intros Hok Hm Hid Hw Hq Hn r v.
  pose proof (dados_da_venda_ok now _ _ _ _ Hok Hm) as Hd. fold v in Hd.
  destruct Hok as (Hb & _).
  pose proof (proj2 (blank_field _) Hb) as Hb'.
  destruct (salvar_dados_written like fw fr now a v
              {| committed :=
                   {| vendas := map (fun r => if fst r =? sale_id
                                              then (fst r, v) else r)
                                    (vendas (visible (db_manager a)));
                      seq := seq (visible (db_manager a)) |};
                 pending := None |}
              [] Hb' Hd) as (t & rest & E).
  { rewrite Hid. now apply update_sale_done. }
  subst r. rewrite E. cbn [fst snd db_manager pending committed vendas
                           form id_venda_em_edicao app].
  unfold sucesso. rewrite Hid.
  split; [reflexivity|]. split; [|split; [|eauto]].
  - apply map_ext. intros [i w]. cbn [fst].
    destruct (Z.eqb_spec i sale_id); congruence.
  - intros Ha. rewrite (update_absent _ _ _ Ha). now destruct (visible (db_manager a)).
Qed.

Lemma X16_salvar_dados_witness :
  vendas (committed (db_manager
    (fst (salvar_dados Exemplos.like_any no_faults no_faults Exemplos.now
            Exemplos.loja_em_edicao))))
  = map (fun x => if fst x =? 1
                  then (1, venda_do_form Exemplos.now Exemplos.balcao 3
                             (S754_finite false 5910974510923776 (-49))
                             (S754_finite false 8866461766385664 (-48)))
                  else x)
        (vendas (visible (db_manager Exemplos.loja_em_edicao))).
Proof.
  refine (proj1 (proj2
    (X16_salvar_dados_updates_the_edited_sale Exemplos.like_any no_faults
       no_faults Exemplos.now Exemplos.loja_em_edicao 3
       (S754_finite false 5910974510923776 (-49))
       (S754_finite false 8866461766385664 (-48)) 1 _ _ _ _ _ _))).
  - unfold form_ok. repeat split; try (vm_compute; reflexivity).
    repeat constructor; vm_compute; discriminate.
  - vm_compute; reflexivity.
  - reflexivity.
  - split; reflexivity.
  - reflexivity.
  - reflexivity.
Defined.

(** X17.  When the engine refuses the statement, [salvar_dados] still
    reports success.  With a form that holds a sale, the error box of
    [insert_sale] or [update_sale] is followed by the box "Venda
    registrada!" or "Venda atualizada!"; nothing has been committed, no
    transaction is open, and the six fields are emptied and the edit mode
    left all the same. *)
Theorem X17_salvar_dados_reports_success_after_a_database_error
    like fw fr now a q p pf :
  form_ok (form a) q p ->
  mul_int_float q p = inr pf ->
  fits_int64 q = true ->
  (forall sale_id, id_venda_em_edicao a = Some sale_id -> fits_int64 sale_id = true) ->
  stmt_fails fw 0 = true ->
  let r := salvar_dados like fw fr now a in
  committed (db_manager (fst r)) = committed (db_manager a)
  /\ pending (db_manager (fst r)) = None
  /\ form (fst r) = campos_vazios
  /\ id_venda_em_edicao (fst r) = None
  /\ (exists ev rest, snd r = ev :: sucesso a :: rest /\ erro_de_banco ev).
Proof.
  intros Hok Hm Hq Hn Hs r.
  pose proof (dados_da_venda_ok now _ _ _ _ Hok Hm) as Hd.
  set (v := venda_do_form now (form a) q p pf) in Hd.
  destruct Hok as (Hb & _).
  pose proof (proj2 (blank_field _) Hb) as Hb'.
  assert (Hw : exists ev,
             match id_venda_em_edicao a with
             | Some sale_id => update_sale fw (db_manager a) sale_id v
             | None => insert_sale fw (db_manager a) v
             end = (rollback (db_manager a), [ev], None) /\ erro_de_banco ev).
  { destruct (id_venda_em_edicao a) as [sale_id|].
    - unfold update_sale, execute_update. cbn [quantidade v venda_do_form].
      rewrite Hq, (Hn sale_id eq_refl), Hs. cbn [negb orb finish_write].
      eexists. split; [reflexivity|]. unfold erro_de_banco, Crud.erro. eauto.
    - unfold insert_sale, executemany. cbn [execute_each quantidade v venda_do_form].
      rewrite Hq, Hs. cbn [negb orb finish_write].
      eexists. split; [reflexivity|]. unfold erro_de_banco, Crud.erro. eauto. }
  destruct Hw as (ev & Hw & Hev).
  destruct (salvar_dados_written like fw fr now a v _ _ Hb' Hd Hw)
    as (t & rest & E).
  subst r. rewrite E. cbn [fst snd db_manager rollback pending committed
                           form id_venda_em_edicao app].
  repeat split; eauto.
Qed.

Lemma X17_salvar_dados_witness :
  exists ev rest,
    snd (salvar_dados Exemplos.like_any Casos.engine_down no_faults Exemplos.now
           Exemplos.loja)
    = ev :: sucesso Exemplos.loja :: rest
    /\ erro_de_banco ev.
Proof.
  refine (proj2 (proj2 (proj2 (proj2
    (X17_salvar_dados_reports_success_after_a_database_error Exemplos.like_any
       Casos.engine_down no_faults Exemplos.now Exemplos.loja 3
       (S754_finite false 5910974510923776 (-49))
       (S754_finite false 8866461766385664 (-48)) _ _ _ _ _))))).
  - unfold form_ok. repeat split; try (vm_compute; reflexivity).
    repeat constructor; vm_compute; discriminate.
  - vm_compute; reflexivity.
  - reflexivity.
  - discriminate.
  - reflexivity.
Defined.

(** ** The table *)

Lemma str_of_int_inj a b : str_of_int a = str_of_int b -> a = b.
Proof.
  unfold str_of_int. intros H. apply DecimalZ.to_int_inj.
  assert (N : forall z, Z.to_int z <> Decimal.Pos Decimal.Nil
                        /\ Z.to_int z <> Decimal.Neg Decimal.Nil).
  { intros [|p|p]; cbn; split; try discriminate; intros [= E];
      now apply DecimalPos.Unsigned.to_uint_nonnil in E. }
  apply (f_equal NilZero.int_of_string) in H.
  rewrite !NilZero.isi in H by apply N. congruence.
Qed.

Lemma str_of_int_not_total n : str_of_int n <> TOTAL_ROW_ID.
Proof.
  unfold str_of_int, TOTAL_ROW_ID.
  destruct (Z.to_int n) as [d|d]; [destruct d|]; cbn; discriminate.
Qed.

Lemma tree_insert_cases t it :
  ((iid it ∈ map iid t) /\ exists m, tree_insert t it = inl (TclError m))
  \/ ((iid it ∉ map iid t) /\ tree_insert t it = inr (t ++ [it])).
Proof.
  unfold tree_insert.
  destruct (existsb _ t) eqn:E.
  - left. split; [|eauto]. apply existsb_exists in E as (x & Hx & E).
    apply String.eqb_eq in E. rewrite <- E.
    apply list_elem_of_In, in_map, Hx.
  - right. split; [|reflexivity]. intros Hin.
    apply list_elem_of_In, in_map_iff in Hin as (x & Hx & Hin).
    assert (existsb (fun x => String.eqb (iid x) (iid it)) t = true); [|congruence].
    apply existsb_exists. exists x. split; [exact Hin|]. now apply String.eqb_eq.
Qed.

Lemma linha_cases v :
  (exists pu pf,
     preco_u v = Some pu /\ preco_f v = Some pf
     /\ linha v = inr {| iid := str_of_int (venda_id v);
                         values := [data_h v; nome_c v; nome_p v; str_of_int (qtd v);
                                    replace_dot (format_2f pu); tipo_p v;
                                    replace_dot (format_2f pf); nome_v v] |})
  \/ ((preco_u v = None \/ preco_f v = None)
      /\ exists m, linha v = inl (TypeError m)).
Proof.
  unfold linha, format_price.
  destruct (preco_u v) as [pu|]; [|right; split; [now left|cbn; eauto]].
  destruct (preco_f v) as [pf|]; [|right; split; [now right|cbn; eauto]].
  left. exists pu, pf. auto.
Qed.

Lemma linha_iid v it : linha v = inr it -> iid it = str_of_int (venda_id v).
Proof.
  destruct (linha_cases v) as [(pu & pf & _ & _ & ->)|[_ [m ->]]]; [|discriminate].
  now intros [= <-].
Qed.

Lemma linhas_iid vs items :
  Forall2 (fun v it => linha v = inr it) vs items ->
  map iid items = map (fun v => str_of_int (venda_id v)) vs.
Proof.
  induction 1 as [|v it vs items H _ IH]; [reflexivity|].
  cbn [map]. now rewrite (linha_iid v it H), IH.
Qed.

(** The loop of [atualizar_tabela] on rows without NULL and without a
    repeated id. *)
Lemma inserir_vendas_done vs : forall t total,
  Forall (fun v => preco_u v <> None /\ preco_f v <> None) vs ->
  NoDup (map iid t ++ map (fun v => str_of_int (venda_id v)) vs) ->
  exists items total',
    inserir_vendas vs t total = (t ++ items, inr total')
    /\ Forall2 (fun v it => linha v = inr it) vs items.
Proof.
  induction vs as [|v vs IH]; intros t total Hp Hnd; cbn [inserir_vendas].
  - exists [], total. rewrite app_nil_r. split; [reflexivity|constructor].
  - apply Forall_cons in Hp as [[Hu Hf] Hp].
    destruct (linha_cases v) as [(pu & pf & Eu & Ef & El)|[[E|E] _]];
      [|congruence|congruence].
    rewrite El.
    set (it := {| iid := str_of_int (venda_id v); values := _ |}) in *.
    cbn [map] in Hnd.
    destruct (tree_insert_cases t it) as [[Hin _]|[_ ->]].
    { exfalso. apply NoDup_app in Hnd as (_ & Hd & _).
      apply (Hd _ Hin). left. }
    rewrite Ef.
    destruct (IH (t ++ [it]) (SFadd prec emax total pf) Hp) as (items & total' & E & Hi).
    { rewrite map_app. cbn [map iid it]. now rewrite <- app_assoc. }
    exists (it :: items), total'. rewrite E, <- app_assoc. cbn [app].
    split; [reflexivity|]. now constructor.
Qed.

(** What the loop raises, and the items that it leaves in the tree. *)
Lemma inserir_vendas_tree vs : forall t total t' r,
  inserir_vendas vs t total = (t', r) ->
  (forall x, x ∈ map iid t' -> (x ∈ map iid t) \/ exists n, x = str_of_int n)
  /\ (forall e, r = inl e -> erro_inesperado (tratar e)).
Proof.
  induction vs as [|v vs IH]; intros t total t' r; cbn [inserir_vendas].
  - intros [= <- <-]. split; [auto|discriminate].
  - destruct (linha_cases v) as [(pu & pf & Eu & Ef & ->)|[_ [m ->]]].
    + set (it := {| iid := str_of_int (venda_id v); values := _ |}).
      destruct (tree_insert_cases t it) as [[_ [m ->]]|[_ ->]].
      * intros [= <- <-]. split; [auto|]. intros e [= <-]. red. cbn. eauto.
      * rewrite Ef. intros H. apply IH in H as [H1 H2]. split; [|exact H2].
        intros x Hx. apply H1 in Hx as [Hx|Hx]; [|now right].
        rewrite map_app in Hx. apply elem_of_app in Hx as [Hx|Hx]; [now left|].
        right. exists (venda_id v). cbn in Hx. now apply list_elem_of_singleton in Hx.
    + intros [= <- <-]. split; [auto|]. intros e [= <-]. red. cbn. eauto.
Qed.

(** A row with a NULL price ends the loop with an exception. *)
Lemma inserir_vendas_null vs : forall t total v,
  v ∈ vs -> preco_u v = None \/ preco_f v = None ->
  exists t' e, inserir_vendas vs t total = (t', inl e).
Proof.
  induction vs as [|w vs IH]; intros t total v Hin Hv.
  - now apply elem_of_nil in Hin.
  - cbn [inserir_vendas].
    destruct (linha_cases w) as [(pu & pf & Eu & Ef & ->)|[_ [m ->]]]; [|eauto].
    destruct (tree_insert_cases t {| iid := str_of_int (venda_id w);
                                     values := [data_h w; nome_c w; nome_p w;
                                                str_of_int (qtd w);
                                                replace_dot (format_2f pu); tipo_p w;
                                                replace_dot (format_2f pf); nome_v w] |})
      as [[_ [m ->]]|[_ ->]]; [eauto|].
    rewrite Ef. apply elem_of_cons in Hin as [->|Hin]; [|eauto].
    destruct Hv; congruence.
Qed.

Lemma NoDup_ids_filter (f : Z * sale -> bool) l :
  NoDup (map fst l) -> NoDup (map fst (List.filter f l)).
Proof.
  induction l as [|r l IH]; cbn [map List.filter]; [auto|].
  intros H. apply NoDup_cons in H as [Hr H].
  destruct (f r); [|auto]. cbn [map]. apply NoDup_cons. split; [|auto].
  intros Hin. apply Hr.
  apply list_elem_of_In, in_map_iff in Hin as (x & <- & Hin).
  apply filter_In in Hin as [Hin _].
  apply list_elem_of_In, in_map, Hin.
Qed.

(** The rows that [fetch_all_sales] lists when the query succeeds. *)
Lemma fetch_all_sales_rows like fl c term :
  stmt_fails fl 0 = false ->
  exists l,
    fetch_all_sales like fl c term = ([], map select_venda l)
    /\ (forall r, r ∈ l -> r ∈ vendas (visible c))
    /\ (NoDup (map fst (vendas (visible c))) -> NoDup (map fst l))
    /\ (term = "" -> forall r, r ∈ vendas (visible c) -> r ∈ l).
Proof.
  intros Hf. unfold fetch_all_sales. rewrite Hf.
  eexists. split; [reflexivity|]. split; [|split].
  - intros r Hr. rewrite order_by_id_desc_perm in Hr.
    destruct (String.eqb term ""); [exact Hr|].
    apply list_elem_of_In, filter_In in Hr as [Hr _]. now apply list_elem_of_In.
  - intros Hnd. apply NoDup_ListNoDup.
    eapply Permutation_NoDup;
      [apply Permutation_map; symmetry; apply order_by_id_desc_perm|].
    apply NoDup_ListNoDup.
    destruct (String.eqb term ""); [exact Hnd|now apply NoDup_ids_filter].
  - intros -> r Hr. rewrite order_by_id_desc_perm. exact Hr.
Qed.

Lemma real_column_none x : real_column x = None <-> x = S754_nan.
Proof. destruct x; cbn; split; congruence. Qed.

(** [atualizar_tabela] on a table whose ids are distinct and whose prices
    are not NaN. *)
Lemma atualizar_tabela_done like fl a :
  stmt_fails fl 0 = false ->
  NoDup (map fst (vendas (visible (db_manager a)))) ->
  (forall i v, (i, v) ∈ vendas (visible (db_manager a)) ->
               preco v <> S754_nan /\ preco_final v <> S754_nan) ->
  exists items total,
    atualizar_tabela like fl a = (with_tree a (items ++ [total_row total]), [], None)
    /\ Forall2 (fun v it => linha v = inr it)
         (snd (fetch_all_sales like fl (db_manager a) (strip (search_entry a))))
         items.
Proof.
  intros Hf Hnd Hp. unfold atualizar_tabela.
  destruct (fetch_all_sales_rows like fl (db_manager a) (strip (search_entry a)) Hf)
    as (l & -> & Hl & Hl' & _).
  cbn [snd].
  destruct (inserir_vendas_done (map select_venda l) [] float_zero)
    as (items & total & -> & Hi).
  { apply Forall_forall. intros v Hv.
    apply list_elem_of_In, in_map_iff in Hv as ([i w] & <- & Hv).
    apply list_elem_of_In, Hl, Hp in Hv as [H1 H2].
    cbn [select_venda preco_u preco_f snd]. rewrite !real_column_none. auto. }
  { cbn [map app]. rewrite map_map. cbn [select_venda venda_id].
    rewrite <- (map_map fst str_of_int).
    apply NoDup_ListNoDup, NoDup_map_NoDup_ForallPairs;
      [|now apply NoDup_ListNoDup, Hl'].
    intros x y _ _. apply str_of_int_inj. }
  cbn [app].
  destruct (tree_insert_cases items (total_row total)) as [[Hin _]|[_ ->]].
  { exfalso. rewrite (linhas_iid _ _ Hi) in Hin.
    apply list_elem_of_In, in_map_iff in Hin as (v & Hv & _).
    now apply str_of_int_not_total in Hv. }
  exists items, total. auto.
Qed.

(** X19.  On a table whose ids are distinct and whose prices and final
    prices are not NaN, [atualizar_tabela] raises nothing when the query
    succeeds, and the tree then holds one item for each sale that
    [fetch_all_sales] lists for the stripped search text, under the id of
    the sale and in the order of the listing, followed by the row of the
    total as the last item. *)
Theorem X19_atualizar_tabela_shows_the_listing like fl a :
  stmt_fails fl 0 = false ->
  NoDup (map fst (vendas (visible (db_manager a)))) ->
  (forall i v, (i, v) ∈ vendas (visible (db_manager a)) ->
               preco v <> S754_nan /\ preco_final v <> S754_nan) ->
  let r := atualizar_tabela like fl a in
  snd r = None
  /\ snd (fst r) = []
  /\ map iid (tree (fst (fst r)))
     = map (fun v => str_of_int (venda_id v))
           (snd (fetch_all_sales like fl (db_manager a) (strip (search_entry a))))
       ++ [TOTAL_ROW_ID]
  /\ db_manager (fst (fst r)) = db_manager a.
Proof.
  intros Hf Hnd Hp r. subst r.
  destruct (atualizar_tabela_done like fl a Hf Hnd Hp) as (items & total & -> & Hi).
  cbn [fst snd tree with_tree db_manager].
  rewrite map_app, (linhas_iid _ _ Hi). auto.
Qed.

Lemma X19_atualizar_tabela_witness :
  map iid (tree (fst (fst (atualizar_tabela Exemplos.like_any no_faults Exemplos.loja))))
  = ["1"; TOTAL_ROW_ID].
Proof.
  refine (proj1 (proj2 (proj2
    (X19_atualizar_tabela_shows_the_listing Exemplos.like_any no_faults
       Exemplos.loja _ _ _)))).
  - reflexivity.
  - cbn. repeat constructor. intros H. now apply elem_of_nil in H.
  - intros i v H. cbn in H. apply list_elem_of_singleton in H.
    injection H as -> ->. split; vm_compute; discriminate.
Defined.

(** A sale with a NaN price in the listing makes [atualizar_tabela]
    raise. *)
Lemma atualizar_tabela_null like fl a i v :
  stmt_fails fl 0 = false ->
  strip (search_entry a) = "" ->
  (i, v) ∈ vendas (visible (db_manager a)) ->
  preco v = S754_nan \/ preco_final v = S754_nan ->
  exists t e,
    atualizar_tabela like fl a = (with_tree a t, [], Some e)
    /\ erro_inesperado (tratar e)
    /\ (TOTAL_ROW_ID ∉ map iid t).
Proof.
  intros Hf Hs Hin Hv. unfold atualizar_tabela. rewrite Hs.
  destruct (fetch_all_sales_rows like fl (db_manager a) "" Hf)
    as (l & -> & _ & _ & Hl).
  destruct (inserir_vendas_null (map select_venda l) [] float_zero
              (select_venda (i, v))) as (t & e & E).
  { apply list_elem_of_In, in_map, list_elem_of_In, Hl; [reflexivity|exact Hin]. }
  { cbn [select_venda preco_u preco_f snd]. now rewrite !real_column_none. }
  rewrite E. exists t, e. split; [reflexivity|].
  apply inserir_vendas_tree in E as [H1 H2]. split; [now apply H2|].
  intros H. apply H1 in H as [H|[n H]].
  - now apply elem_of_nil in H.
  - symmetry in H. now apply str_of_int_not_total in H.
Qed.

(** X20.  One sale whose price or final price is NaN - which the column
    gives back as NULL - stops the table.  When the search text is blank
    and such a sale is in the table, [atualizar_tabela] raises an exception
    after the query: the tree is left with the items made before it and
    without the row of the total, and the table, the fields and the edit
    mode are untouched. *)
Theorem X20_a_nan_price_stops_the_table like fl a i v :
  stmt_fails fl 0 = false ->
  strip (search_entry a) = "" ->
  (i, v) ∈ vendas (visible (db_manager a)) ->
  preco v = S754_nan \/ preco_final v = S754_nan ->
  let r := atualizar_tabela like fl a in
  (exists e, snd r = Some e)
  /\ (TOTAL_ROW_ID ∉ map iid (tree (fst (fst r))))
  /\ fst (fst r) = with_tree a (tree (fst (fst r))).
Proof.
  intros Hf Hs Hin Hv r. subst r.
  destruct (atualizar_tabela_null like fl a i v Hf Hs Hin Hv) as (t & e & -> & _ & Ht).
  cbn [fst snd tree with_tree]. eauto.
Qed.

Lemma X20_a_nan_price_witness :
  exists e,
    snd (atualizar_tabela Exemplos.like_any no_faults Exemplos.loja_nan) = Some e.
Proof.
  refine (proj1
    (X20_a_nan_price_stops_the_table Exemplos.like_any no_faults Exemplos.loja_nan
       1 {| nome_cliente := "Rui"; nome_produto := "Caderno";
            quantidade := 1; preco := S754_nan;
            tipo_pagamento := "Pix"; preco_final := S754_nan;
            nome_vendedor := "Lia";
            data_hora := "01/11/2026 09:00:00" |} _ _ _ _)).
  - reflexivity.
  - vm_compute; reflexivity.
  - cbn. apply list_elem_of_singleton. reflexivity.
  - now left.
Defined.



(** ** Deleting the selection *)

Lemma filter_not_selected (l : list (Z * sale)) i ids :
  List.filter (fun x => negb (existsb (Z.eqb (fst x)) ids))
    (List.filter (fun r => negb (fst r =? i)) l)
  = List.filter (fun x => negb (existsb (Z.eqb (fst x)) (i :: ids))) l.
Proof.
  induction l as [|r l IH]; cbn [List.filter existsb]; [reflexivity|].
  destruct (fst r =? i); cbn [negb orb List.filter]; rewrite IH; reflexivity.
Qed.

(** The loop of [excluir_venda_selecionada] when every delete goes
    through. *)
Lemma excluir_cada_done fls selecionados ids :
  selected selecionados ids ->
  (forall k, write_ok (fls k)) ->
  selecionados <> [] ->
  forall k c,
    excluir_cada fls k c selecionados
    = ({| committed :=
            {| vendas := List.filter (fun x => negb (existsb (Z.eqb (fst x)) ids))
                                     (vendas (visible c));
               seq := seq (visible c) |};
          pending := None |}, [], None).
Proof.
  intros Hsel Hw. induction Hsel as [|s i sels ids' [Hs Hi] Hsel IH]; [congruence|].
  intros _ k c. cbn [excluir_cada]. rewrite Hs.
  rewrite (delete_sale_done (fls k) c i (Hw k) Hi).
  destruct sels as [|s' sels].
  - inversion Hsel; subst. cbn [excluir_cada app existsb].
    do 3 f_equal. f_equal. apply filter_ext. intros r. now rewrite orb_false_r.
  - rewrite IH by discriminate.
    cbn [visible pending committed vendas seq app]. now rewrite filter_not_selected.
Qed.

(** X18.  [excluir_venda_selecionada] deletes what is selected and nothing
    else.  When the items selected, the row of the total apart, carry the
    ids [ids], the question is answered with yes and the engine raises
    nothing, the table afterwards holds exactly the sales whose id is not
    among [ids], in their order, and the box names the number of items
    selected.  When the question is answered with no, nothing changes and
    nothing is shown. *)
Theorem X18_excluir_venda_selecionada_removes_the_selected
    like fls fr selection a ids :
  selected (List.filter (fun item => negb (String.eqb item TOTAL_ROW_ID)) selection)
           ids ->
  ids <> [] ->
  (forall k, write_ok (fls k)) ->
  let r := excluir_venda_selecionada like fls fr selection true a in
  let c' := db_manager (fst (fst r)) in
  pending c' = None
  /\ vendas (committed c')
     = List.filter (fun x => negb (existsb (Z.eqb (fst x)) ids))
                   (vendas (visible (db_manager a)))
  /\ (forall i v, (i, v) ∈ vendas (committed c')
                  <-> (i, v) ∈ vendas (visible (db_manager a)) /\ i ∉ ids)
  /\ (exists rest,
        snd (fst r)
        = Tk.ShowInfo "Sucesso"
            (str_of_int (Z.of_nat (length ids)) ++ " venda(s) excluída(s).") :: rest)
  /\ excluir_venda_selecionada like fls fr selection false a = (a, [], None).
Proof.
  intros Hsel Hne Hw r c'. subst c' r. unfold excluir_venda_selecionada.
  set (sels := List.filter _ selection) in *.
  assert (Hs : sels <> []).
  { intros E. rewrite E in Hsel. inversion Hsel. congruence. }
  pose proof (Forall2_length _ _ _ Hsel) as Hlen.
  rewrite (excluir_cada_done fls sels ids Hsel Hw Hs 0 (db_manager a)).
  destruct sels as [|s sels]; [congruence|].
  set (c := {| committed := _; pending := None |}).
  destruct (atualizar_tabela_frame like fr (with_db a c)) as [t Ht].
  destruct (atualizar_tabela like fr (with_db a c)) as [[a' shown'] unc'].
  cbn [fst] in Ht. subst a'.
  assert (Hdb : db_manager
                  (fst (fst (match unc' with
                             | Some e =>
                               (with_tree (with_db a c) t,
                                [] ++ [Tk.ShowInfo "Sucesso"
                                         (str_of_int (Z.of_nat (length (s :: sels)))
                                          ++ " venda(s) excluída(s).")] ++ shown',
                                Some e)
                             | None =>
                               (limpar_campos_e_resetar_edicao
                                  (with_tree (with_db a c) t),
                                [] ++ [Tk.ShowInfo "Sucesso"
                                         (str_of_int (Z.of_nat (length (s :: sels)))
                                          ++ " venda(s) excluída(s).")] ++ shown',
                                None)
                             end))) = c)
    by (destruct unc'; reflexivity).
  rewrite Hdb. subst c. cbn [pending committed vendas].
  split; [reflexivity|]. split; [reflexivity|]. split; [|split; [|reflexivity]].
  - intros i v. rewrite !list_elem_of_In, filter_In, negb_true_iff. cbn [fst].
    apply and_iff_compat_l. rewrite <- not_true_iff_false, existsb_exists.
    split.
    + intros H Hin. apply H. exists i. split; [exact Hin|apply Z.eqb_refl].
    + intros H (j & Hj & E). apply Z.eqb_eq in E. subst j. now apply H.
  - rewrite Hlen. destruct unc'; cbn [fst snd app]; eauto.
Qed.

Lemma X18_excluir_venda_selecionada_witness :
  vendas (committed (db_manager (fst (fst
    (excluir_venda_selecionada Exemplos.like_any (fun _ => no_faults) no_faults
       ["1"; TOTAL_ROW_ID] true Exemplos.loja)))))
  = [].
Proof.
  refine (proj1 (proj2
    (X18_excluir_venda_selecionada_removes_the_selected Exemplos.like_any
       (fun _ => no_faults) no_faults ["1"; TOTAL_ROW_ID] Exemplos.loja [1] _ _ _))).
  - repeat constructor.
  - discriminate.
  - intros k. split; reflexivity.
Defined.

(** * The forms of the order book and of the calculator *)

(** X22.  [_validate_inputs] never raises, and it returns the order exactly
    when the entries hold one.  When no entry is blank, the quantity reads
    as an integer above zero and the price as a float that is not below
    zero, it shows nothing and returns the stripped texts with the two
    numbers.  In every other case it shows exactly one warning and returns
    [None]. *)
Theorem X22_validate_inputs_accepts_exactly_the_orders e :
  (forall q p, entries_ok e q p ->
     CadernoVirtual._validate_inputs e = ([], inr (Some (encomenda_de e q p))))
  /\ ((forall q p, ~ entries_ok e q p) ->
      exists message,
        CadernoVirtual._validate_inputs e
        = ([CadernoVirtual.atencao message], inr None)).
Proof.
  unfold CadernoVirtual._validate_inputs, entries_ok. cbv zeta. split.
  - intros q p (Hb & Hq & Hpos & Hp & Hneg).
    apply blank_field in Hb. rewrite Hb, Hq. cbn [bind].
    destruct (Z.leb_spec q 0); [lia|]. cbn [ret]. rewrite Hp. cbn [bind].
    now rewrite Hneg.
  - intros Hno. destruct (existsb _ _) eqn:Hb; [eauto|].
    apply blank_field in Hb.
    destruct (int_of_str _) as [e1|q] eqn:Hq; cbn [bind].
    { apply int_of_str_raises in Hq as [w ->]. eauto. }
    destruct (Z.leb_spec q 0) as [Hle|Hlt]; [cbn [raise]; eauto|]. cbn [ret].
    destruct (float_of_str _) as [e1|p] eqn:Hp; cbn [bind].
    { apply float_of_str_raises in Hp as ->. eauto. }
    destruct (float_negative p) eqn:Hneg; [cbn [raise]; eauto|].
    exfalso. apply (Hno q p). auto.
Qed.

Lemma X22_validate_inputs_witness :
  CadernoVirtual._validate_inputs Exemplos.pedido
  = ([], inr (Some (encomenda_de Exemplos.pedido 2
                      (S754_finite false 7036874417766400 (-49))))).
Proof.
  refine (proj1 (X22_validate_inputs_accepts_exactly_the_orders Exemplos.pedido)
            2 (S754_finite false 7036874417766400 (-49)) _).
  unfold entries_ok. repeat split; try (vm_compute; reflexivity).
  repeat constructor; vm_compute; discriminate.
Defined.

(** ** What the entries of the calculator can hold *)

Lemma float_negative_round m e l :
  float_negative (binary_round_aux prec emax false m e l) = false.
Proof.
  unfold binary_round_aux.
  destruct (shr_fexp prec emax m e l) as [mrs' e'].
  destruct (shr_fexp prec emax _ e' loc_Exact) as [mrs'' e''].
  destruct (shr_m mrs''); [reflexivity| |reflexivity].
  destruct (e'' <=? emax - prec); reflexivity.
Qed.

(** A literal without a sign is not read as a number below zero. *)
Lemma float_negative_decimal m e : float_negative (float_of_decimal false m e) = false.
Proof.
  unfold float_of_decimal. destruct m as [|p|p]; [reflexivity| |reflexivity].
  destruct (Z.leb_spec 0 e) as [He|He].
  - unfold binary_normalize.
    destruct (Z.pos p * 10 ^ e) as [|n|n] eqn:E.
    + reflexivity.
    + unfold binary_round. destruct (shl_align _ _ _). apply float_negative_round.
    + pose proof (Z.pow_pos_nonneg 10 e). lia.
  - cbn [SFdiv xorb]. destruct (SFdiv_core_binary _ _ _ _ _ _) as [[mz ez] lz].
    apply float_negative_round.
Qed.

Lemma plain_not_sign a :
  plain a = true -> Ascii.eqb a "-"%char = false /\ Ascii.eqb a "+"%char = false.
Proof.
  destruct a as [[] [] [] [] [] [] [] []]; vm_compute; intros H;
    first [discriminate|split; reflexivity].
Qed.

Lemma literal_plain l : Forall (fun a => plain a = true) l -> literal l = l.
Proof.
  intros H. unfold literal.
  assert (E : forallb (fun a => byte a <? 128) l = true); [|now rewrite E].
  apply forallb_forall. intros a Ha. rewrite Forall_forall in H.
  apply list_elem_of_In, H in Ha. revert Ha.
  destruct a as [[] [] [] [] [] [] [] []]; vm_compute; intros Ha;
    first [reflexivity|discriminate].
Qed.

Lemma lstrip_plain blank l : Forall (fun a => plain a = true) l ->
  Forall (fun a => plain a = true) (lstrip blank l).
Proof.
  induction 1 as [|a l Ha Hl IH]; cbn [lstrip]; [constructor|].
  destruct (blank a); [exact IH|now constructor].
Qed.

(** [float] reads a text of digits and points as a number that is not below
    zero, when it reads it at all. *)
Lemma float_of_str_plain s x :
  Forall (fun a => plain a = true) (chars s) ->
  float_of_str s = inr x -> float_negative x = false.
Proof.
  intros Hs. unfold float_of_str. cbv zeta.
  rewrite (literal_plain _ Hs).
  destruct (negb (underscores_ok None (chars s))); [discriminate|].
  assert (Hl : Forall (fun a => plain a = true)
                 (strip_chars is_blank (drop_underscores (chars s)))).
  { unfold strip_chars, drop_underscores.
    apply List.Forall_rev, lstrip_plain, List.Forall_rev, lstrip_plain.
    apply Forall_forall. intros a Ha.
    apply list_elem_of_In, filter_In in Ha as [Ha _].
    rewrite Forall_forall in Hs. apply Hs. now apply list_elem_of_In. }
  destruct (strip_chars is_blank (drop_underscores (chars s))) as [|a l] eqn:El.
  - cbn. discriminate.
  - apply Forall_cons in Hl as [Ha Hl].
    destruct (plain_not_sign a Ha) as [Hm Hp].
    cbn [split_sign]. rewrite Hm, Hp.
    destruct (is_word "inf" (a :: l) || is_word "infinity" (a :: l));
      [now intros [= <-]|].
    destruct (is_word "nan" (a :: l)); [now intros [= <-]|].
    destruct (span_digits (a :: l)) as [ip rest].
    destruct (match rest with
              | [] => ([], [])
              | a0 :: r => if Ascii.eqb a0 "."%char then span_digits r else ([], rest)
              end) as [fp rest'].
    destruct (ip ++ fp); [discriminate|].
    destruct (exponent_of rest'); [|discriminate].
    intros [= <-]. apply float_negative_decimal.
Qed.

Lemma accepted_char c :
  contains (String c "") "0123456789.," = true ->
  plain (if Ascii.eqb c ","%char then "."%char else c) = true.
Proof.
  destruct c as [[] [] [] [] [] [] [] []]; vm_compute; intros H;
    first [reflexivity|discriminate].
Qed.

(** X23.  No entry of the calculator can hold a number below zero: a text
    that [validate_input] lets through - digits, one point and one comma at
    most - is converted by [parse_float] to a float that is not below zero,
    whenever it converts at all. *)
Theorem X23_calculator_entries_hold_no_negative_number P x :
  CalculadoraPrecoVenda.validate_input P = true ->
  CalculadoraPrecoVenda.parse_float P = inr x ->
  float_negative x = false.
Proof.
  unfold CalculadoraPrecoVenda.validate_input, CalculadoraPrecoVenda.parse_float.
  destruct (String.eqb P ""); [intros _ [= <-]; reflexivity|].
  destruct (forallb _ (chars P)) eqn:Hall; [|discriminate].
  intros _. apply float_of_str_plain.
  unfold replace_comma, chars, text. rewrite list_ascii_of_string_of_list_ascii.
  apply Forall_forall. intros a Ha.
  apply list_elem_of_In, in_map_iff in Ha as (c & <- & Hc).
  rewrite forallb_forall in Hall. now apply accepted_char, Hall.
Qed.

Lemma X23_calculator_entries_witness :
  float_negative (S754_finite false 7036874417766400 (-49)) = false.
Proof.
  refine (X23_calculator_entries_hold_no_negative_number "12,5" _ _ _);
    vm_compute; reflexivity.
Defined.

(** ** The new sale in the table *)

Lemma order_by_id_desc_last (l : list (Z * sale)) n v :
  (forall i w, (i, w) ∈ l -> i < n) ->
  order_by_id_desc (l ++ [(n, v)]) = (n, v) :: order_by_id_desc l.
Proof.
  unfold order_by_id_desc. rewrite fold_right_app. cbn [fold_right insert_desc].
  induction l as [|[i w] l IH]; intros Hl; cbn [fold_right]; [reflexivity|].
  rewrite IH by (intros i' w' H; apply (Hl i' w'); now right).
  cbn [insert_desc fst].
  assert (i < n) by (apply (Hl i w); left).
  destruct (Z.leb_spec n i); [lia|reflexivity].
Qed.

Lemma real_column_some x : x <> S754_nan -> real_column x = Some (read_back x).
Proof. destruct x; cbn; congruence. Qed.

(** X24.  A sale that has just been registered is the first row of the
    table.  With a form that holds a sale, a blank search text, an engine
    that raises nothing and a table whose ids are distinct and whose prices
    are not NaN, [salvar_dados] shows the single box "Venda registrada!" and
    leaves a tree whose first item carries the new id and shows the time,
    the stripped texts, the quantity, and the price and the final price
    as the columns give them back, with two decimals after a comma. *)
Theorem X24_the_new_sale_heads_the_table like fw fr now a q p pf :
  form_ok (form a) q p ->
  mul_int_float q p = inr pf ->
  id_venda_em_edicao a = None ->
  write_ok fw ->
  fits_int64 q = true ->
  fits_int64 (next_id (visible (db_manager a))) = true ->
  stmt_fails fr 0 = false ->
  strip (search_entry a) = "" ->
  NoDup (map fst (vendas (visible (db_manager a)))) ->
  (forall i v, (i, v) ∈ vendas (visible (db_manager a)) ->
               preco v <> S754_nan /\ preco_final v <> S754_nan) ->
  p <> S754_nan -> pf <> S754_nan ->
  let r := salvar_dados like fw fr now a in
  snd r = [Tk.ShowInfo "Sucesso" "Venda registrada!"]
  /\ exists rest,
       tree (fst r)
       = {| iid := str_of_int (next_id (visible (db_manager a)));
            values := [now; strip (campo_nome_cliente (form a));
                       strip (campo_nome_produto (form a)); str_of_int q;
                       replace_dot (format_2f (read_back p));
                       strip (campo_tipo_pagamento (form a));
                       replace_dot (format_2f (read_back pf));
                       strip (campo_nome_vendedor (form a))] |} :: rest.
Proof.
  intros Hok Hm Hid Hw Hq Hn Hf Hs Hnd Hp Hpn Hpfn r.
  pose proof (dados_da_venda_ok now _ _ _ _ Hok Hm) as Hd.
  set (v := venda_do_form now (form a) q p pf) in *.
  destruct Hok as (Hb & _).
  pose proof (proj2 (blank_field _) Hb) as Hb'.
  set (n := next_id (visible (db_manager a))) in *.
  set (c := {| committed := insert_row (visible (db_manager a)) v; pending := None |}).
  assert (Hwr : match id_venda_em_edicao a with
                | Some sale_id => update_sale fw (db_manager a) sale_id v
                | None => insert_sale fw (db_manager a) v
                end = (c, [], None)).
  { rewrite Hid. now apply insert_sale_done. }
  subst r. rewrite (salvar_dados_after_write like fw fr now a v c [] Hb' Hd Hwr).
  set (a1 := limpar_campos_e_resetar_edicao (with_db a c)).
  assert (Hv : vendas (visible (db_manager a1))
               = vendas (visible (db_manager a)) ++ [(n, v)]) by reflexivity.
  assert (Hfresh : forall i w, (i, w) ∈ vendas (visible (db_manager a)) -> i < n)
    by (intros i w; apply next_id_fresh).
  destruct (atualizar_tabela_done like fr a1 Hf) as (items & total & -> & Hi).
  { rewrite Hv, map_app. apply NoDup_app. split; [exact Hnd|]. split.
    - intros x Hx Hx'. cbn in Hx'. apply list_elem_of_singleton in Hx'. subst x.
      apply list_elem_of_In, in_map_iff in Hx as ([i w] & E & Hx). cbn in E. subst i.
      apply list_elem_of_In, Hfresh in Hx. lia.
    - cbn. apply NoDup_singleton. }
  { intros i w. rewrite Hv, elem_of_app, list_elem_of_singleton.
    intros [H|[= -> ->]]; [eauto|]. now cbn. }
  assert (Hsearch : strip (search_entry a1) = "") by exact Hs.
  rewrite Hsearch in Hi. unfold fetch_all_sales in Hi. rewrite Hf in Hi.
  cbn [String.eqb snd] in Hi. rewrite Hv, order_by_id_desc_last in Hi by exact Hfresh.
  cbn [map] in Hi. inversion Hi as [|sv it vs its Hl _]; subst.
  cbn [fst snd with_tree tree app].
  unfold sucesso. rewrite Hid. split; [reflexivity|].
  unfold linha, select_venda in Hl.
  cbn [preco_u preco_f venda_id data_h nome_c nome_p qtd tipo_p nome_v fst snd
       v venda_do_form preco preco_final data_hora nome_cliente nome_produto
       quantidade tipo_pagamento nome_vendedor] in Hl.
  rewrite (real_column_some p Hpn), (real_column_some pf Hpfn) in Hl.
  cbn [format_price bind ret] in Hl. injection Hl as <-. eauto.
Qed.

Lemma X24_the_new_sale_witness :
  snd (salvar_dados Exemplos.like_any no_faults no_faults Exemplos.now Exemplos.loja)
  = [Tk.ShowInfo "Sucesso" "Venda registrada!"].
Proof.
  refine (proj1
    (X24_the_new_sale_heads_the_table Exemplos.like_any no_faults no_faults
       Exemplos.now Exemplos.loja 3
       (S754_finite false 5910974510923776 (-49))
       (S754_finite false 8866461766385664 (-48)) _ _ _ _ _ _ _ _ _ _ _ _)).
  - unfold form_ok. repeat split; try (vm_compute; reflexivity).
    repeat constructor; vm_compute; discriminate.
  - vm_compute; reflexivity.
  - reflexivity.
  - split; reflexivity.
  - reflexivity.
  - vm_compute; reflexivity.
  - reflexivity.
  - vm_compute; reflexivity.
  - cbn. repeat constructor. intros H. now apply elem_of_nil in H.
  - intros i v H. cbn in H. apply list_elem_of_singleton in H.
    injection H as -> ->. split; vm_compute; discriminate.
  - discriminate.
  - discriminate.
Defined.

(** * Texts outside ASCII, and the zero with a sign *)

(** A no-break space is whitespace for [strip], [int] and [float], and the
    digits of other scripts are digits: a form whose client name is a
    no-break space is refused as blank, and one whose quantity is a
    full-width three is taken.  A price of minus zero is stored and comes
    back from the table as zero, so the table shows it without the sign. *)
Lemma blanks_and_digits_outside_ascii :
  strip Exemplos.nbsp = ""
  /\ int_of_str ("3" ++ Exemplos.nbsp)%string = inr 3
  /\ int_of_str "３" = inr 3
  /\ float_of_str ("１２.５" ++ Exemplos.nbsp)%string
     = inr (S754_finite false 7036874417766400 (-49))
  /\ salvar_dados Exemplos.like_any no_faults no_faults Exemplos.now
       (Exemplos.com_form Exemplos.nome_nbsp None)
     = (Exemplos.com_form Exemplos.nome_nbsp None, [campos_obrigatorios])
  /\ map values
       (firstn 1
          (tree (fst (salvar_dados Exemplos.like_any no_faults no_faults
                        Exemplos.now (Exemplos.com_form Exemplos.tres_largo None)))))
     = [[Exemplos.now; "Ana"; "Caneta"; "3"; "0,00"; "Pix"; "0,00"; "Lia"]].
Proof. vm_compute. repeat split; reflexivity. Qed.
